(** * ERT configuration loading: a shallow embedding of [ert/config/ert_config.py]

    The development follows the Python module function by function.  Python
    values are modelled by the Rocq data they denote, exceptions by an error
    result, [warnings.warn] / [logger] calls by entries appended to the state,
    and mutable job objects by cells of an explicit object store, so that
    [copy.deepcopy] and attribute assignment keep their aliasing behaviour.

    Everything the module imports but does not define (Python built-ins that
    are not reproduced here, the file system, the sibling modules of the
    package) is taken as a parameter, gathered in three interfaces. *)

From Stdlib Require Import ZArith String Ascii List Lia Bool DecimalString.
From stdpp Require Import base option list gmap strings.

Open Scope string_scope.
Open Scope list_scope.

(** ** Python strings *)

Module Str.

  (** [s.startswith(p)] *)
Fixpoint startswith (p s : string) : bool :=
    match p, s with
    | EmptyString, _ => true
    | String a p', String b s' => if Ascii.eqb a b then startswith p' s' else false
    | String _ _, EmptyString => false
    end.

  (** [needle in s] for strings *)
Fixpoint contains (needle s : string) : bool :=
    if startswith needle s then true
    else match s with
         | EmptyString => false
         | String _ s' => contains needle s'
         end.

  (** [s[0]]; [None] stands for the [IndexError] of an empty string *)
Definition first (s : string) : option ascii :=
    match s with
    | EmptyString => None
    | String c _ => Some c
    end.

  (** [s[-1]] *)
Fixpoint last (s : string) : option ascii :=
    match s with
    | EmptyString => None
    | String c EmptyString => Some c
    | String _ s' => last s'
    end.

  (** Worker of [replace]: [skip] characters of a match just replaced are
      still to be dropped. *)
Fixpoint replace_from (old new : string) (skip : nat) (s : string) : string :=
    match s with
    | EmptyString => EmptyString
    | String c s' =>
        match skip with
        | S n => replace_from old new n s'
        | O =>
            if startswith old s
            then new +:+ replace_from old new (String.length old - 1) s'
            else String c (replace_from old new 0 s')
        end
    end.

  (** [s.replace(old, new)] for a non-empty [old] *)
Definition replace (old new s : string) : string := replace_from old new 0 s.

  (** [sep.join(parts)] *)
Fixpoint join (sep : string) (parts : list string) : string :=
    match parts with
    | [] => EmptyString
    | [p] => p
    | p :: rest => p +:+ sep +:+ join sep rest
    end.

  (** Worker of [split]: [cur] is the component read so far, reversed. *)
Fixpoint split_from (sep : ascii) (cur : string) (s : string) : list string :=
    match s with
    | EmptyString => [String.rev cur]
    | String c s' =>
        if Ascii.eqb c sep
        then String.rev cur :: split_from sep EmptyString s'
        else split_from sep (String c cur) s'
    end.

  (** [s.split(sep)] for a one-character separator *)
Definition split (sep : ascii) (s : string) : list string :=
    split_from sep EmptyString s.

End Str.

(** ** Insertion-ordered dictionaries

    A Python [dict] keeps its keys in insertion order, and that order is
    visible (in [list(d.keys())], in [d.items()]).  Assigning to a key that is
    already present keeps the key's position. *)

Module Dict.

Definition t (K V : Type) : Type := list (K * V).

Section Operations.
Context {K V : Type} `{EqDecision K}.

    (** [d.get(k)] *)
Fixpoint get (k : K) (d : t K V) : option V :=
      match d with
      | [] => None
      | (k', v) :: d' => if bool_decide (k = k') then Some v else get k d'
      end.

    (** [k in d] *)
Definition mem (k : K) (d : t K V) : bool :=
      match get k d with Some _ => true | None => false end.

    (** [d[k] = v] *)
Fixpoint set (k : K) (v : V) (d : t K V) : t K V :=
      match d with
      | [] => [(k, v)]
      | (k', v') :: d' =>
          if bool_decide (k = k') then (k', v) :: d' else (k', v') :: set k v d'
      end.

    (** [list(d.keys())] *)
Definition keys (d : t K V) : list K := map fst d.

    (** [d1 == d2]: same keys, equal values, whatever the order *)
Definition eqb (veq : V -> V -> bool) (d1 d2 : t K V) : bool :=
      Nat.eqb (length d1) (length d2)
      && forallb (fun kv => match get (fst kv) d2 with
                            | Some v => veq (snd kv) v
                            | None => false
                            end) d1.
End Operations.

End Dict.

(** ** [os.path] on a POSIX system *)

Module Path.

  (** [os.path.isabs(p)] *)
Definition isabs (p : string) : bool := Str.startswith "/" p.

  (** [os.path.join(a, b)] *)
Definition join (a b : string) : string :=
    if Str.startswith "/" b then b
    else match Str.last a with
         | None => b
         | Some c => if Ascii.eqb c "/" then a +:+ b else a +:+ "/" +:+ b
         end.

  (** The loop of [normpath] over the components; [acc] is [new_comps]
      reversed. *)
Fixpoint norm_comps (initial_slashes : nat) (acc : list string)
           (comps : list string) : list string :=
    match comps with
    | [] => rev acc
    | comp :: rest =>
        if String.eqb comp "" || String.eqb comp "." then
          norm_comps initial_slashes acc rest
        else if negb (String.eqb comp "..")
                || (Nat.eqb initial_slashes 0 && match acc with [] => true | _ => false end)
                || match acc with top :: _ => String.eqb top ".." | [] => false end
        then norm_comps initial_slashes (comp :: acc) rest
        else match acc with
             | _ :: acc' => norm_comps initial_slashes acc' rest
             | [] => norm_comps initial_slashes acc rest
             end
    end.

  (** [os.path.normpath(path)] *)
Definition normpath (path : string) : string :=
    if String.eqb path "" then "."
    else
      let initial_slashes :=
        if Str.startswith "/" path then
          if Str.startswith "//" path && negb (Str.startswith "///" path)
          then 2 else 1
        else 0 in
      let comps := norm_comps initial_slashes [] (Str.split "/" path) in
      let p := Str.join "/" comps in
      let p := match initial_slashes with
               | 0 => p
               | 1 => "/" +:+ p
               | _ => "//" +:+ p
               end in
      if String.eqb p "" then "." else p.

  (** [os.path.dirname(p)] and [os.path.basename(p)]: split at the last
      slash; the head loses its trailing slashes unless it is all slashes. *)
Fixpoint all_slashes (s : string) : bool :=
    match s with
    | EmptyString => true
    | String c s' => Ascii.eqb c "/" && all_slashes s'
    end.

Fixpoint rstrip_slashes_rev (r : string) : string :=
    match r with
    | String c r' => if Ascii.eqb c "/" then rstrip_slashes_rev r' else r
    | EmptyString => EmptyString
    end.

  (** [(head, tail)] of [os.path.split] *)
Fixpoint split_rev (r : string) (tail : string) : string * string :=
    match r with
    | EmptyString => (EmptyString, tail)
    | String c r' =>
        if Ascii.eqb c "/" then (String.rev r, tail)
        else split_rev r' (String c tail)
    end.

Definition split (p : string) : string * string :=
    let '(head, tail) := split_rev (String.rev p) EmptyString in
    let head' :=
      if all_slashes head then head
      else String.rev (rstrip_slashes_rev (String.rev head)) in
    (head', tail).

Definition dirname (p : string) : string := fst (split p).
Definition basename (p : string) : string := snd (split p).

End Path.

(** ** Diagnostics and exceptions *)

(** Modelled from the spec: the [ErrorInfo] record of the [parsing] package,
    which is not part of the sources: a message, an optional source file and
    an optional context (the original source fragment the diagnostic is
    about).  The three [set_context*] methods record their argument. *)
Inductive context_token :=
| ContextToken (token : string)
| ContextKeyword (keyword : string)
| ContextList (tokens : list string).

Record ErrorInfo := mkErrorInfo {
  message : string;
  filename : option string;
  context : option context_token
}.

Definition set_context (token : string) (e : ErrorInfo) : ErrorInfo :=
  {| message := message e; filename := filename e;
     context := Some (ContextToken token) |}.
Definition set_context_keyword (keyword : string) (e : ErrorInfo) : ErrorInfo :=
  {| message := message e; filename := filename e;
     context := Some (ContextKeyword keyword) |}.
Definition set_context_list (tokens : list string) (e : ErrorInfo) : ErrorInfo :=
  {| message := message e; filename := filename e;
     context := Some (ContextList tokens) |}.

(** Modelled from the spec: [WarningInfo], same shape as [ErrorInfo]. *)
Record WarningInfo := mkWarningInfo {
  warning_message : string;
  warning_filename : option string
}.

(** The exceptions the module raises or lets through. *)
Inductive exn :=
| ConfigValidationError (errors : list ErrorInfo)
| ErtScriptLoadFailure (msg : string)
| ValueError (msg : string)
| TypeError (msg : string)
| IndexError (msg : string)
| OSError (msg : string).

(** Modelled from the spec: [ConfigValidationError(errors=msg, config_file=f)]
    of the [parsing] package carries one [ErrorInfo] made of the message and
    the file. *)
Definition ConfigValidationError_of (msg : string) (config_file : option string) : exn :=
  ConfigValidationError
    [ {| message := msg; filename := config_file; context := None |} ].

(** The lists handed to [from_collected] mix [ErrorInfo] values and caught
    [ConfigValidationError] exceptions. *)
Inductive collected :=
| Info (e : ErrorInfo)
| Caught (errors : list ErrorInfo).

(** Modelled from the spec: [ConfigValidationError.from_collected] of the
    [parsing] package; the results of the unrelated checks are concatenated,
    an exception contributing every [ErrorInfo] it carries. *)
Definition from_collected (errors : list collected) : exn :=
  ConfigValidationError
    (flat_map (fun c => match c with Info e => [e] | Caught es => es end) errors).

Inductive result (A : Type) :=
| Ok (a : A)
| Raise (e : exn).
Arguments Ok {A} a.
Arguments Raise {A} e.

(** ** Job objects and the object store *)

(** A [SubstitutionList] is a dictionary from macro keys to values. *)
Abbreviation SubstitutionList := (Dict.t string string).

(** References into the object store. *)
Abbreviation loc := nat.

(** Modelled from the spec: the [ExtJob] dataclass of [ext_job.py], which is
    not part of the sources; the fields are those of the spec's JobDefinition
    that this module reads.  [P] is what the [private_args] attribute holds: a
    reference into the store for a live object, the dictionary itself for a
    snapshot.  The other containers are never updated in place by this
    module and are kept by value. *)
Record ExtJob (P : Type) := mkExtJob {
  name : string;
  executable : string;
  target_file : option string;
  error_file : option string;
  start_file : option string;
  stdout_file : option string;
  stderr_file : option string;
  stdin_file : option string;
  arglist : list string;
  environment : Dict.t string (option string);
  exec_env : Dict.t string (option string);
  default_mapping : Dict.t string string;
  max_running_minutes : option Z;
  max_running : option Z;
  min_arg : option Z;
  max_arg : option Z;
  arg_types : list string;
  private_args : P
}.
Arguments mkExtJob {P}.
Arguments name {P} _.
Arguments executable {P} _.
Arguments target_file {P} _.
Arguments error_file {P} _.
Arguments start_file {P} _.
Arguments stdout_file {P} _.
Arguments stderr_file {P} _.
Arguments stdin_file {P} _.
Arguments arglist {P} _.
Arguments environment {P} _.
Arguments exec_env {P} _.
Arguments default_mapping {P} _.
Arguments max_running_minutes {P} _.
Arguments max_running {P} _.
Arguments min_arg {P} _.
Arguments max_arg {P} _.
Arguments arg_types {P} _.
Arguments private_args {P} _.

(** [job.private_args = p] *)
Definition with_private_args {P Q} (p : Q) (j : ExtJob P) : ExtJob Q :=
  mkExtJob (name j) (executable j) (target_file j) (error_file j) (start_file j)
           (stdout_file j) (stderr_file j) (stdin_file j) (arglist j)
           (environment j) (exec_env j) (default_mapping j)
           (max_running_minutes j) (max_running j) (min_arg j) (max_arg j)
           (arg_types j) p.

(** [job.arglist = l] *)
Definition with_arglist {P} (l : list string) (j : ExtJob P) : ExtJob P :=
  mkExtJob (name j) (executable j) (target_file j) (error_file j) (start_file j)
           (stdout_file j) (stderr_file j) (stdin_file j) l
           (environment j) (exec_env j) (default_mapping j)
           (max_running_minutes j) (max_running j) (min_arg j) (max_arg j)
           (arg_types j) (private_args j).

Inductive obj :=
| OJob (j : ExtJob loc)
| OSubst (s : SubstitutionList).

(** The store: objects are never freed, a reference is an index. *)
Abbreviation heap := (list obj).

(** ** The state threaded through the module

    [warnings] collects the messages of [warnings.warn(..., ConfigWarning)],
    [logs] the records sent to [logger], oldest first. *)
Record state := mkState {
  store : heap;
  warnings : list string;
  logs : list (string * string)
}.

Definition M (A : Type) : Type := state -> result A * state.

Definition ret {A} (a : A) : M A := fun s => (Ok a, s).
Definition raise {A} (e : exn) : M A := fun s => (Raise e, s).
Definition bind {A B} (m : M A) (k : A -> M B) : M B :=
  fun s => match m s with
           | (Ok a, s') => k a s'
           | (Raise e, s') => (Raise e, s')
           end.

Declare Scope py_scope.
Delimit Scope py_scope with py.
Notation "'let*' x ':=' m 'in' k" := (bind m (fun x => k))
  (at level 10, x pattern, m at level 100, k at level 200) : py_scope.
Notation "m ';;' k" := (bind m (fun _ => k))
  (at level 100, k at level 200, right associativity) : py_scope.
Open Scope py_scope.

(** A pure computation that may raise, run inside [M]. *)
Definition lift {A} (r : result A) : M A := fun s => (r, s).

(** [try: m except ConfigValidationError as e: ...] *)
Definition try_config {A} (m : M A) : M (A + list ErrorInfo) :=
  fun s => match m s with
           | (Ok a, s') => (Ok (inl a), s')
           | (Raise (ConfigValidationError es), s') => (Ok (inr es), s')
           | (Raise e, s') => (Raise e, s')
           end.

(** [warnings.warn(msg, category=ConfigWarning)] *)
Definition warn (msg : string) : M unit :=
  fun s => (Ok tt, mkState (store s) (warnings s ++ [msg]) (logs s)).

(** [logger.<level>(msg)] *)
Definition log (level msg : string) : M unit :=
  fun s => (Ok tt, mkState (store s) (warnings s) (logs s ++ [(level, msg)])).

(** A [for] loop whose body updates the loop's local variables [S]. *)
Fixpoint for_each {X S} (body : S -> X -> M S) (xs : list X) (acc : S) : M S :=
  match xs with
  | [] => ret acc
  | x :: rest => let* acc' := body acc x in for_each body rest acc'
  end.

(** Creating an object yields a reference nothing else holds. *)
Definition alloc (o : obj) : M loc :=
  fun s => (Ok (length (store s)),
            mkState (store s ++ [o]) (warnings s) (logs s)).

Definition dangling {A} : M A := raise (TypeError "dangling reference").

Definition read_job (l : loc) : M (ExtJob loc) :=
  fun s => match store s !! l with
           | Some (OJob j) => (Ok j, s)
           | _ => dangling s
           end.

Definition read_subst (l : loc) : M SubstitutionList :=
  fun s => match store s !! l with
           | Some (OSubst d) => (Ok d, s)
           | _ => dangling s
           end.

(** Writing through a reference: every holder of the reference sees it. *)
Definition write (l : loc) (o : obj) : M unit :=
  fun s => (Ok tt, mkState (<[l := o]> (store s)) (warnings s) (logs s)).

(** A freshly built job object: its [private_args] dictionary is an object
    of its own. *)
Definition allocate_job (j : ExtJob SubstitutionList) : M loc :=
  let* p := alloc (OSubst (private_args j)) in
  alloc (OJob (with_private_args p j)).

(** [copy.deepcopy(job)]: the job and the dictionary it refers to are both
    duplicated. *)
Definition deepcopy (l : loc) : M loc :=
  let* j := read_job l in
  let* d := read_subst (private_args j) in
  let* p := alloc (OSubst d) in
  alloc (OJob (with_private_args p j)).

(** What a reference to a job denotes in a store: the job with its private
    arguments read out. *)
Definition snapshot (h : heap) (l : loc) : option (ExtJob SubstitutionList) :=
  match h !! l with
  | Some (OJob j) =>
      match h !! private_args j with
      | Some (OSubst d) => Some (with_private_args d j)
      | _ => None
      end
  | _ => None
  end.

(** ** The configuration dictionary *)

(** Modelled from the spec: the keyword constants of [ConfigKeys] (the
    [parsing] package is not part of the sources); each constant is the
    keyword as it is written in a configuration file. *)
Module ConfigKeys.
Definition ENSPATH := "ENSPATH".
Definition RUNPATH_FILE := "RUNPATH_FILE".
Definition RANDOM_SEED := "RANDOM_SEED".
Definition DATA_FILE := "DATA_FILE".
Definition ECLBASE := "ECLBASE".
Definition SUMMARY := "SUMMARY".
Definition RUN_TEMPLATE := "RUN_TEMPLATE".
Definition FORWARD_MODEL := "FORWARD_MODEL".
Definition SIMULATION_JOB := "SIMULATION_JOB".
Definition LOAD_WORKFLOW_JOB := "LOAD_WORKFLOW_JOB".
Definition WORKFLOW_JOB_DIRECTORY := "WORKFLOW_JOB_DIRECTORY".
Definition HOOK_WORKFLOW := "HOOK_WORKFLOW".
Definition LOAD_WORKFLOW := "LOAD_WORKFLOW".
Definition INSTALL_JOB := "INSTALL_JOB".
Definition INSTALL_JOB_DIRECTORY := "INSTALL_JOB_DIRECTORY".
Definition NUM_CPU := "NUM_CPU".
End ConfigKeys.

(** An element of a FORWARD_MODEL entry: a string (the job name, or the
    argument string of the old parser) or the key/value pairs of the new
    parser. *)
Inductive fm_item :=
| Text (s : string)
| Pairs (pairs : list (list string)).

(** The values of a configuration dictionary, in the shapes this module
    reads them: one string ([ENSPATH], [RUNPATH_FILE], [ECLBASE], ...), one
    string per occurrence (the two job-directory keywords), or one list of
    arguments per occurrence. *)
Inductive cval :=
| Single (s : string)
| Paths (paths : list string)
| Rows (rows : list (list string))
| Invocations (entries : list (list fm_item)).

Record ConfigDict := mkConfigDict {
  items : gmap string cval;
  (** the [warning_infos] attribute of a parsed dictionary, absent from a
      plain [dict] *)
  parser_warnings : option (list WarningInfo)
}.

(** [k in config_dict] *)
Definition has_key (k : string) (d : ConfigDict) : bool :=
  bool_decide (is_Some (items d !! k)).

(** [config_dict[k] = Single v] *)
Definition set_single (k v : string) (d : ConfigDict) : ConfigDict :=
  mkConfigDict (<[k := Single v]> (items d)) (parser_warnings d).

Definition ill_shaped {A} (k : string) : result A :=
  Raise (TypeError ("unexpected value for " +:+ k)).

(** [config_dict.get(k)] for a keyword holding one string *)
Definition get_single (k : string) (d : ConfigDict) : result (option string) :=
  match items d !! k with
  | None => Ok None
  | Some (Single s) => Ok (Some s)
  | Some _ => ill_shaped k
  end.

(** [config_dict.get(k, [])] for a keyword holding argument lists *)
Definition get_rows (k : string) (d : ConfigDict) : result (list (list string)) :=
  match items d !! k with
  | None => Ok []
  | Some (Rows rows) => Ok rows
  | Some _ => ill_shaped k
  end.

(** [config_dict.get(k, [])] for a keyword holding one string per
    occurrence *)
Definition get_paths (k : string) (d : ConfigDict) : result (list string) :=
  match items d !! k with
  | None => Ok []
  | Some (Paths paths) => Ok paths
  | Some _ => ill_shaped k
  end.

(** [config_dict.get(ConfigKeys.FORWARD_MODEL, [])] *)
Definition get_invocations (k : string) (d : ConfigDict)
  : result (list (list fm_item)) :=
  match items d !! k with
  | None => Ok []
  | Some (Invocations es) => Ok es
  | Some _ => ill_shaped k
  end.

(** Decimal rendering of a natural number, [str(n)]. *)
Definition str_of_nat (n : nat) : string := NilZero.string_of_uint (Nat.to_uint n).

(** [a, b = row]: Python's unpacking of a sequence into two targets *)
Definition unpack2 {A} (row : list A) : result (A * A) :=
  match row with
  | [a; b] => Ok (a, b)
  | _ :: _ :: _ :: _ => Raise (ValueError "too many values to unpack (expected 2)")
  | _ => Raise (ValueError ("not enough values to unpack (expected 2, got "
                            +:+ str_of_nat (length row) +:+ ")"))
  end.

(** ** What the module takes from its environment *)

(** The Python built-ins on strings that are not reproduced here. *)
Class PyBuiltins := {
  (** [int(s)]; [None] is the [ValueError] of a string that is no integer
      literal *)
  py_int : string -> option Z;
  (** [repr(s)] *)
  py_repr : string -> string;
  (** [s.lower()] *)
  py_lower : string -> string;
  (** the order in which a set built from these strings is iterated: some
      enumeration of its distinct elements *)
  py_set_order : list string -> list string
}.

Inductive file_read :=
| ReadOk
| ReadOSError (msg : string)
(** [UnicodeDecodeError]; the argument is the [repr] of the character that
    [check_non_utf_chars] derives from the error text *)
| ReadUndecodable (unknown_char : string).

(** The operating system as the module sees it. *)
Class FileSystem := {
  getcwd : string;
  getpid : string;
  isdir : string -> bool;
  isfile : string -> bool;
  listdir : string -> list string;
  read_utf8 : string -> file_read
}.

(** [os.path.abspath(p)] *)
Definition abspath `{FileSystem} (p : string) : string :=
  Path.normpath (Path.join getcwd p).

(** The sibling modules of the package, none of which is part of the
    sources: the sub-configurations, workflows, the hook enumeration, the job
    loader and the methods of [SubstitutionList]. *)
Class Collaborators := {
  EnsembleConfig : Type;
  AnalysisConfig : Type;
  QueueConfig : Type;
  ModelConfig : Type;
  Refcase : Type;
  WorkflowJob : Type;
  Workflow : Type;
  HookRuntime : Type;
  HookRuntime_eq_dec :: EqDecision HookRuntime;

  EnsembleConfig_from_dict : ConfigDict -> result EnsembleConfig;
  refcase : EnsembleConfig -> Refcase;
  ModelConfig_from_dict : Refcase -> ConfigDict -> result ModelConfig;
  runpath_format_string : ModelConfig -> string;
  eclbase_format_string : ModelConfig -> string;
  AnalysisConfig_from_dict : ConfigDict -> result AnalysisConfig;
  QueueConfig_from_dict : ConfigDict -> result QueueConfig;

  (** [WorkflowJob.from_file(config_file, name)] *)
  WorkflowJob_from_file : string -> option string -> result WorkflowJob;
  WorkflowJob_name : WorkflowJob -> string;
  (** [Workflow.from_file(src_file, context, job_dict)] *)
  Workflow_from_file :
    string -> SubstitutionList -> Dict.t string WorkflowJob -> result Workflow;
  (** [getattr(HookRuntime, mode_name)]; [None] when [hasattr] is false *)
  HookRuntime_attr : string -> option HookRuntime;

  (** [ExtJob.from_config_file(config_file, name)] *)
  ExtJob_from_config_file :
    string -> option string -> result (ExtJob SubstitutionList);

  SubstitutionList_from_dict : ConfigDict -> SubstitutionList;
  (** [subst.substitute(s)] *)
  substitute : SubstitutionList -> string -> string;
  (** [subst.substitute(s, context_hint, max_iterations)] *)
  substitute_hint : SubstitutionList -> string -> string -> nat -> string;
  (** [subst.substitute_real_iter(s, iens, itr)] *)
  substitute_real_iter : SubstitutionList -> string -> Z -> Z -> string;
  (** [subst.add_from_string(s)]: the dictionary after the call, or the
      [ValueError] of a malformed argument string *)
  add_from_string : SubstitutionList -> string -> result SubstitutionList;

  (** [str(err)] and [err.get_cli_message()] of a [ConfigValidationError] *)
  error_str : list ErrorInfo -> string;
  get_cli_message : list ErrorInfo -> string;

  (** [==] on the collaborators' values *)
  EnsembleConfig_eq : EnsembleConfig -> EnsembleConfig -> bool;
  AnalysisConfig_eq : AnalysisConfig -> AnalysisConfig -> bool;
  QueueConfig_eq : QueueConfig -> QueueConfig -> bool;
  ModelConfig_eq : ModelConfig -> ModelConfig -> bool;
  WorkflowJob_eq : WorkflowJob -> WorkflowJob -> bool;
  Workflow_eq : Workflow -> Workflow -> bool
}.

(** [r1 >>= k] on plain results *)
Definition and_then {A B} (r : result A) (k : A -> result B) : result B :=
  match r with
  | Ok a => k a
  | Raise e => Raise e
  end.

(** A [for] loop of a function without effects. *)
Fixpoint fold_result {X S} (body : S -> X -> result S) (xs : list X) (acc : S)
  : result S :=
  match xs with
  | [] => Ok acc
  | x :: rest => and_then (body acc x) (fold_result body rest)
  end.

Definition DEFAULT_ENSPATH : string := "storage".
Definition DEFAULT_RUNPATH_FILE : string := ".ert_runpath_list".

(** [ErtConfig.apply_config_content_defaults]: the dictionary after the
    call. *)
Definition apply_config_content_defaults (content_dict : ConfigDict)
           (config_dir : string) : result ConfigDict :=
  let content_dict :=
    if negb (has_key ConfigKeys.ENSPATH content_dict)
    then set_single ConfigKeys.ENSPATH
                    (Path.join config_dir DEFAULT_ENSPATH) content_dict
    else content_dict in
  match items content_dict !! ConfigKeys.RUNPATH_FILE with
  | None =>
      Ok (set_single ConfigKeys.RUNPATH_FILE
                     (Path.join config_dir DEFAULT_RUNPATH_FILE) content_dict)
  | Some (Single runpath_file) =>
      if negb (Path.isabs runpath_file)
      then Ok (set_single ConfigKeys.RUNPATH_FILE
                          (Path.normpath (Path.join config_dir runpath_file))
                          content_dict)
      else Ok content_dict
  | Some _ => ill_shaped ConfigKeys.RUNPATH_FILE
  end.

Section Validation.
Context `{PyBuiltins}.

  (** The body of the loop of [_validate_queue_option_max_running] for one
      entry [_, option_name, *values]: the errors it appends. *)
Definition max_running_errors (config_path : string) (entry : list string)
    : result (list ErrorInfo) :=
    match entry with
    | _ :: option_name :: values =>
        if String.eqb option_name "MAX_RUNNING" then
          let err_msg := "QUEUE_OPTION MAX_RUNNING is" in
          match values with
          | [] => Ok []                       (* int() is 0 *)
          | [value] =>
              match py_int value with
              | Some int_val =>
                  if (int_val <? 0)%Z then
                    Ok [ set_context_list values
                           {| message := err_msg +:+ " negative: " +:+ py_repr value;
                              filename := Some config_path;
                              context := None |} ]
                  else Ok []
              | None =>
                  Ok [ set_context_list values
                         {| message := err_msg +:+ " not an integer: "
                                       +:+ py_repr value;
                            filename := Some config_path;
                            context := None |} ]
              end
          | [_; _] =>
              Raise (TypeError "'str' object cannot be interpreted as an integer")
          | _ =>
              Raise (TypeError ("int() takes at most 2 arguments ("
                                +:+ str_of_nat (length values) +:+ " given)"))
          end
        else Ok []
    | _ =>
        Raise (ValueError ("not enough values to unpack (expected at least 2, got "
                           +:+ str_of_nat (length entry) +:+ ")"))
    end.

  (** [ErtConfig._validate_queue_option_max_running] *)
Definition _validate_queue_option_max_running (config_path : string)
             (config_dict : ConfigDict) : result (list ErrorInfo) :=
    and_then (get_rows "QUEUE_OPTION" config_dict) (fun entries =>
    fold_result
      (fun errors entry =>
         and_then (max_running_errors config_path entry)
                  (fun new => Ok (errors ++ new)))
      entries []).

  (** [ErtConfig._validate_dict] *)
Definition _validate_dict (config_dict : ConfigDict) (config_file : string)
    : result (list ErrorInfo) :=
    if has_key ConfigKeys.SUMMARY config_dict
       && negb (has_key ConfigKeys.ECLBASE config_dict)
    then
      (* config_dict[ConfigKeys.SUMMARY][0][0] *)
      match items config_dict !! ConfigKeys.SUMMARY with
      | Some (Rows ((keyword :: _) :: _)) =>
          Ok [ set_context_keyword keyword
                 {| message := "When using SUMMARY keyword, "
                               +:+ "the config must also specify ECLBASE";
                    filename := Some config_file;
                    context := None |} ]
      | Some (Rows _) => Raise (IndexError "list index out of range")
      | _ => ill_shaped ConfigKeys.SUMMARY
      end
    else Ok [].

  (** [find_first_gen_kw_arg] inside [_validate_ensemble_config] *)
Definition find_first_gen_kw_arg (gen_kw : list (list string))
             (kw_id matching : string) : result (option string) :=
    let all_arglists :=
      List.filter (fun arglist => match arglist with
                                  | first :: _ => String.eqb first kw_id
                                  | [] => false
                                  end) gen_kw in
    match all_arglists with
    | _ :: _ :: _ =>
        Raise (ConfigValidationError_of
                 ("Found two GEN_KW " +:+ kw_id +:+ " declarations") None)
    | [arglist] =>
        Ok (List.find (fun arg => Str.contains (py_lower matching) (py_lower arg))
                      arglist)
    | [] => Raise (IndexError "list index out of range")
    end.

  (** The two checks [_validate_ensemble_config] makes for one GEN_KW
      identifier. *)
Definition gen_kw_errors (config_file : string) (gen_kw : list (list string))
             (kw_id : string) : result (list collected) :=
    and_then (find_first_gen_kw_arg gen_kw kw_id "FORWARD_INIT:TRUE")
      (fun use_fwd_init_token =>
    let e1 :=
      match use_fwd_init_token with
      | Some _ =>
          [ Caught [ {| message := "Loading GEN_KW from files created by the forward "
                                   +:+ "model is not supported.";
                        filename := Some config_file; context := None |} ] ]
      | None => []
      end in
    and_then (find_first_gen_kw_arg gen_kw kw_id "INIT_FILES:")
      (fun init_files_token =>
    let e2 :=
      match init_files_token with
      | Some token =>
          if negb (Str.contains "%" token) then
            [ Caught [ {| message := "Loading GEN_KW from files requires %d in file format";
                          filename := Some config_file; context := None |} ] ]
          else []
      | None => []
      end in
    Ok (e1 ++ e2))).

  (** [x[0] for x in rows] *)
Definition first_columns (rows : list (list string)) : result (list string) :=
    fold_result (fun acc row => match row with
                                | first :: _ => Ok (acc ++ [first])
                                | [] => Raise (IndexError "list index out of range")
                                end) rows [].

  (** [ErtConfig._validate_ensemble_config] *)
Definition _validate_ensemble_config (config_file : string)
             (config_dict : ConfigDict) : result (list collected) :=
    and_then (get_rows "GEN_KW" config_dict) (fun gen_kw =>
    and_then (first_columns gen_kw) (fun ids =>
    let gen_kw_id_list := py_set_order ids in
    fold_result
      (fun errors kw_id =>
         and_then (gen_kw_errors config_file gen_kw kw_id)
                  (fun new => Ok (errors ++ new)))
      gen_kw_id_list [])).

End Validation.

(** ** Resolving the forward model *)

(** [repr] of a list of strings *)
Definition repr_list `{PyBuiltins} (l : list string) : string :=
  "[" +:+ Str.join ", " (map py_repr l) +:+ "]".

(** [str] of the key/value pairs of a FORWARD_MODEL entry, rendered as
    nested lists *)
Definition repr_pairs `{PyBuiltins} (pairs : list (list string)) : string :=
  "[" +:+ Str.join ", " (map repr_list pairs) +:+ "]".

(** [if args:] *)
Definition truthy (args : fm_item) : bool :=
  match args with
  | Text s => negb (String.eqb s "")
  | Pairs pairs => match pairs with [] => false | _ => true end
  end.

(** [str(args)] inside an f-string *)
Definition str_of_args `{PyBuiltins} (args : fm_item) : string :=
  match args with
  | Text s => s
  | Pairs pairs => repr_pairs pairs
  end.

Section ForwardModel.
Context `{PyBuiltins} `{Collaborators}.

  (** [job.private_args[key] = val] on the dictionary object [p] *)
Definition setitem (p : loc) (key val : string) : M unit :=
    let* d := read_subst p in
    write p (OSubst (Dict.set key val d)).

  (** The inner [try] of the FORWARD_MODEL loop: fill the private arguments
      of the dictionary object [p]; a [ValueError] is handed back as its
      message. *)
Definition fill_private_args (p : loc) (args : fm_item) : M (option string) :=
    match args with
    | Text s =>
        (* the old parser, which still concatenates the args *)
        let* d := read_subst p in
        match add_from_string d s with
        | Ok d' => let* _ := write p (OSubst d') in ret None
        | Raise (ValueError err) => ret (Some err)
        | Raise e => raise e
        end
    | Pairs pairs =>
        (* the new parser, which parses the args into separate keys and values *)
        for_each
          (fun (failed : option string) pair =>
             match failed with
             | Some _ => ret failed
             | None =>
                 match unpack2 pair with
                 | Ok (key, val) => let* _ := setitem p key val in ret None
                 | Raise (ValueError err) => ret (Some err)
                 | Raise e => raise e
                 end
             end)
          pairs None
    end.

  (** The local variables of [read_forward_model]: [errors] and [jobs]. *)
Definition fm_state : Type := list collected * list loc.

  (** One iteration of the loop over [ConfigKeys.FORWARD_MODEL]. *)
Definition resolve_forward_model (installed_jobs : Dict.t string loc)
             (substitution_list : SubstitutionList) (config_file : string)
             (st : fm_state) (job : list fm_item) : M fm_state :=
    let '(errors, jobs) := st in
    let* unpacked :=
      lift (match job with
            | [] => Raise (IndexError "list index out of range")
            | [only] => Ok (only, Pairs [])
            | _ => unpack2 job
            end) in
    let '(unsubstituted_job_name, args) := unpacked in
    match unsubstituted_job_name with
    | Pairs _ => raise (TypeError "expected string or bytes-like object")
    | Text unsubstituted_job_name =>
        let job_name := substitute substitution_list unsubstituted_job_name in
        match Dict.get job_name installed_jobs with
        | None =>
            ret (errors ++
                 [ Caught [ {| message :=
                                 "Could not find job " +:+ py_repr job_name
                                 +:+ " in list of installed jobs: "
                                 +:+ repr_list (Dict.keys installed_jobs);
                               filename := Some config_file;
                               context := None |} ] ],
                 jobs)
        | Some registered =>
            let* job := deepcopy registered in
            if truthy args then
              let* p := alloc (OSubst []) in
              let* j := read_job job in
              let* _ := write job (OJob (with_private_args p j)) in
              let* failed := fill_private_args p args in
              match failed with
              | Some err =>
                  ret (errors ++
                       [ Caught [ {| message :=
                                       err +:+ ": 'FORWARD_MODEL " +:+ job_name
                                       +:+ "(" +:+ str_of_args args +:+ ")'";
                                     filename := Some config_file;
                                     context := None |} ] ],
                       jobs)
              | None => ret (errors, jobs ++ [job])
              end
            else ret (errors, jobs ++ [job])
        end
    end.

  (** One iteration of the loop over [ConfigKeys.SIMULATION_JOB]. *)
Definition resolve_simulation_job (installed_jobs : Dict.t string loc)
             (config_file : string)
             (st : fm_state) (job_description : list string) : M fm_state :=
    let '(errors, jobs) := st in
    match job_description with
    | [] => raise (IndexError "list index out of range")
    | job_name :: arguments =>
        match Dict.get job_name installed_jobs with
        | None =>
            ret (errors ++
                 [ Caught [ {| message :=
                                 "Could not find job " +:+ py_repr job_name
                                 +:+ " in list of installed jobs.";
                               filename := Some config_file;
                               context := None |} ] ],
                 jobs)
        | Some registered =>
            let* job := deepcopy registered in
            let* j := read_job job in
            let* _ := write job (OJob (with_arglist arguments j)) in
            ret (errors, jobs ++ [job])
        end
    end.

  (** The two loops of [read_forward_model]: the errors collected and the
      jobs resolved when the last invocation has been processed. *)
Definition resolve_all (installed_jobs : Dict.t string loc)
             (substitution_list : SubstitutionList) (config_dict : ConfigDict)
             (config_file : string) : M fm_state :=
    let* forward_model :=
      lift (get_invocations ConfigKeys.FORWARD_MODEL config_dict) in
    let* st :=
      for_each (resolve_forward_model installed_jobs substitution_list config_file)
               forward_model ([], []) in
    let* simulation_job :=
      lift (get_rows ConfigKeys.SIMULATION_JOB config_dict) in
    for_each (resolve_simulation_job installed_jobs config_file)
             simulation_job st.

  (** [ErtConfig.read_forward_model] *)
Definition read_forward_model (installed_jobs : Dict.t string loc)
             (substitution_list : SubstitutionList) (config_dict : ConfigDict)
             (config_file : string) : M (list loc) :=
    let* st :=
      resolve_all installed_jobs substitution_list config_dict config_file in
    let '(errors, jobs) := st in
    match errors with
    | [] => ret jobs
    | _ => raise (from_collected errors)
    end.

End ForwardModel.

(** ** Installing jobs *)

Section InstalledJobs.
Context `{PyBuiltins} `{FileSystem} `{Collaborators}.

  (** The local variables of [_installed_jobs_from_dict]: [errors] and
      [jobs]. *)
Definition install_state : Type := list collected * Dict.t string loc.

  (** The tail shared by both loops: warn when the name is taken, then
      [jobs[name] = new_job]. *)
Definition register_job (name source : string)
             (new_job : ExtJob SubstitutionList) (jobs : Dict.t string loc)
    : M (Dict.t string loc) :=
    let* _ :=
      match Dict.get name jobs with
      | Some previous =>
          let* old := read_job previous in
          warn ("Duplicate forward model job with name " +:+ py_repr name
                +:+ ", choosing " +:+ py_repr source
                +:+ " over " +:+ py_repr (executable old))
      | None => ret tt
      end in
    let* l := allocate_job new_job in
    ret (Dict.set name l jobs).

  (** One iteration of the loop over [ConfigKeys.INSTALL_JOB]. *)
Definition install_job (st : install_state) (job : list string)
    : M install_state :=
    let '(errors, jobs) := st in
    match job with
    | name :: path :: _ =>
        let job_config_file := abspath path in
        match ExtJob_from_config_file job_config_file (Some name) with
        | Raise (ConfigValidationError e) => ret (errors ++ [Caught e], jobs)
        | Raise e => raise e
        | Ok new_job =>
            let* jobs' := register_job name job_config_file new_job jobs in
            ret (errors, jobs')
        end
    | _ => raise (IndexError "list index out of range")
    end.

  (** One iteration of the loop over the files of a job directory. *)
Definition install_job_file (job_path : string)
             (st : install_state) (file_name : string) : M install_state :=
    let '(errors, jobs) := st in
    let full_path := abspath (Path.join job_path file_name) in
    if negb (isfile full_path) then ret st
    else
      match ExtJob_from_config_file full_path None with
      | Raise (ConfigValidationError e) => ret (errors ++ [Caught e], jobs)
      | Raise e => raise e
      | Ok new_job =>
          let* jobs' := register_job (name new_job) full_path new_job jobs in
          ret (errors, jobs')
      end.

  (** One iteration of the loop over [ConfigKeys.INSTALL_JOB_DIRECTORY]. *)
Definition install_job_directory (st : install_state) (job_path : string)
    : M install_state :=
    let '(errors, jobs) := st in
    if negb (isdir job_path) then
      ret (errors ++
           [ Caught [ {| message := "Unable to locate job directory "
                                    +:+ py_repr job_path;
                         filename := None; context := None |} ] ],
           jobs)
    else
      let files := listdir job_path in
      match List.filter (fun f => isfile (abspath (Path.join job_path f))) files with
      | [] =>
          let* _ := warn ("No files found in job directory " +:+ job_path) in
          ret st
      | _ => for_each (install_job_file job_path) files st
      end.

  (** [ErtConfig._installed_jobs_from_dict] *)
Definition _installed_jobs_from_dict (config_dict : ConfigDict)
    : M (Dict.t string loc) :=
    let* install_job_rows := lift (get_rows ConfigKeys.INSTALL_JOB config_dict) in
    let* st := for_each install_job install_job_rows ([], []) in
    let* directories :=
      lift (get_paths ConfigKeys.INSTALL_JOB_DIRECTORY config_dict) in
    let* st := for_each install_job_directory directories st in
    let '(errors, jobs) := st in
    match errors with
    | [] => ret jobs
    | _ => raise (from_collected errors)
    end.

End InstalledJobs.

(** ** Workflows and hooks *)

Section Workflows.
Context `{PyBuiltins} `{FileSystem} `{Collaborators}.

Definition hooks_t : Type := Dict.t HookRuntime (list Workflow).

  (** The [try] around [WorkflowJob.from_file] shared by the two job loops:
      a job that loads is registered under its name, a script that cannot
      be loaded is a warning, a malformed declaration is an error built by
      [on_error] from [str(err)]. *)
Definition load_workflow_job (config_file : string) (name : option string)
             (on_error : string -> ErrorInfo)
             (st : list collected * Dict.t string WorkflowJob)
    : M (list collected * Dict.t string WorkflowJob) :=
    let '(errors, workflow_jobs) := st in
    match WorkflowJob_from_file config_file name with
    | Ok new_job =>
        ret (errors, Dict.set (WorkflowJob_name new_job) new_job workflow_jobs)
    | Raise (ErtScriptLoadFailure err) =>
        let* _ := warn ("Loading workflow job " +:+ py_repr config_file
                        +:+ " failed with '" +:+ err +:+ "'."
                        +:+ " It will not be loaded.") in
        ret st
    | Raise (ConfigValidationError err) =>
        ret (errors ++ [Info (on_error (error_str err))], workflow_jobs)
    | Raise e => raise e
    end.

  (** One iteration of the loop over [LOAD_WORKFLOW_JOB]. *)
Definition load_declared_job (st : list collected * Dict.t string WorkflowJob)
             (workflow_job : list string)
    : M (list collected * Dict.t string WorkflowJob) :=
    match workflow_job with
    | [] => raise (IndexError "list index out of range")
    | path :: rest =>
        load_workflow_job path
          (match rest with [] => None | job_name :: _ => Some job_name end)
          (fun msg => set_context path
                        {| message := Str.replace (String "010" "") ";" msg;
                           filename := Some path; context := None |})
          st
    end.

  (** One iteration of the loop over [WORKFLOW_JOB_DIRECTORY]. *)
Definition load_job_directory (st : list collected * Dict.t string WorkflowJob)
             (job_path : string)
    : M (list collected * Dict.t string WorkflowJob) :=
    if negb (isdir job_path) then
      let* _ := warn ("Unable to open job directory " +:+ job_path) in
      ret st
    else
      for_each
        (fun st file_name =>
           let full_path := Path.join job_path file_name in
           load_workflow_job full_path None
             (fun msg => set_context job_path
                           {| message := msg; filename := Some full_path;
                              context := None |})
             st)
        (listdir job_path) st.

  (** One iteration of the loop over [LOAD_WORKFLOW]. *)
Definition load_workflow (substitution_list : SubstitutionList)
             (workflow_jobs : Dict.t string WorkflowJob)
             (workflows : Dict.t string Workflow) (work : list string)
    : M (Dict.t string Workflow) :=
    let* named :=
      lift (match work with
            | [path] => Ok (path, Path.basename path)
            | path :: filename :: _ => Ok (path, filename)
            | [] => Raise (IndexError "list index out of range")
            end) in
    let '(path, filename) := named in
    let existed := Dict.mem filename workflows in
    match Workflow_from_file path substitution_list workflow_jobs with
    | Ok workflow =>
        let* _ :=
          if existed
          then warn ("Workflow " +:+ py_repr filename +:+ " was added twice")
          else ret tt in
        ret (Dict.set filename workflow workflows)
    | Raise (ConfigValidationError err) =>
        let* _ := warn ("Encountered the following error(s) while "
                        +:+ "reading workflow " +:+ py_repr filename
                        +:+ ". It will not be loaded: "
                        +:+ get_cli_message err) in
        ret workflows
    | Raise e => raise e
    end.

  (** One iteration of the loop over [HOOK_WORKFLOW]: [st] holds [errors]
      and [hooked_workflows]. *)
Definition bind_hook (workflows : Dict.t string Workflow)
             (st : list collected * hooks_t) (hook : list string)
    : M (list collected * hooks_t) :=
    let '(errors, hooked_workflows) := st in
    let* unpacked := lift (unpack2 hook) in
    let '(hook_name, mode_name) := unpacked in
    match HookRuntime_attr mode_name with
    | None =>
        ret (errors ++
             [ Caught [ {| message := "Run mode " +:+ py_repr mode_name
                                      +:+ " not supported for Hook Workflow";
                           filename := None; context := None |} ] ],
             hooked_workflows)
    | Some mode =>
        match Dict.get hook_name workflows with
        | None =>
            ret (errors ++
                 [ Info (set_context hook_name
                           {| message := "Cannot setup hook for non-existing"
                                         +:+ " job name " +:+ py_repr hook_name;
                              filename := None; context := None |}) ],
                 hooked_workflows)
        | Some workflow =>
            (* hooked_workflows is a defaultdict(list) *)
            let bound := default [] (Dict.get mode hooked_workflows) in
            ret (errors, Dict.set mode (bound ++ [workflow]) hooked_workflows)
        end
    end.

  (** The part of [_workflows_from_dict] up to the first [raise]: the
      workflow jobs loaded and the errors collected on the way. *)
Definition load_workflow_jobs (content_dict : ConfigDict)
    : M (list collected * Dict.t string WorkflowJob) :=
    let* workflow_job_info :=
      lift (get_rows ConfigKeys.LOAD_WORKFLOW_JOB content_dict) in
    let* workflow_job_dir_info :=
      lift (get_paths ConfigKeys.WORKFLOW_JOB_DIRECTORY content_dict) in
    let* st := for_each load_declared_job workflow_job_info ([], []) in
    for_each load_job_directory workflow_job_dir_info st.

  (** [ErtConfig._workflows_from_dict] *)
Definition _workflows_from_dict (content_dict : ConfigDict)
             (substitution_list : SubstitutionList)
    : M (Dict.t string WorkflowJob * Dict.t string Workflow * hooks_t) :=
    let* hook_workflow_info :=
      lift (get_rows ConfigKeys.HOOK_WORKFLOW content_dict) in
    let* workflow_info :=
      lift (get_rows ConfigKeys.LOAD_WORKFLOW content_dict) in
    let* loaded := load_workflow_jobs content_dict in
    let '(errors, workflow_jobs) := loaded in
    match errors with
    | _ :: _ => raise (from_collected errors)
    | [] =>
        let* workflows :=
          for_each (load_workflow substitution_list workflow_jobs)
                   workflow_info [] in
        let* hooked := for_each (bind_hook workflows) hook_workflow_info ([], []) in
        let '(errors, hooked_workflows) := hooked in
        match errors with
        | _ :: _ => raise (from_collected errors)
        | [] => ret (workflow_jobs, workflows, hooked_workflows)
        end
    end.

End Workflows.

(** ** The resolved configuration *)

(** [pathlib.Path(p)] on a POSIX system, as the root and the components it
    is parsed into: empty and [.] components are dropped, exactly two
    leading slashes are kept apart from one. *)
Definition pure_path (p : string) : string * list string :=
  let root :=
    if Str.startswith "/" p then
      if Str.startswith "//" p && negb (Str.startswith "///" p) then "//" else "/"
    else "" in
  (root,
   List.filter (fun c => negb (String.eqb c "" || String.eqb c "."))
               (Str.split "/" p)).

Section Configuration.
Context `{PyBuiltins} `{FileSystem} `{Collaborators}.

  (** The [ErtConfig] dataclass.  Jobs are references into the store. *)
Record ErtConfig := mkErtConfig {
    substitution_list : SubstitutionList;
    ensemble_config : EnsembleConfig;
    ens_path : string;
    env_vars : Dict.t string string;
    random_seed : option string;
    analysis_config : AnalysisConfig;
    queue_config : QueueConfig;
    workflow_jobs : Dict.t string WorkflowJob;
    workflows : Dict.t string Workflow;
    hooked_workflows : Dict.t HookRuntime (list Workflow);
    runpath_file : string;
    ert_templates : list (list string);
    installed_jobs : Dict.t string loc;
    forward_model_list : list loc;
    model_config : option ModelConfig;
    user_config_file : string;
    config_path : string;
    warning_infos : list WarningInfo
  }.

  (** [ErtConfig.__post_init__]: the value of [config_path] *)
Definition __post_init__ (user_config_file : string) : string :=
    if negb (String.eqb user_config_file "")
    then Path.dirname (abspath user_config_file)
    else getcwd.

  (** [ErtConfig.check_non_utf_chars] *)
Definition check_non_utf_chars (file_path : string) : result unit :=
    match read_utf8 file_path with
    | ReadOk => Ok tt
    | ReadOSError msg => Raise (OSError msg)
    | ReadUndecodable unknown_char =>
        Raise (ConfigValidationError_of
                 ("Unsupported non UTF-8 character " +:+ unknown_char
                  +:+ " found in file: " +:+ py_repr file_path)
                 (Some file_path))
    end.

  (** [ErtConfig._read_templates] *)
Definition _read_templates (config_dict : ConfigDict)
    : result (list (list string)) :=
    and_then
      (if has_key ConfigKeys.DATA_FILE config_dict
          && has_key ConfigKeys.ECLBASE config_dict
       then
         and_then (get_single ConfigKeys.DATA_FILE config_dict) (fun data_file =>
         and_then (get_single ConfigKeys.ECLBASE config_dict) (fun eclbase =>
         match data_file, eclbase with
         | Some source_file, Some eclbase =>
             let target_file := Str.replace "%d" "<IENS>" eclbase +:+ ".DATA" in
             and_then (check_non_utf_chars source_file) (fun _ =>
             Ok [[source_file; target_file]])
         | _, _ => Ok []
         end))
       else Ok [])
      (fun templates =>
    and_then (get_rows ConfigKeys.RUN_TEMPLATE config_dict) (fun run_templates =>
    Ok (templates ++ run_templates))).

  (** The state of [from_dict] between its two [raise] statements: what the
      three [try] blocks have produced. *)
Record loaded := mkLoaded {
    loaded_errors : list collected;
    loaded_substitution_list : SubstitutionList;
    loaded_model_config : option ModelConfig;
    loaded_workflow_jobs : Dict.t string WorkflowJob;
    loaded_workflows : Dict.t string Workflow;
    loaded_hooked_workflows : Dict.t HookRuntime (list Workflow);
    loaded_installed_jobs : Dict.t string loc
  }.

  (** [from_dict] from the ensemble configuration to the three [try]
      blocks. *)
Definition load_phases (config_dict : ConfigDict) (config_file : string)
             (substitution_list : SubstitutionList) (errors : list collected)
    : M (EnsembleConfig * loaded) :=
    let* ensemble_config := lift (EnsembleConfig_from_dict config_dict) in
    let* ensemble_errors :=
      lift (_validate_ensemble_config config_file config_dict) in
    let errors := errors ++ ensemble_errors in
    let* model :=
      try_config (lift (ModelConfig_from_dict (refcase ensemble_config) config_dict)) in
    let '(model_config, substitution_list, errors) :=
      match model with
      | inl model_config =>
          let runpath := runpath_format_string model_config in
          let eclbase := eclbase_format_string model_config in
          (Some model_config,
           Dict.set "<ECLBASE>" eclbase
             (Dict.set "<ECL_BASE>" eclbase
                (Dict.set "<RUNPATH>" runpath substitution_list)),
           errors)
      | inr e => (None, substitution_list, errors ++ [Caught e])
      end in
    let* wf := try_config (_workflows_from_dict config_dict substitution_list) in
    let '(workflow_jobs, workflows, hooked_workflows, errors) :=
      match wf with
      | inl (workflow_jobs, workflows, hooked_workflows) =>
          (workflow_jobs, workflows, hooked_workflows, errors)
      | inr e => ([], [], [], errors ++ [Caught e])
      end in
    let* installed := try_config (_installed_jobs_from_dict config_dict) in
    let '(installed_jobs, errors) :=
      match installed with
      | inl installed_jobs => (installed_jobs, errors)
      | inr e => ([], errors ++ [Caught e])
      end in
    ret (ensemble_config,
         mkLoaded errors substitution_list model_config workflow_jobs workflows
                  hooked_workflows installed_jobs).

  (** [ErtConfig.from_dict] *)
Definition from_dict (config_dict : ConfigDict) : M ErtConfig :=
    let substitution_list := SubstitutionList_from_dict config_dict in
    let* runpath_file := lift (get_single ConfigKeys.RUNPATH_FILE config_dict) in
    let runpath_file := default DEFAULT_RUNPATH_FILE runpath_file in
    let substitution_list :=
      Dict.set "<RUNPATH_FILE>" runpath_file substitution_list in
    let config_dir := default "" (Dict.get "<CONFIG_PATH>" substitution_list) in
    let config_file :=
      default "no_config" (Dict.get "<CONFIG_FILE>" substitution_list) in
    let config_file_path := Path.join config_dir config_file in
    let* errors := lift (_validate_dict config_dict config_file) in
    let* queue_errors :=
      lift (_validate_queue_option_max_running config_file config_dict) in
    let errors := map Info (errors ++ queue_errors) in
    match errors with
    | _ :: _ => raise (from_collected errors)
    | [] =>
        let* phases := load_phases config_dict config_file substitution_list errors in
        let '(ensemble_config, l) := phases in
        match loaded_errors l with
        | _ :: _ => raise (from_collected (loaded_errors l))
        | [] =>
            let* setenv := lift (get_rows "SETENV" config_dict) in
            let* env_vars :=
              lift (fold_result
                      (fun env_vars row =>
                         and_then (unpack2 row) (fun kv =>
                         Ok (Dict.set (fst kv) (snd kv) env_vars)))
                      setenv []) in
            let warning_infos := default [] (parser_warnings config_dict) in
            let* ens_path := lift (get_single ConfigKeys.ENSPATH config_dict) in
            let* random_seed :=
              lift (get_single ConfigKeys.RANDOM_SEED config_dict) in
            let* analysis_config := lift (AnalysisConfig_from_dict config_dict) in
            let* queue_config := lift (QueueConfig_from_dict config_dict) in
            let* ert_templates := lift (_read_templates config_dict) in
            let* forward_model_list :=
              read_forward_model (loaded_installed_jobs l)
                                 (loaded_substitution_list l)
                                 config_dict config_file in
            ret (mkErtConfig
                   (loaded_substitution_list l)
                   ensemble_config
                   (default DEFAULT_ENSPATH ens_path)
                   env_vars
                   random_seed
                   analysis_config
                   queue_config
                   (loaded_workflow_jobs l)
                   (loaded_workflows l)
                   (loaded_hooked_workflows l)
                   runpath_file
                   ert_templates
                   (loaded_installed_jobs l)
                   forward_model_list
                   (loaded_model_config l)
                   config_file_path
                   (__post_init__ config_file_path)
                   warning_infos)
        end
    end.

End Configuration.

(** ** Equality of configurations *)

(** [l1 == l2] on lists, given [==] on the elements *)
Fixpoint list_eqb {A} (eq : A -> A -> bool) (l1 l2 : list A) : bool :=
  match l1, l2 with
  | [], [] => true
  | x :: l1', y :: l2' => eq x y && list_eqb eq l1' l2'
  | _, _ => false
  end.

(** [==] on values compared structurally *)
Definition eqb `{EqDecision A} (x y : A) : bool := bool_decide (x = y).

(** [==] of the [ExtJob] dataclass: field by field *)
Definition ExtJob_eqb (a b : ExtJob SubstitutionList) : bool :=
  eqb (name a) (name b)
  && eqb (executable a) (executable b)
  && eqb (target_file a) (target_file b)
  && eqb (error_file a) (error_file b)
  && eqb (start_file a) (start_file b)
  && eqb (stdout_file a) (stdout_file b)
  && eqb (stderr_file a) (stderr_file b)
  && eqb (stdin_file a) (stdin_file b)
  && eqb (arglist a) (arglist b)
  && Dict.eqb eqb (environment a) (environment b)
  && Dict.eqb eqb (exec_env a) (exec_env b)
  && Dict.eqb eqb (default_mapping a) (default_mapping b)
  && eqb (max_running_minutes a) (max_running_minutes b)
  && eqb (max_running a) (max_running b)
  && eqb (min_arg a) (min_arg b)
  && eqb (max_arg a) (max_arg b)
  && eqb (arg_types a) (arg_types b)
  && Dict.eqb eqb (private_args a) (private_args b).

(** [==] on two job references: the objects they denote are compared *)
Definition job_eqb (h : heap) (l1 l2 : loc) : bool :=
  match snapshot h l1, snapshot h l2 with
  | Some a, Some b => ExtJob_eqb a b
  | _, _ => false
  end.

Section Equality.
Context `{PyBuiltins} `{FileSystem} `{Collaborators}.

  (** The instance attributes, in the order [vars(self)] lists them: the
      fields as [__init__] assigns them, then [config_path], set by
      [__post_init__]. *)
Inductive attribute :=
  | a_substitution_list | a_ensemble_config | a_ens_path | a_env_vars
  | a_random_seed | a_analysis_config | a_queue_config | a_workflow_jobs
  | a_workflows | a_hooked_workflows | a_runpath_file | a_ert_templates
  | a_installed_jobs | a_forward_model_list | a_model_config
  | a_user_config_file | a_warning_infos | a_config_path.

Definition vars : list attribute :=
    [ a_substitution_list; a_ensemble_config; a_ens_path; a_env_vars;
      a_random_seed; a_analysis_config; a_queue_config; a_workflow_jobs;
      a_workflows; a_hooked_workflows; a_runpath_file; a_ert_templates;
      a_installed_jobs; a_forward_model_list; a_model_config;
      a_user_config_file; a_warning_infos; a_config_path ].

Definition attribute_name (a : attribute) : string :=
    match a with
    | a_substitution_list => "substitution_list"
    | a_ensemble_config => "ensemble_config"
    | a_ens_path => "ens_path"
    | a_env_vars => "env_vars"
    | a_random_seed => "random_seed"
    | a_analysis_config => "analysis_config"
    | a_queue_config => "queue_config"
    | a_workflow_jobs => "workflow_jobs"
    | a_workflows => "workflows"
    | a_hooked_workflows => "hooked_workflows"
    | a_runpath_file => "runpath_file"
    | a_ert_templates => "ert_templates"
    | a_installed_jobs => "installed_jobs"
    | a_forward_model_list => "forward_model_list"
    | a_model_config => "model_config"
    | a_user_config_file => "user_config_file"
    | a_warning_infos => "warning_infos"
    | a_config_path => "config_path"
    end.

  (** [==] on [WarningInfo] values *)
Definition WarningInfo_eqb (a b : WarningInfo) : bool :=
    eqb (warning_message a) (warning_message b)
    && eqb (warning_filename a) (warning_filename b).

  (** [getattr(self, attr) == getattr(other, attr)] *)
Definition getattr_eq (h : heap) (a : attribute) (self other : ErtConfig) : bool :=
    match a with
    | a_substitution_list =>
        Dict.eqb eqb (substitution_list self) (substitution_list other)
    | a_ensemble_config =>
        EnsembleConfig_eq (ensemble_config self) (ensemble_config other)
    | a_ens_path => eqb (ens_path self) (ens_path other)
    | a_env_vars => Dict.eqb eqb (env_vars self) (env_vars other)
    | a_random_seed => eqb (random_seed self) (random_seed other)
    | a_analysis_config =>
        AnalysisConfig_eq (analysis_config self) (analysis_config other)
    | a_queue_config => QueueConfig_eq (queue_config self) (queue_config other)
    | a_workflow_jobs =>
        Dict.eqb WorkflowJob_eq (workflow_jobs self) (workflow_jobs other)
    | a_workflows => Dict.eqb Workflow_eq (workflows self) (workflows other)
    | a_hooked_workflows =>
        Dict.eqb (list_eqb Workflow_eq)
                 (hooked_workflows self) (hooked_workflows other)
    | a_runpath_file =>
        eqb (pure_path (runpath_file self)) (pure_path (runpath_file other))
    | a_ert_templates => eqb (ert_templates self) (ert_templates other)
    | a_installed_jobs =>
        Dict.eqb (job_eqb h) (installed_jobs self) (installed_jobs other)
    | a_forward_model_list =>
        list_eqb (job_eqb h) (forward_model_list self) (forward_model_list other)
    | a_model_config =>
        match model_config self, model_config other with
        | Some a, Some b => ModelConfig_eq a b
        | None, None => true
        | _, _ => false
        end
    | a_user_config_file => eqb (user_config_file self) (user_config_file other)
    | a_warning_infos =>
        list_eqb WarningInfo_eqb (warning_infos self) (warning_infos other)
    | a_config_path => eqb (config_path self) (config_path other)
    end.

  (** What an [ErtConfig] may be compared with. *)
Inductive pyobject :=
  | AnErtConfig (c : ErtConfig)
  | NotAnErtConfig (description : string).

Definition ignore_attrs : list string := ["warning_infos"].

  (** [ErtConfig.__eq__], in the store [h] the jobs of both sides live in *)
Definition __eq__ (h : heap) (self : ErtConfig) (other : pyobject) : bool :=
    match other with
    | NotAnErtConfig _ => false
    | AnErtConfig other =>
        forallb (fun attr =>
                   existsb (String.eqb (attribute_name attr)) ignore_attrs
                   || getattr_eq h attr self other)
                vars
    end.

End Equality.

(** ** The execution descriptor *)

(** One entry of ["jobList"]. *)
Record job_json := mkJobJson {
  json_name : string;
  json_executable : string;
  json_target_file : option string;
  json_error_file : option string;
  json_start_file : option string;
  json_stdout : option string;
  json_stderr : option string;
  json_stdin : option string;
  json_argList : list string;
  (** [None] is Python's [None], rendered [null] in [jobs.json] *)
  json_environment : option (Dict.t string (option string));
  json_exec_env : option (Dict.t string (option string));
  json_max_running_minutes : option Z;
  json_max_running : option Z;
  json_min_arg : option Z;
  json_arg_types : list string;
  json_max_arg : option Z
}.

Record descriptor := mkDescriptor {
  global_environment : Dict.t string string;
  json_config_path : string;
  json_config_file : string;
  jobList : list job_json;
  run_id : string;
  ert_pid : string
}.

Section Descriptor.
Context `{PyBuiltins} `{FileSystem} `{Collaborators}.

  (** The local class [Substituter] of [forward_model_data_to_json];
      [context], [iens] and [itr] are the variables it closes over. *)
Record Substituter := mkSubstituter {
    substitution_context_hint : string;
    copy_private_args : SubstitutionList
  }.

Section Closure.
Variable context : SubstitutionList.
Variables iens itr : Z.

    (** [Substituter.__init__] *)
Definition Substituter_init (job : ExtJob SubstitutionList) : Substituter :=
      let job_args :=
        Str.join "," (map (fun kv => fst kv +:+ "=" +:+ snd kv) (private_args job)) in
      let job_description := name job +:+ "(" +:+ job_args +:+ ")" in
      mkSubstituter
        ("parsing forward model job `FORWARD_MODEL " +:+ job_description
         +:+ "` - " +:+ "reconstructed, with defines applied during parsing")
        (fold_left
           (fun copy kv =>
              Dict.set (fst kv) (substitute_real_iter context (snd kv) iens itr) copy)
           (private_args job) []).

    (** [Substituter.substitute] on a string *)
Definition Substituter_substitute (self : Substituter) (s : string) : string :=
      let s := substitute_hint (copy_private_args self) s
                               (substitution_context_hint self) 1 in
      substitute_real_iter context s iens itr.

    (** [Substituter.substitute] on an optional string *)
Definition Substituter_substitute_opt (self : Substituter) (s : option string)
      : option string :=
      match s with
      | None => None
      | Some s => Some (Substituter_substitute self s)
      end.

    (** One iteration of the loop of [filter_env_dict]. *)
Definition filter_env_item (self : Substituter)
               (result : Dict.t string (option string))
               (item : string * option string)
      : M (Dict.t string (option string)) :=
      let '(key, value) := item in
      let new_key := Substituter_substitute self key in
      match Substituter_substitute_opt self value with
      | None => ret (Dict.set new_key None result)
      | Some new_value =>
          match Str.first new_value, Str.last new_value with
          | Some first, Some last =>
              if negb (Ascii.eqb first "<" && Ascii.eqb last ">") then
                (* Remove values containing "<XXX>". These are expected to be
                   replaced by substitute, but were not. *)
                ret (Dict.set new_key (Some new_value) result)
              else
                let* _ := log "WARNING"
                              ("Environment variable " +:+ new_key
                               +:+ " skipped due to unmatched define "
                               +:+ new_value) in
                ret result
          | _, _ => raise (IndexError "string index out of range")
          end
      end.

    (** [Substituter.filter_env_dict] *)
Definition filter_env_dict (self : Substituter)
               (d : Dict.t string (option string))
      : M (option (Dict.t string (option string))) :=
      let* result := for_each (filter_env_item self) d [] in
      (* Its expected that empty dicts be replaced with "null" in jobs.json *)
      match result with
      | [] => ret None
      | _ => ret (Some result)
      end.

    (** [handle_default] *)
Definition handle_default (job : ExtJob SubstitutionList) (arg : string) : string :=
      default arg (Dict.get arg (default_mapping job)).

    (** [if job.stdout_file] *)
Definition nonempty (s : option string) : bool :=
      match s with
      | Some s => negb (String.eqb s "")
      | None => false
      end.

    (** One element of the ["jobList"] comprehension. *)
Definition job_to_json (idx : nat) (job : ExtJob SubstitutionList) : M job_json :=
      let substituter := Substituter_init job in
      let sub := Substituter_substitute substituter in
      let sub_opt := Substituter_substitute_opt substituter in
      let suffixed (f : option string) :=
        if nonempty f
        then option_map (fun s => s +:+ "." +:+ str_of_nat idx) (sub_opt f)
        else None in
      let* env := filter_env_dict substituter (environment job) in
      let* exec := filter_env_dict substituter (exec_env job) in
      ret (mkJobJson
             (sub (name job))
             (sub (executable job))
             (sub_opt (target_file job))
             (sub_opt (error_file job))
             (sub_opt (start_file job))
             (suffixed (stdout_file job))
             (suffixed (stderr_file job))
             (sub_opt (stdin_file job))
             (map (fun arg => handle_default job (sub arg)) (arglist job))
             env exec
             (max_running_minutes job) (max_running job) (min_arg job)
             (arg_types job) (max_arg job)).

    (** The loop that reports private arguments shadowing global ones. *)
Definition report_shadowing (job : ExtJob SubstitutionList) : M unit :=
      let* _ :=
        for_each
          (fun (_ : unit) kv =>
             let '(key, val) := kv in
             match Dict.get key context with
             | Some global =>
                 if negb (String.eqb key val) then
                   log "INFO" ("Private arg '" +:+ key +:+ "':'" +:+ val
                               +:+ "' chosen over global '" +:+ global
                               +:+ "' in forward model " +:+ name job)
                 else ret tt
             | None => ret tt
             end)
          (private_args job) tt in
      ret tt.

End Closure.

  (** Reading the object a job reference denotes. *)
Definition read_snapshot (l : loc) : M (ExtJob SubstitutionList) :=
    let* j := read_job l in
    let* d := read_subst (private_args j) in
    ret (with_private_args d j).

  (** [str(Path(p).parent)] and [str(Path(p).name)] *)
Definition path_parent (p : string) : string :=
    let '(root, parts) := pure_path p in
    match removelast parts, root with
    | [], "" => "."
    | parent, _ => root +:+ Str.join "/" parent
    end.
Definition path_name (p : string) : string := List.last (snd (pure_path p)) "".

  (** [jobs] paired with their ordinal, [enumerate(jobs)] from [idx] on *)
Fixpoint enumerate_from {A} (idx : nat) (l : list A) : list (nat * A) :=
    match l with
    | [] => []
    | x :: rest => (idx, x) :: enumerate_from (S idx) rest
    end.

  (** [ErtConfig.forward_model_data_to_json] *)
Definition forward_model_data_to_json (self : ErtConfig)
             (run_id : string) (iens itr : Z) : M descriptor :=
    let context := substitution_list self in
    let* jobs :=
      for_each (fun acc l => let* job := read_snapshot l in ret (acc ++ [job]))
               (forward_model_list self) [] in
    let* _ := for_each (fun (_ : unit) job => report_shadowing context job) jobs tt in
    let* job_list :=
      for_each (fun acc ij =>
                  let* j := job_to_json context iens itr (fst ij) (snd ij) in
                  ret (acc ++ [j]))
               (enumerate_from 0 jobs) [] in
    ret (mkDescriptor (env_vars self)
                      (path_parent (user_config_file self))
                      (path_name (user_config_file self))
                      job_list run_id getpid).

End Descriptor.

(** ** A concrete environment

    One instance of each interface, small enough to run the module on
    concrete configurations.  The built-ins agree with Python on the strings
    used below: [int] on plain decimal literals, [repr] on printable ASCII
    text without quotes or backslashes, [lower] on ASCII letters. *)

Module Demo.

Definition is_digit (c : ascii) : bool :=
    ((48 <=? nat_of_ascii c) && (nat_of_ascii c <=? 57))%nat.

Fixpoint digits_value (acc : Z) (s : string) : option Z :=
    match s with
    | EmptyString => Some acc
    | String c s' =>
        if is_digit c
        then digits_value (10 * acc + Z.of_nat (nat_of_ascii c - 48))%Z s'
        else None
    end.

Definition int (s : string) : option Z :=
    match s with
    | EmptyString => None
    | String "-" (String c r) => option_map Z.opp (digits_value 0 (String c r))
    | String "+" (String c r) => digits_value 0 (String c r)
    | _ => digits_value 0 s
    end.

Definition repr (s : string) : string := "'" +:+ s +:+ "'".

Definition lower_char (c : ascii) : ascii :=
    let n := nat_of_ascii c in
    if ((65 <=? n) && (n <=? 90))%nat then ascii_of_nat (n + 32) else c.

Fixpoint lower (s : string) : string :=
    match s with
    | EmptyString => EmptyString
    | String c s' => String (lower_char c) (lower s')
    end.

Fixpoint distinct (seen : list string) (l : list string) : list string :=
    match l with
    | [] => []
    | x :: rest =>
        if existsb (String.eqb x) seen then distinct seen rest
        else x :: distinct (x :: seen) rest
    end.

#[export] Instance builtins : PyBuiltins :=
    {| py_int := int; py_repr := repr; py_lower := lower;
       py_set_order := distinct [] |}.

  (** A file system with one job directory holding two job files. *)
#[export] Instance files : FileSystem :=
    {| getcwd := "/work";
       getpid := "4242";
       isdir := fun p => String.eqb p "/jobs";
       isfile := fun p => String.eqb p "/jobs/echo.job"
                          || String.eqb p "/jobs/shout.job"
                          || String.eqb p "/jobs/echo_v2.job";
       listdir := fun p => if String.eqb p "/jobs"
                           then ["echo.job"; "shout.job"] else [];
       read_utf8 := fun _ => ReadOk |}.

Definition job (job_name exe : string) (args : list string)
             (env : Dict.t string (option string)) : ExtJob SubstitutionList :=
    mkExtJob job_name exe None None None
             (Some (job_name +:+ ".stdout")) (Some (job_name +:+ ".stderr")) None
             args env [] [] None None None None [] [].

  (** The job files of the demonstration. *)
Definition load_job (config_file : string) (job_name : option string)
    : result (ExtJob SubstitutionList) :=
    if String.eqb config_file "/jobs/echo.job" then
      Ok (job (default "echo" job_name) "/bin/echo" ["<MSG>"]
              [("GREETING", Some "<MSG>"); ("TOOLS", Some "/opt/<TOOL>/bin")])
    else if String.eqb config_file "/jobs/echo_v2.job" then
      Ok (job (default "echo_v2" job_name) "/usr/local/bin/echo" ["<MSG>"] [])
    else if String.eqb config_file "/jobs/shout.job" then
      Ok (job (default "shout" job_name) "/bin/shout" [] [])
    else
      Raise (ConfigValidationError_of
               ("Could not open job config file " +:+ repr config_file)
               (Some config_file)).

  (** Textual replacement of every key, repeated until nothing changes or
      the budget is spent. *)
Definition replace_keys (table : SubstitutionList) (s : string) : string :=
    fold_left (fun s kv => if String.eqb (fst kv) "" then s
                           else Str.replace (fst kv) (snd kv) s) table s.

Fixpoint replace_keys_upto (budget : nat) (table : SubstitutionList)
           (s : string) : string :=
    match budget with
    | O => s
    | S budget' =>
        let s' := replace_keys table s in
        if String.eqb s' s then s else replace_keys_upto budget' table s'
    end.

Definition str_of_Z (z : Z) : string :=
    if (z <? 0)%Z then "-" +:+ str_of_nat (Z.to_nat (- z))
    else str_of_nat (Z.to_nat z).

  (** ["k1=v1,k2=v2"] *)
Definition parse_args (table : SubstitutionList) (s : string)
    : result SubstitutionList :=
    fold_result
      (fun table part =>
         match Str.split "=" part with
         | [key; val] => Ok (Dict.set key val table)
         | _ => Raise (ValueError ("Could not parse argument " +:+ repr part))
         end)
      (Str.split "," s) table.

Inductive hook := PRE_SIMULATION | POST_SIMULATION | PRE_UPDATE | POST_UPDATE.

#[export] Instance hook_eq_dec : EqDecision hook.
  Proof. solve_decision. Defined.

Definition hook_attr (mode_name : string) : option hook :=
    if String.eqb mode_name "PRE_SIMULATION" then Some PRE_SIMULATION
    else if String.eqb mode_name "POST_SIMULATION" then Some POST_SIMULATION
    else if String.eqb mode_name "PRE_UPDATE" then Some PRE_UPDATE
    else if String.eqb mode_name "POST_UPDATE" then Some POST_UPDATE
    else None.

Definition render (errors : list ErrorInfo) : string :=
    Str.join (String "010" "") (map message errors).

  (** Sub-configurations without content; a workflow job or a workflow is
      the path it was loaded from. *)
#[export] Instance collaborators : Collaborators :=
    {| EnsembleConfig := unit;
       AnalysisConfig := unit;
       QueueConfig := unit;
       ModelConfig := unit;
       Refcase := unit;
       WorkflowJob := string;
       Workflow := string;
       HookRuntime := hook;
       EnsembleConfig_from_dict := fun _ => Ok tt;
       refcase := fun _ => tt;
       ModelConfig_from_dict := fun _ _ => Ok tt;
       runpath_format_string := fun _ => "simulations/realization-<IENS>/iter-<ITER>";
       eclbase_format_string := fun _ => "ECLBASE<IENS>";
       AnalysisConfig_from_dict := fun _ => Ok tt;
       QueueConfig_from_dict := fun _ => Ok tt;
       WorkflowJob_from_file := fun path job_name =>
         Ok (default (Path.basename path) job_name);
       WorkflowJob_name := fun j => j;
       Workflow_from_file := fun path _ _ =>
         if Str.startswith "/workflows/" path then Ok path
         else Raise (ConfigValidationError_of
                       ("Could not open workflow " +:+ repr path) (Some path));
       HookRuntime_attr := hook_attr;
       ExtJob_from_config_file := load_job;
       SubstitutionList_from_dict := fun _ =>
         [("<CONFIG_PATH>", "/work"); ("<CONFIG_FILE>", "demo.ert")];
       substitute := replace_keys_upto 100;
       substitute_hint := fun table s _ budget => replace_keys_upto budget table s;
       substitute_real_iter := fun table s iens itr =>
         replace_keys_upto 100
           (Dict.set "<ITER>" (str_of_Z itr)
              (Dict.set "<IENS>" (str_of_Z iens) table)) s;
       add_from_string := parse_args;
       error_str := render;
       get_cli_message := render;
       EnsembleConfig_eq := fun _ _ => true;
       AnalysisConfig_eq := fun _ _ => true;
       QueueConfig_eq := fun _ _ => true;
       ModelConfig_eq := fun _ _ => true;
       WorkflowJob_eq := String.eqb;
       Workflow_eq := String.eqb |}.

Definition initial : state := mkState [] [] [].

  (** A configuration dictionary from its items. *)
Definition config (l : list (string * cval)) : ConfigDict :=
    mkConfigDict (list_to_map l) None.

End Demo.

(** ** Vocabulary of the statements *)

Section Vocabulary.
Context `{PyBuiltins} `{FileSystem} `{Collaborators}.

  (** A MAX_RUNNING value is offending when it is no integer or a negative
      one. *)
Definition offending (value : string) : Prop :=
    py_int value = None \/ exists n, py_int value = Some n /\ (n < 0)%Z.

  (** The configuration [c] with another list of warnings. *)
Definition with_warning_infos (w : list WarningInfo) (c : ErtConfig) : ErtConfig :=
    mkErtConfig (substitution_list c) (ensemble_config c) (ens_path c)
                (env_vars c) (random_seed c) (analysis_config c) (queue_config c)
                (workflow_jobs c) (workflows c) (hooked_workflows c)
                (runpath_file c) (ert_templates c) (installed_jobs c)
                (forward_model_list c) (model_config c) (user_config_file c)
                (config_path c) w.




End Vocabulary.

(** ** Concrete scenarios *)

Module Scenario.
Import Demo.

  (** A store holding one registered job, [echo], and two configurations
      over it that differ in their warnings and in the order of their
      environment variables only. *)
Definition echo_store : heap :=
    [ OSubst [];
      OJob (with_private_args 0 (job "echo" "/bin/echo" ["<MSG>"] [])) ].

Definition quiet : ErtConfig :=
    mkErtConfig [("<CONFIG_PATH>", "/work")] tt "/work/storage"
                [("A", "1"); ("B", "2")] None tt tt [] [] []
                "/work/.ert_runpath_list" [] [("echo", 1)] [1] (Some tt)
                "/work/demo.ert" "/work" [].

Definition noisy : ErtConfig :=
    mkErtConfig [("<CONFIG_PATH>", "/work")] tt "/work/storage"
                [("B", "2"); ("A", "1")] None tt tt [] [] []
                "/work/./.ert_runpath_list" [] [("echo", 1)] [1] (Some tt)
                "/work/demo.ert" "/work"
                [mkWarningInfo "RSH_HOST is deprecated" (Some "/work/demo.ert")].

End Scenario.

Module Scenario2.
Import Demo.

  (** A configuration that loads: [echo] is installed twice, the forward
      model runs it three times, each time with other private arguments. *)
Definition echo_config : ConfigDict :=
    config
      [("INSTALL_JOB", Rows [["echo"; "/jobs/echo.job"]; ["echo"; "/jobs/echo_v2.job"]]);
       ("FORWARD_MODEL",
        Invocations [[Text "echo"; Pairs [["<MSG>"; "hello"]]];
                     [Text "echo"; Text "<MSG>=bye"];
                     [Text "echo"]]);
       ("QUEUE_OPTION", Rows [["LOCAL"; "MAX_RUNNING"; "4"]]);
       ("LOAD_WORKFLOW", Rows [["/workflows/export"]]);
       ("HOOK_WORKFLOW", Rows [["export"; "POST_SIMULATION"]])].

End Scenario2.

Module Scenario3.
Import Demo.

(** One workflow is loaded; of the three hook declarations the first names
    a workflow that does not exist and the last a stage that does not
    exist. *)
Definition dangling_hooks : ConfigDict :=
  config
    [("LOAD_WORKFLOW", Rows [["/workflows/export"]]);
     ("HOOK_WORKFLOW", Rows [["no_such_workflow"; "PRE_SIMULATION"];
                             ["export"; "POST_SIMULATION"];
                             ["export"; "NO_SUCH_STAGE"]])].

End Scenario3.

Module Scenario4.
Import Demo.

(** The job [echo] is installed twice, from two job files with different
    executables. *)
Definition installed_twice : ConfigDict :=
  config [("INSTALL_JOB", Rows [["echo"; "/jobs/echo.job"];
                                ["echo"; "/jobs/echo_v2.job"]])].

End Scenario4.

(** ** Vocabulary of the resolver statements *)

Section ResolverVocabulary.
Context `{PyBuiltins} `{Collaborators}.

(** A requested invocation, in the two styles of the configuration file:
    a FORWARD_MODEL entry, whose job name has been substituted and which may
    carry private arguments, or a SIMULATION_JOB entry with its positional
    arguments. *)
Inductive invocation :=
| Templated (job_name : string) (args : fm_item)
| Direct (job_name : string) (arguments : list string).

Definition invoked_name (inv : invocation) : string :=
  match inv with
  | Templated job_name _ => job_name
  | Direct job_name _ => job_name
  end.

(** The invocation a FORWARD_MODEL entry [name] or [name, args] asks for. *)
Definition templated_of (substitution_list : SubstitutionList)
           (entry : list fm_item) : option invocation :=
  match entry with
  | [Text job_name] =>
      Some (Templated (substitute substitution_list job_name) (Pairs []))
  | [Text job_name; args] =>
      Some (Templated (substitute substitution_list job_name) args)
  | _ => None
  end.

(** The invocation a SIMULATION_JOB entry [name, argument...] asks for. *)
Definition direct_of (job_description : list string) : option invocation :=
  match job_description with
  | job_name :: arguments => Some (Direct job_name arguments)
  | [] => None
  end.

(** Loading key/value pairs into a dictionary, pair after pair; [None] when
    some pair is not a key and a value. *)
Fixpoint load_pairs (pairs : list (list string)) (d : SubstitutionList)
  : option SubstitutionList :=
  match pairs with
  | [] => Some d
  | [key; val] :: rest => load_pairs rest (Dict.set key val d)
  | _ :: _ => None
  end.

(** The private scope some arguments denote, when they are well formed. *)
Definition parsed_args (args : fm_item) : option SubstitutionList :=
  match args with
  | Text s =>
      match add_from_string [] s with
      | Ok d => Some d
      | Raise _ => None
      end
  | Pairs pairs => load_pairs pairs []
  end.

(** The job an invocation of the registered job [registered] resolves to:
    the registered definition with the invocation's private scope, or with
    its positional arguments. *)
Definition expected_job (registered : ExtJob SubstitutionList)
           (inv : invocation) : option (ExtJob SubstitutionList) :=
  match inv with
  | Templated _ args =>
      if truthy args
      then option_map (fun scope => with_private_args scope registered)
                      (parsed_args args)
      else Some registered
  | Direct _ arguments => Some (with_arglist arguments registered)
  end.

(** The error recorded for an invocation of a job that is not installed. *)
Definition missing_error (installed_jobs : Dict.t string loc) (config_file : string)
           (inv : invocation) : collected :=
  match inv with
  | Templated job_name _ =>
      Caught [ {| message := "Could not find job " +:+ py_repr job_name
                             +:+ " in list of installed jobs: "
                             +:+ repr_list (Dict.keys installed_jobs);
                  filename := Some config_file; context := None |} ]
  | Direct job_name _ =>
      Caught [ {| message := "Could not find job " +:+ py_repr job_name
                             +:+ " in list of installed jobs.";
                  filename := Some config_file; context := None |} ]
  end.

(** Whether the job an invocation names is installed. *)
Definition installed (installed_jobs : Dict.t string loc) (inv : invocation) : bool :=
  Dict.mem (invoked_name inv) installed_jobs.

(** An invocation the resolver can carry out: its job is installed, the
    registry entry denotes a job in the store [h], and its arguments are
    well formed; [job] is what it resolves to. *)
Definition resolvable (installed_jobs : Dict.t string loc) (h : heap)
           (inv : invocation) (job : ExtJob SubstitutionList) : Prop :=
  exists l registered,
    Dict.get (invoked_name inv) installed_jobs = Some l
    /\ snapshot h l = Some registered
    /\ expected_job registered inv = Some job.

(** The cells of the store a job object consists of: the job and the
    dictionary of its private arguments. *)
Definition footprint (h : heap) (l : loc) : list loc :=
  match h !! l with
  | Some (OJob j) => [l; private_args j]
  | _ => [l]
  end.

(** [job.private_args[key] = val] on the job object at [l] *)
Definition set_private_arg (l : loc) (key val : string) : M unit :=
  let* j := read_job l in
  setitem (private_args j) key val.

(** [job.private_args = SubstitutionList()] followed by the assignment of
    the pairs of [scope], on the job object at [l] *)
Definition attach_private_args (l : loc) (scope : SubstitutionList) : M unit :=
  let* p := alloc (OSubst []) in
  let* j := read_job l in
  let* _ := write l (OJob (with_private_args p j)) in
  for_each (fun (_ : unit) kv => setitem p (fst kv) (snd kv)) scope tt.

End ResolverVocabulary.

(** A job object freshly laid out in the cells [cells] appended to the
    store [h]: the reference [S (length h)] denotes [job], and the cells the
    object consists of are distinct and all among the new ones. *)
Definition fresh_job (h cells : heap) (job : ExtJob SubstitutionList) : Prop :=
  snapshot (h ++ cells) (S (length h)) = Some job
  /\ Forall (fun x => length h <= x < length (h ++ cells))
            (footprint (h ++ cells) (S (length h)))
  /\ NoDup (footprint (h ++ cells) (S (length h))).

(** The job objects [jobs] were laid out after the store [h0]: their cells
    lie beyond it, inside [h], and no cell belongs to two of them. *)
Definition placed (h0 h : heap) (jobs : list loc) : Prop :=
  Forall (fun x => length h0 <= x < length h) (flat_map (footprint h) jobs)
  /\ NoDup (flat_map (footprint h) jobs).

Module Scenario5.
Import Demo.

(** The registry holds [echo]; it is invoked three times by FORWARD_MODEL,
    with pairs, with an argument string and without arguments, and once by
    SIMULATION_JOB. *)
Definition registry : Dict.t string loc := [("echo", 1)].

Definition echo_state : state := mkState Scenario.echo_store [] [].

Definition four_invocations : ConfigDict :=
  config
    [("FORWARD_MODEL",
      Invocations [[Text "echo"; Pairs [["<MSG>"; "hello"]]];
                   [Text "echo"; Text "<MSG>=bye"];
                   [Text "echo"]]);
     ("SIMULATION_JOB", Rows [["echo"; "again"]])].

(** The same with two invocations of jobs that are not installed. *)
Definition with_typos : ConfigDict :=
  config
    [("FORWARD_MODEL",
      Invocations [[Text "echo"; Pairs [["<MSG>"; "hello"]]];
                   [Text "ecoh"];
                   [Text "echo"]]);
     ("SIMULATION_JOB", Rows [["shout"; "again"]; ["echo"; "again"]])].

End Scenario5.

(** ** Loading and logging a configuration file *)

(** The string methods of Python that [_log_config_file] applies to the
    lines of the configuration file.  Characters are the code points below
    256. *)
Module PyStr.

(** [c.isspace()]: the control characters 9 to 13 and 28 to 31, the space,
    NEL and the no-break space *)
Definition isspace (c : ascii) : bool :=
  let n := nat_of_ascii c in
  (Nat.leb 9 n && Nat.leb n 13) || (Nat.leb 28 n && Nat.leb n 32)
  || Nat.eqb n 133 || Nat.eqb n 160.

(** [s.lstrip()] *)
Fixpoint lstrip (s : string) : string :=
  match s with
  | String c s' => if isspace c then lstrip s' else s
  | EmptyString => EmptyString
  end.

(** [s.rstrip()] *)
Fixpoint rstrip (s : string) : string :=
  match s with
  | String c s' =>
      match rstrip s' with
      | EmptyString => if isspace c then EmptyString else String c EmptyString
      | rest => String c rest
      end
  | EmptyString => EmptyString
  end.

(** [s.strip()] *)
Definition strip (s : string) : string := rstrip (lstrip s).

(** Worker of [split]: [cur] is the component read so far; [skip]
    characters of a separator just found are still to be dropped. *)
Fixpoint split_from (sep : string) (skip : nat) (cur : string) (s : string)
  : list string :=
  match s with
  | EmptyString => [cur]
  | String c s' =>
      match skip with
      | S n => split_from sep n cur s'
      | O =>
          if Str.startswith sep s
          then cur :: split_from sep (String.length sep - 1) EmptyString s'
          else split_from sep 0 (cur +:+ String c EmptyString) s'
      end
  end.

(** [s.split(sep)] for a non-empty [sep] *)
Definition split (sep s : string) : list string := split_from sep 0 EmptyString s.

End PyStr.

(** What [from_file] and the two logging methods take from outside the
    module: the parser ([read_user_config] goes through [lark_parse], which
    is not part of the sources), the lines that iterating over the file
    opened as UTF-8 text yields, or the exception opening or decoding it
    raises, and [str] of a dictionary. *)
Class ConfigSource := {
  read_user_config : string -> result ConfigDict;
  open_lines : string -> result (list string);
  py_str_dict : gmap string cval -> string
}.

Definition newline : string := String "010" EmptyString.

(** The two quote characters [_log_config_file] looks for. *)
Definition quotes : list string :=
  [String (ascii_of_nat 34) EmptyString; "'"].

(** The keywords whose lines and entries are kept out of the log. *)
Definition unlogged_keywords : list string :=
  ["FORWARD_MODEL"; "LOAD_WORKFLOW"; "LOAD_WORKFLOW_JOB"; "HOOK_WORKFLOW";
   "WORKFLOW_JOB_DIRECTORY"].

(** One iteration of the loop of [_log_config_file] over the lines of the
    file: [config_context] after the iteration. *)
Definition log_line (config_context line : string) : string :=
  let line := PyStr.strip line in
  if String.eqb line "" || Str.startswith "--" line then config_context
  else
    let line :=
      if Str.contains "--" line
         && negb (existsb (fun x => Str.contains x line) quotes)
      then
        (* There might be a comment in this line, but it could also be an
           argument to a job, so we do a quick check *)
        PyStr.rstrip (hd "" (PyStr.split "--" line))
      else line in
    if existsb (fun kw => Str.contains kw line) unlogged_keywords
    then config_context
    else config_context +:+ line +:+ newline.

Section FromFile.
Context `{PyBuiltins} `{FileSystem} `{Collaborators} `{ConfigSource}.

(** [ErtConfig._log_config_file] *)
Definition _log_config_file (config_file : option string) : M unit :=
  match config_file with
  | Some config_file =>
      if isfile config_file then
        let* lines := lift (open_lines config_file) in
        let config_context := fold_left log_line lines "" in
        log "INFO" ("Content of the configuration file (" +:+ config_file
                    +:+ "):" +:+ newline +:+ config_context)
      else ret tt
  | None => ret tt
  end.

(** [ErtConfig._log_config_dict] *)
Definition _log_config_dict (content_dict : ConfigDict) : M unit :=
  let tmp_dict := items content_dict in
  let tmp_dict := delete "FORWARD_MODEL" tmp_dict in
  let tmp_dict := delete "LOAD_WORKFLOW" tmp_dict in
  let tmp_dict := delete "LOAD_WORKFLOW_JOB" tmp_dict in
  let tmp_dict := delete "HOOK_WORKFLOW" tmp_dict in
  let tmp_dict := delete "WORKFLOW_JOB_DIRECTORY" tmp_dict in
  log "INFO" ("Content of the config_dict: " +:+ py_str_dict tmp_dict).

(** [ErtConfig.from_file] *)
Definition from_file (user_config_file : string) : M ErtConfig :=
  let* user_config_dict := lift (read_user_config user_config_file) in
  let config_dir := abspath (Path.dirname user_config_file) in
  let* _ := _log_config_file (Some user_config_file) in
  let* _ := _log_config_dict user_config_dict in
  let* content_dict :=
    lift (apply_config_content_defaults user_config_dict config_dir) in
  from_dict content_dict.

End FromFile.

(** ** The remaining methods of [ErtConfig] *)

Section Accessors.
Context `{PyBuiltins} `{FileSystem} `{Collaborators} `{ConfigSource}.

(** [ErtConfig.forward_model_job_name_list] *)
Definition forward_model_job_name_list (self : ErtConfig) : M (list string) :=
  for_each (fun names l => let* j := read_job l in ret (names ++ [name j]))
           (forward_model_list self) [].

(** [ErtConfig.preferred_num_cpu]: [int] of the [<NUM_CPU>] macro, [1]
    when it is not defined *)
Definition preferred_num_cpu (self : ErtConfig) : result Z :=
  match Dict.get ("<" +:+ ConfigKeys.NUM_CPU +:+ ">") (substitution_list self) with
  | None => Ok 1%Z
  | Some value =>
      match py_int value with
      | Some n => Ok n
      | None => Raise (ValueError ("invalid literal for int() with base 10: "
                                   +:+ py_repr value))
      end
  end.

(** [ErtConfig.make_suggestion_list] *)
Definition make_suggestion_list (config_file : string) : M (list string) :=
  let* ert_config := from_file config_file in
  ret (map warning_message (warning_infos ert_config)).

End Accessors.

Module Scenario6.
Import Demo.

(** A dictionary as the parser leaves it for a file with a deprecated
    keyword: a relative run-path file, one installed job run once, and two
    parser warnings. *)
Definition with_parser_warnings : ConfigDict :=
  mkConfigDict
    (list_to_map
       [("RUNPATH_FILE", Single "out/../runs.txt");
        ("INSTALL_JOB", Rows [["echo"; "/jobs/echo.job"]]);
        ("FORWARD_MODEL", Invocations [[Text "echo"]])])
    (Some [mkWarningInfo "PLOT_SETTINGS is deprecated" (Some "cases/demo.ert");
           mkWarningInfo "Use NUM_CPU instead of QUEUE_OPTION" (Some "cases/demo.ert")]).

End Scenario6.

(** The state [s'] holds the store and log of [s] and more: the cells of
    [s] are unchanged, objects and warnings have only been added, the log
    is the same. *)
Definition extends (s s' : state) : Prop :=
  (exists cells, store s' = store s ++ cells)
  /\ (exists messages, warnings s' = warnings s ++ messages)
  /\ logs s' = logs s.

Section RegistryVocabulary.
Context `{PyBuiltins} `{FileSystem} `{Collaborators}.

(** Every entry of the registry [jobs] is a reference, created after the
    store [h0], to a job in the store [h] that is one a job file has been
    loaded to. *)
Definition registry_sound (h0 h : heap) (jobs : Dict.t string loc) : Prop :=
  forall job_name l,
    Dict.get job_name jobs = Some l ->
    length h0 <= l
    /\ exists job,
        snapshot h l = Some job
        /\ exists config_file declared_name,
            ExtJob_from_config_file config_file declared_name = Ok job.

End RegistryVocabulary.

Module Scenario7.
Import Demo.

(** Two job directories are declared; the second does not exist. *)
Definition missing_directory : ConfigDict :=
  config [("INSTALL_JOB", Rows [["echo"; "/jobs/echo_v2.job"]]);
          ("INSTALL_JOB_DIRECTORY", Paths ["/jobs"; "/nowhere"])].

(** A file system whose directories [/empty] and [/attic] hold no regular
    file: [/empty] holds nothing, [/attic] a subdirectory. *)
Definition bare_files : FileSystem :=
  {| getcwd := "/work";
     getpid := "4242";
     isdir := fun p => String.eqb p "/empty" || String.eqb p "/attic"
                       || String.eqb p "/attic/old";
     isfile := fun _ => false;
     listdir := fun p => if String.eqb p "/attic" then ["old"] else [];
     read_utf8 := fun _ => ReadOk |}.

Definition empty_directories : ConfigDict :=
  config [("INSTALL_JOB_DIRECTORY", Paths ["/empty"; "/attic"])].

End Scenario7.

(** The state [s'] is [s] with warnings added: no object is created or
    modified and nothing is logged. *)
Definition only_warns (s s' : state) : Prop :=
  store s' = store s
  /\ logs s' = logs s
  /\ exists messages, warnings s' = warnings s ++ messages.

Section WorkflowVocabulary.
Context `{PyBuiltins} `{FileSystem} `{Collaborators}.

(** The workflow a HOOK_WORKFLOW declaration binds to the stage [mode], if
    it names that stage. *)
Definition bound_workflow (workflows : Dict.t string Workflow) (mode : HookRuntime)
           (hook : list string) : option Workflow :=
  match hook with
  | [hook_name; mode_name] =>
      if decide (HookRuntime_attr mode_name = Some mode)
      then Dict.get hook_name workflows
      else None
  | _ => None
  end.

(** The name a LOAD_WORKFLOW declaration registers its workflow under. *)
Definition declared_workflow_name (path : string) (rest : list string) : string :=
  match rest with
  | [] => Path.basename path
  | filename :: _ => filename
  end.

End WorkflowVocabulary.

Module Scenario8.
Import Demo.

(** Three workflows are declared, one of them under a name of its own and
    one from a file that cannot be read; a workflow job directory does not
    exist; three declarations bind workflows to two stages. *)
Definition three_hooks : ConfigDict :=
  config
    [("LOAD_WORKFLOW_JOB", Rows [["/wfjobs/export_job"; "EXPORT"]]);
     ("WORKFLOW_JOB_DIRECTORY", Paths ["/nowhere"]);
     ("LOAD_WORKFLOW", Rows [["/workflows/export"];
                             ["/broken/plot"];
                             ["/workflows/cleanup"; "tidy"]]);
     ("HOOK_WORKFLOW", Rows [["tidy"; "POST_SIMULATION"];
                             ["export"; "PRE_SIMULATION"];
                             ["export"; "POST_SIMULATION"]])].

End Scenario8.

(** The state [s'] is [s] with log records added: no object is created or
    modified and no warning is emitted. *)
Definition only_logs (s s' : state) : Prop :=
  store s' = store s
  /\ warnings s' = warnings s
  /\ exists records, logs s' = logs s ++ records.

(** What the ["jobList"] entry [j] at position [idx] takes over from the
    job it describes: the limits and argument types as they are, one
    argument per argument of the job, and output files carrying the
    position as their suffix. *)
Definition describes (idx : nat) (job : ExtJob SubstitutionList) (j : job_json)
  : Prop :=
  json_max_running_minutes j = max_running_minutes job
  /\ json_max_running j = max_running job
  /\ json_min_arg j = min_arg job
  /\ json_max_arg j = max_arg job
  /\ json_arg_types j = arg_types job
  /\ length (json_argList j) = length (arglist job)
  /\ (forall out, json_stdout j = Some out ->
                  exists base, out = base +:+ "." +:+ str_of_nat idx)
  /\ (forall err, json_stderr j = Some err ->
                  exists base, err = base +:+ "." +:+ str_of_nat idx).

Module Scenario9.
Import Demo.

(** PATH is set twice; a data file and its ECLBASE are declared beside one
    run template. *)
Definition environment_and_templates : ConfigDict :=
  config
    [("SETENV", Rows [["PATH"; "/bin"]; ["LANG"; "C"]; ["PATH"; "/usr/bin"]]);
     ("DATA_FILE", Single "/work/CASE.DATA");
     ("ECLBASE", Single "CASE-%d");
     ("RUN_TEMPLATE", Rows [["params.tmpl"; "params.json"]])].

(** A MAX_RUNNING option that was given two values. *)
Definition two_limits : ConfigDict :=
  config
    [("QUEUE_OPTION", Rows [["LOCAL"; "MAX_RUNNING"; "4"];
                            ["LSF"; "MAX_RUNNING"; "10"; "20"];
                            ["LSF"; "MAX_RUNNING"; "many"]])].

End Scenario9.

Module Scenario10.
Import Demo.

(** The project of the other scenarios with its configuration file,
    [cases/demo.ert]: seven lines, among them comments, a quoted macro and
    declarations that are kept out of the log. *)
Definition project_files : FileSystem :=
  {| getcwd := "/work";
     getpid := "4242";
     isdir := fun p => String.eqb p "/jobs";
     isfile := fun p => String.eqb p "cases/demo.ert"
                        || String.eqb p "/jobs/echo.job"
                        || String.eqb p "/jobs/shout.job"
                        || String.eqb p "/jobs/echo_v2.job";
     listdir := fun p => if String.eqb p "/jobs"
                         then ["echo.job"; "shout.job"] else [];
     read_utf8 := fun _ => ReadOk |}.

Definition demo_lines : list string :=
  [ "-- a small case" +:+ newline;
    "NUM_REALIZATIONS 10  -- ensemble size" +:+ newline;
    "   JOBNAME job_%d   " +:+ newline;
    newline;
    "FORWARD_MODEL echo(<MSG>=hello)" +:+ newline;
    "DEFINE <MSG> 'a--b' -- quoted" +:+ newline;
    "RUNPATH_FILE out/../runs.txt -- LOAD_WORKFLOW is next" +:+ newline;
    "LOAD_WORKFLOW /workflows/export" ].

Definition source : ConfigSource :=
  {| read_user_config := fun file =>
       if String.eqb file "cases/demo.ert"
       then Ok Scenario6.with_parser_warnings
       else Raise (OSError ("No such file: " +:+ file));
     open_lines := fun file =>
       if String.eqb file "cases/demo.ert"
       then Ok demo_lines
       else Raise (OSError ("No such file: " +:+ file));
     py_str_dict := fun d =>
       "{" +:+ Str.join ", " (map fst (map_to_list d)) +:+ "}" |}.

End Scenario10.

(** The part of [s] before the first occurrence of [sep]. *)
Fixpoint text_before (sep s : string) {struct s} : string :=
  match s with
  | EmptyString => EmptyString
  | String c s' =>
      if Str.startswith sep s then EmptyString
      else String c (text_before sep s')
  end.

(** A line as [_log_config_file] lets it into the log: it is not empty and
    no comment, has no white space at either end, names none of the
    keywords kept out of the log, and holds [--] only beside a quote. *)
Definition clean_line (l : string) : Prop :=
  l <> EmptyString
  /\ Str.startswith "--" l = false
  /\ Forall (fun kw => Str.contains kw l = false) unlogged_keywords
  /\ (Str.contains "--" l = true ->
      Exists (fun quote => Str.contains quote l = true) quotes)
  /\ (forall c, Str.first l = Some c -> PyStr.isspace c = false)
  /\ (forall c, Str.last l = Some c -> PyStr.isspace c = false).

(** The lines [kept], each followed by a line feed. *)
Definition lines_text (kept : list string) : string :=
  fold_right (fun l text => l +:+ newline +:+ text) EmptyString kept.

(** The state [s'] holds the log of [s]: nothing was logged. *)
Definition same_logs (s s' : state) : Prop := logs s' = logs s.

(** The GEN_KW declarations of the identifier [kw_id]. *)
Definition declarations_of (kw_id : string) (gen_kw : list (list string))
  : list (list string) :=
  List.filter (fun arglist => match arglist with
                              | first :: _ => String.eqb first kw_id
                              | [] => false
                              end) gen_kw.

Module Scenario11.
Import Demo.

(** SIGMA is declared twice. *)
Definition sigma_twice : ConfigDict :=
  config
    [("GEN_KW", Rows [["PORO"; "poro.tmpl"; "poro.txt"; "poro.dist"];
                      ["SIGMA"; "sigma.tmpl"; "coarse.sigma"; "sigma.dist"];
                      ["SIGMA"; "sigma.tmpl"; "fine.sigma"; "sigma.dist";
                       "INIT_FILES:sigma_%d"]])].

End Scenario11.

(** Objects keep their kind from [s] to [s']: a reference to a job is still
    a reference to a job, a reference to a dictionary still one to a
    dictionary. *)
Definition same_kinds (s s' : state) : Prop :=
  forall l,
    (forall j, store s !! l = Some (OJob j) ->
               exists j', store s' !! l = Some (OJob j'))
    /\ (forall d, store s !! l = Some (OSubst d) ->
                  exists d', store s' !! l = Some (OSubst d')).

(** The reference [l] denotes a job object in the state [s]. *)
Definition live_job (s : state) (l : loc) : Prop :=
  exists j, store s !! l = Some (OJob j).

(** ** Vocabulary of the loading phases *)

(** How a phase inside a [try] block ends, as [from_dict] sees it: with a
    value, or with the errors of a [ConfigValidationError]; [run] is the
    phase applied to its state. *)
Definition outcome {A} (run : result A * state) (r : A + list ErrorInfo)
           (s' : state) : Prop :=
  match r with
  | inl a => run = (Ok a, s')
  | inr errors => run = (Raise (ConfigValidationError errors), s')
  end.

(** What such a phase adds to the collected errors. *)
Definition caught_errors {A} (r : A + list ErrorInfo) : list collected :=
  match r with
  | inl _ => []
  | inr errors => [Caught errors]
  end.

Section PhaseVocabulary.
Context `{PyBuiltins} `{FileSystem} `{Collaborators}.

(** The configuration [cfg] and the state [s'] are what the phases of
    [from_dict] produce from the dictionary in the state [s], each phase run
    on what the phases before it left, when every one of them completes
    without an error and without an exception. *)
Definition clean_load (config_dict : ConfigDict) (s : state) (cfg : ErtConfig)
           (s' : state) : Prop :=
  exists runpath ensemble model s1 s2 setenv ens_path_declared,
    get_single ConfigKeys.RUNPATH_FILE config_dict = Ok runpath
    /\ let sl0 := Dict.set "<RUNPATH_FILE>" (default DEFAULT_RUNPATH_FILE runpath)
                           (SubstitutionList_from_dict config_dict) in
       let config_dir := default "" (Dict.get "<CONFIG_PATH>" sl0) in
       let config_file := default "no_config" (Dict.get "<CONFIG_FILE>" sl0) in
       let sl := Dict.set "<ECLBASE>" (eclbase_format_string model)
                   (Dict.set "<ECL_BASE>" (eclbase_format_string model)
                      (Dict.set "<RUNPATH>" (runpath_format_string model) sl0)) in
       _validate_dict config_dict config_file = Ok []
       /\ _validate_queue_option_max_running config_file config_dict = Ok []
       /\ EnsembleConfig_from_dict config_dict = Ok ensemble
       /\ _validate_ensemble_config config_file config_dict = Ok []
       /\ ModelConfig_from_dict (refcase ensemble) config_dict = Ok model
       /\ _workflows_from_dict config_dict sl s
          = (Ok (workflow_jobs cfg, workflows cfg, hooked_workflows cfg), s1)
       /\ _installed_jobs_from_dict config_dict s1 = (Ok (installed_jobs cfg), s2)
       /\ get_rows "SETENV" config_dict = Ok setenv
       /\ fold_result (fun env_vars row =>
                         and_then (unpack2 row) (fun kv =>
                         Ok (Dict.set (fst kv) (snd kv) env_vars)))
                      setenv []
          = Ok (env_vars cfg)
       /\ get_single ConfigKeys.ENSPATH config_dict = Ok ens_path_declared
       /\ get_single ConfigKeys.RANDOM_SEED config_dict = Ok (random_seed cfg)
       /\ AnalysisConfig_from_dict config_dict = Ok (analysis_config cfg)
       /\ QueueConfig_from_dict config_dict = Ok (queue_config cfg)
       /\ _read_templates config_dict = Ok (ert_templates cfg)
       /\ read_forward_model (installed_jobs cfg) sl config_dict config_file s2
          = (Ok (forward_model_list cfg), s')
       /\ substitution_list cfg = sl
       /\ ensemble_config cfg = ensemble
       /\ model_config cfg = Some model
       /\ runpath_file cfg = default DEFAULT_RUNPATH_FILE runpath
       /\ ens_path cfg = default DEFAULT_ENSPATH ens_path_declared
       /\ user_config_file cfg = Path.join config_dir config_file
       /\ config_path cfg = __post_init__ (Path.join config_dir config_file)
       /\ warning_infos cfg = default [] (parser_warnings config_dict).

End PhaseVocabulary.

(** The record [_log_config_file] writes for a file with the lines
    [lines]. *)
Definition file_record (config_file : string) (lines : list string)
  : string * string :=
  ("INFO",
   "Content of the configuration file (" +:+ config_file +:+ "):" +:+ newline
   +:+ fold_left log_line lines "").

(** The record [_log_config_dict] writes for a dictionary. *)
Definition dict_record `{ConfigSource} (content_dict : ConfigDict)
  : string * string :=
  ("INFO",
   "Content of the config_dict: "
   +:+ py_str_dict
         (delete "WORKFLOW_JOB_DIRECTORY"
            (delete "HOOK_WORKFLOW"
               (delete "LOAD_WORKFLOW_JOB"
                  (delete "LOAD_WORKFLOW"
                     (delete "FORWARD_MODEL" (items content_dict))))))).

Module Scenario12.
Import Demo.

(** A workflow file that cannot be validated, declared beside a job that
    loads and is run once. *)
Definition broken_workflow : ConfigDict :=
  config
    [("INSTALL_JOB", Rows [["echo"; "/jobs/echo.job"]]);
     ("FORWARD_MODEL", Invocations [[Text "echo"]]);
     ("LOAD_WORKFLOW", Rows [["/broken/plot"]])].

(** A GEN_KW declaration that is in error, and a hook declaration with one
    element too many. *)
Definition collected_then_malformed : ConfigDict :=
  config
    [("GEN_KW", Rows [["SIGMA"; "sigma.tmpl"; "sigma.txt"; "sigma.dist";
                       "FORWARD_INIT:TRUE"]]);
     ("HOOK_WORKFLOW", Rows [["export"; "POST_SIMULATION"; "extra"]])].

(** Three phases in error at once: a GEN_KW declaration, a dangling hook
    and a job file that does not exist. *)
Definition three_phases_in_error : ConfigDict :=
  config
    [("GEN_KW", Rows [["SIGMA"; "sigma.tmpl"; "sigma.txt"; "sigma.dist";
                       "FORWARD_INIT:TRUE"]]);
     ("HOOK_WORKFLOW", Rows [["no_such_workflow"; "PRE_SIMULATION"]]);
     ("INSTALL_JOB", Rows [["echo"; "/jobs/missing.job"]])].

(** The job [ecko] is not installed. *)
Definition typo : ConfigDict :=
  config
    [("INSTALL_JOB", Rows [["echo"; "/jobs/echo.job"]]);
     ("FORWARD_MODEL", Invocations [[Text "ecko"]])].



End Scenario12.

(** * Properties *)

(** ** Sanity checks of the path functions *)

Example normpath_ex1 : Path.normpath "/a/b/../c/./d.txt" = "/a/c/d.txt".
Proof. reflexivity. Qed.
Example normpath_ex2 : Path.normpath "//a//b/" = "//a/b".
Proof. reflexivity. Qed.
Example normpath_ex3 : Path.normpath "../../x/.." = "../..".
Proof. reflexivity. Qed.
Example join_ex1 : Path.join "/cfg" "storage" = "/cfg/storage".
Proof. reflexivity. Qed.
Example join_ex2 : Path.join "/" "storage" = "/storage".
Proof. reflexivity. Qed.
Example split_ex1 : Path.split "/a/b/c.ert" = ("/a/b", "c.ert").
Proof. reflexivity. Qed.
Example split_ex2 : Path.split "c.ert" = ("", "c.ert").
Proof. reflexivity. Qed.
Example split_ex3 : Path.split "/c.ert" = ("/", "c.ert").
Proof. reflexivity. Qed.
Example replace_ex1 : Str.replace "%d" "<IENS>" "CASE%d_%d" = "CASE<IENS>_<IENS>".
Proof. reflexivity. Qed.


(** ** Paths and dictionaries *)

Lemma last_cons_some (c : ascii) (s : string) : is_Some (Str.last (String c s)).
Proof.
  revert c. induction s as [|c' s IH]; intros c; simpl; [eauto|].
  apply (IH c').
Qed.

(** Joining a relative name onto a directory written without a trailing
    slash puts exactly one slash between them. *)
Lemma join_plain (dir file : string) :
  dir <> "" -> Str.last dir <> Some "/"%char -> Str.startswith "/" file = false ->
  Path.join dir file = dir +:+ "/" +:+ file.
Proof.
  intros Hne Hlast Hrel. unfold Path.join. rewrite Hrel.
  destruct dir as [|c dir]; [done|].
  destruct (last_cons_some c dir) as [z Hz]. rewrite Hz in *.
  destruct (Ascii.eqb_spec z "/"%char) as [->|_]; [done|reflexivity].
Qed.

Lemma dict_get_set_eq {K V} `{EqDecision K} (k : K) (v : V) (d : Dict.t K V) :
  Dict.get k (Dict.set k v d) = Some v.
Proof.
  induction d as [|[k' v'] d IH]; simpl.
  - by rewrite bool_decide_eq_true_2.
  - destruct (bool_decide (k = k')) eqn:E; simpl; rewrite E; [done|apply IH].
Qed.

Lemma dict_get_set_ne {K V} `{EqDecision K} (k k0 : K) (v : V) (d : Dict.t K V) :
  k0 <> k -> Dict.get k0 (Dict.set k v d) = Dict.get k0 d.
Proof.
  intros Hne. induction d as [|[k' v'] d IH]; simpl.
  - by rewrite bool_decide_eq_false_2.
  - destruct (bool_decide (k = k')) eqn:E; simpl.
    + apply bool_decide_eq_true_1 in E. subst k'.
      by rewrite !(bool_decide_eq_false_2 (k0 = k)).
    + destruct (bool_decide (k0 = k')); [done|apply IH].
Qed.

(** ** Default injection *)

(** C6. For a dictionary whose RUNPATH_FILE entry, if any, is a single path,
    [apply_config_content_defaults] returns a dictionary in which a missing
    ENSPATH has become [join(config_dir, "storage")], a missing RUNPATH_FILE
    [join(config_dir, ".ert_runpath_list")], a relative RUNPATH_FILE the
    normalised join with the directory, while a declared ENSPATH, an absolute
    RUNPATH_FILE and every other keyword keep their value; for a directory
    written without trailing slash the two joins are
    [<config_dir>/storage] and [<config_dir>/.ert_runpath_list]. *)
Theorem apply_config_content_defaults_spec
        (content_dict : ConfigDict) (config_dir : string) :
  (items content_dict !! ConfigKeys.RUNPATH_FILE = None
   \/ exists p, items content_dict !! ConfigKeys.RUNPATH_FILE = Some (Single p)) ->
  exists d,
    apply_config_content_defaults content_dict config_dir = Ok d
    /\ (items content_dict !! ConfigKeys.ENSPATH = None ->
        items d !! ConfigKeys.ENSPATH
        = Some (Single (Path.join config_dir "storage")))
    /\ (is_Some (items content_dict !! ConfigKeys.ENSPATH) ->
        items d !! ConfigKeys.ENSPATH = items content_dict !! ConfigKeys.ENSPATH)
    /\ (items content_dict !! ConfigKeys.RUNPATH_FILE = None ->
        items d !! ConfigKeys.RUNPATH_FILE
        = Some (Single (Path.join config_dir ".ert_runpath_list")))
    /\ (forall p,
          items content_dict !! ConfigKeys.RUNPATH_FILE = Some (Single p) ->
          items d !! ConfigKeys.RUNPATH_FILE
          = Some (Single (if Path.isabs p then p
                          else Path.normpath (Path.join config_dir p))))
    /\ (forall k, k <> ConfigKeys.ENSPATH -> k <> ConfigKeys.RUNPATH_FILE ->
                  items d !! k = items content_dict !! k)
    /\ (config_dir <> "" -> Str.last config_dir <> Some "/"%char ->
        Path.join config_dir "storage" = config_dir +:+ "/storage"
        /\ Path.join config_dir ".ert_runpath_list"
           = config_dir +:+ "/.ert_runpath_list").
Proof.
  intros Hshape.
  assert (Hkeys : ConfigKeys.ENSPATH <> ConfigKeys.RUNPATH_FILE) by done.
  unfold apply_config_content_defaults, has_key.
  set (d1 := if negb (bool_decide (is_Some (items content_dict !! ConfigKeys.ENSPATH)))
             then set_single ConfigKeys.ENSPATH
                             (Path.join config_dir DEFAULT_ENSPATH) content_dict
             else content_dict).
  assert (Hrun : items d1 !! ConfigKeys.RUNPATH_FILE
                 = items content_dict !! ConfigKeys.RUNPATH_FILE).
  { unfold d1. destruct (negb _); [|done]. simpl. by rewrite lookup_insert_ne. }
  assert (Hens_none : items content_dict !! ConfigKeys.ENSPATH = None ->
                      items d1 !! ConfigKeys.ENSPATH
                      = Some (Single (Path.join config_dir "storage"))).
  { intros Hn. unfold d1. rewrite Hn.
    rewrite bool_decide_eq_false_2 by (intros [? ?]; done).
    simpl. by rewrite lookup_insert_eq. }
  assert (Hens_some : is_Some (items content_dict !! ConfigKeys.ENSPATH) ->
                      items d1 !! ConfigKeys.ENSPATH
                      = items content_dict !! ConfigKeys.ENSPATH).
  { intros Hs. unfold d1. by rewrite bool_decide_eq_true_2. }
  assert (Hother : forall k, k <> ConfigKeys.ENSPATH ->
                             items d1 !! k = items content_dict !! k).
  { intros k Hk. unfold d1. destruct (negb _); [|done].
    simpl. by rewrite lookup_insert_ne. }
  assert (Hjoin : config_dir <> "" -> Str.last config_dir <> Some "/"%char ->
                  Path.join config_dir "storage" = config_dir +:+ "/storage"
                  /\ Path.join config_dir ".ert_runpath_list"
                     = config_dir +:+ "/.ert_runpath_list").
  { intros Hne Hl. split; by apply join_plain. }
  clearbody d1. rewrite Hrun.
  destruct Hshape as [Hnone | [p Hp]].
  - rewrite Hnone. eexists. split; [reflexivity|]. simpl.
    repeat split.
    + intros Hn. rewrite lookup_insert_ne by done. by apply Hens_none.
    + intros Hs. rewrite lookup_insert_ne by done. by apply Hens_some.
    + intros _. by rewrite lookup_insert_eq.
    + intros q Hq. congruence.
    + intros k Hk1 Hk2. rewrite lookup_insert_ne by done. by apply Hother.
    + by apply Hjoin.
    + by apply Hjoin.
  - rewrite Hp. destruct (Path.isabs p) eqn:Habs; simpl.
    + eexists. split; [reflexivity|]. repeat split; auto.
      * intros Hn. congruence.
      * intros q Hq. rewrite Hrun, Hp. assert (q = p) by congruence. subst q.
        by rewrite Habs.
      * by apply Hjoin.
      * by apply Hjoin.
    + eexists. split; [reflexivity|]. simpl. repeat split.
      * intros Hn. rewrite lookup_insert_ne by done. by apply Hens_none.
      * intros Hs. rewrite lookup_insert_ne by done. by apply Hens_some.
      * intros Hn. congruence.
      * intros q Hq. assert (q = p) by congruence. subst q.
        rewrite Habs. by rewrite lookup_insert_eq.
      * intros k Hk1 Hk2. rewrite lookup_insert_ne by done. by apply Hother.
      * by apply Hjoin.
      * by apply Hjoin.
Qed.

Lemma apply_config_content_defaults_witness :
  exists d,
    apply_config_content_defaults
      (Demo.config [("RUNPATH_FILE", Single "output/../runpath_list")]) "/cfg" = Ok d
    /\ items d !! ConfigKeys.ENSPATH = Some (Single "/cfg/storage")
    /\ items d !! ConfigKeys.RUNPATH_FILE = Some (Single "/cfg/runpath_list").
Proof.
  destruct (apply_config_content_defaults_spec
              (Demo.config [("RUNPATH_FILE", Single "output/../runpath_list")]) "/cfg")
    as (d & Hd & Hens & _ & _ & Hrun & _).
  { right. eexists. reflexivity. }
  exists d. split; [exact Hd|]. split.
  - apply Hens. reflexivity.
  - rewrite (Hrun _ eq_refl). reflexivity.
Defined.

(** ** Validation of QUEUE_OPTION MAX_RUNNING *)

(** A loop that appends what a pure body returns for each element returns
    the concatenation. *)
Lemma fold_result_append {X E} (f : X -> result (list E)) (xs : list X)
      (per : list (list E)) (acc : list E) :
  Forall2 (fun x errs => f x = Ok errs) xs per ->
  fold_result (fun errors x => and_then (f x) (fun new => Ok (errors ++ new))) xs acc
  = Ok (acc ++ concat per).
Proof.
  intros HF. revert acc. induction HF as [|x errs xs per Hx _ IH]; intros acc; simpl.
  - by rewrite app_nil_r.
  - rewrite Hx. simpl. rewrite IH. by rewrite <- app_assoc.
Qed.

Section QueueOption.
Context `{PyBuiltins}.

Lemma max_running_errors_value (config_path queue value : string) :
    exists errs,
      max_running_errors config_path [queue; "MAX_RUNNING"; value] = Ok errs
      /\ length errs <= 1
      /\ (errs <> [] <-> offending value)
      /\ Forall (fun e => filename e = Some config_path
                          /\ context e = Some (ContextList [value])) errs.
  Proof.
    unfold max_running_errors, offending. simpl.
    destruct (py_int value) as [n|] eqn:Hint.
    - destruct (Z.ltb_spec n 0).
      + eexists. split; [reflexivity|]. split; [simpl; lia|]. split.
        * split; [intros _; right; eauto|done].
        * by repeat constructor.
      + eexists. split; [reflexivity|]. split; [simpl; lia|]. split.
        * split; [done|]. intros [?|(m & Hm & ?)]; [done|].
          assert (m = n) by congruence. lia.
        * constructor.
    - eexists. split; [reflexivity|]. split; [simpl; lia|]. split.
      + split; [intros _; by left|done].
      + by repeat constructor.
  Qed.

Lemma max_running_errors_shaped (config_path : string) (entry : list string) :
    length entry = 2 \/ length entry = 3 ->
    exists errs,
      max_running_errors config_path entry = Ok errs
      /\ length errs <= 1
      /\ (forall q v, entry = [q; "MAX_RUNNING"; v] -> (errs <> [] <-> offending v))
      /\ ((forall q v, entry <> [q; "MAX_RUNNING"; v]) -> errs = [])
      /\ Forall (fun e => filename e = Some config_path) errs.
  Proof.
    intros Hlen.
    destruct entry as [|q [|option_name [|v [|? ?]]]]; simpl in Hlen; try lia.
    - (* [queue, option]: int() is 0 *)
      exists []. unfold max_running_errors.
      split; [by destruct (String.eqb option_name "MAX_RUNNING")|].
      split; [simpl; lia|]. split; [intros ? ? ?; done|]. split; [done|constructor].
    - destruct (String.eqb_spec option_name "MAX_RUNNING") as [->|Hne].
      + destruct (max_running_errors_value config_path q v)
          as (errs & Herrs & Hlen' & Hiff & Hfile).
        exists errs. split; [exact Herrs|]. split; [exact Hlen'|]. split.
        * intros q' v' Heq. injection Heq as _ <-. exact Hiff.
        * split; [intros Hno; by destruct (Hno q v)|].
          eapply Forall_impl; [exact Hfile|]. by intros e [? _].
      + exists []. unfold max_running_errors.
        destruct (String.eqb_spec option_name "MAX_RUNNING") as [?|_]; [done|].
        split; [reflexivity|]. split; [simpl; lia|].
        split; [intros q' v' Heq; congruence|]. split; [done|constructor].
  Qed.

  (** C9. On QUEUE_OPTION entries of the shape [queue, option] or
      [queue, option, value], the validation returns a list: the
      concatenation, in order, of what each entry contributes; an entry
      [queue, MAX_RUNNING, value] contributes an error if and only if the
      value is no integer or a negative integer, every other entry
      contributes nothing. *)
Theorem validate_queue_option_max_running_spec
          (config_path : string) (config_dict : ConfigDict)
          (entries : list (list string)) :
    get_rows "QUEUE_OPTION" config_dict = Ok entries ->
    Forall (fun entry => length entry = 2 \/ length entry = 3) entries ->
    exists per_entry,
      _validate_queue_option_max_running config_path config_dict
      = Ok (concat per_entry)
      /\ Forall2
           (fun entry errs =>
              max_running_errors config_path entry = Ok errs
              /\ length errs <= 1
              /\ (forall q v, entry = [q; "MAX_RUNNING"; v] ->
                              (errs <> [] <-> offending v))
              /\ ((forall q v, entry <> [q; "MAX_RUNNING"; v]) -> errs = [])
              /\ Forall (fun e => filename e = Some config_path) errs)
           entries per_entry.
  Proof.
    intros Hrows Hshape.
    assert (Hper : exists per_entry,
               Forall2
                 (fun entry errs =>
                    max_running_errors config_path entry = Ok errs
                    /\ length errs <= 1
                    /\ (forall q v, entry = [q; "MAX_RUNNING"; v] ->
                                    (errs <> [] <-> offending v))
                    /\ ((forall q v, entry <> [q; "MAX_RUNNING"; v]) -> errs = [])
                    /\ Forall (fun e => filename e = Some config_path) errs)
                 entries per_entry).
    { clear Hrows. induction Hshape as [|entry entries Hentry _ [per IH]].
      - exists []. constructor.
      - destruct (max_running_errors_shaped config_path entry Hentry) as [errs Herrs].
        exists (errs :: per). by constructor. }
    destruct Hper as [per Hper]. exists per. split; [|exact Hper].
    unfold _validate_queue_option_max_running. rewrite Hrows. simpl.
    rewrite (fold_result_append (max_running_errors config_path) entries per []).
    - reflexivity.
    - eapply Forall2_impl; [exact Hper|]. by intros ? ? [? _].
  Qed.

End QueueOption.

Section QueueOptionWitness.
Import Demo.

Lemma validate_queue_option_max_running_witness :
  exists per_entry,
    _validate_queue_option_max_running "demo.ert"
      (Demo.config [("QUEUE_OPTION",
                     Rows [["LOCAL"; "MAX_RUNNING"; "-3"];
                           ["LSF"; "MAX_RUNNING"; "12"];
                           ["LSF"; "LSF_QUEUE"; "mr"];
                           ["TORQUE"; "MAX_RUNNING"; "many"];
                           ["LOCAL"; "MAX_RUNNING"]])])
    = Ok (concat per_entry)
    /\ length per_entry = 5.
Proof.
  destruct (validate_queue_option_max_running_spec "demo.ert"
              (Demo.config [("QUEUE_OPTION",
                             Rows [["LOCAL"; "MAX_RUNNING"; "-3"];
                                   ["LSF"; "MAX_RUNNING"; "12"];
                                   ["LSF"; "LSF_QUEUE"; "mr"];
                                   ["TORQUE"; "MAX_RUNNING"; "many"];
                                   ["LOCAL"; "MAX_RUNNING"]])])
              _ eq_refl) as (per & Hrun & Hper).
  { repeat constructor; simpl; lia. }
  exists per. split; [exact Hrun|].
  apply Forall2_length in Hper. simpl in Hper. lia.
Defined.

End QueueOptionWitness.


(** ** Equality ignores the warnings *)

Section EqualityProperties.
Context `{PyBuiltins} `{FileSystem} `{Collaborators}.

Lemma getattr_eq_with_warning_infos (h : heap) (attr : attribute)
        (w1 w2 : list WarningInfo) (a b : ErtConfig) :
    attr <> a_warning_infos ->
    getattr_eq h attr (with_warning_infos w1 a) (with_warning_infos w2 b)
    = getattr_eq h attr a b.
  Proof. intros Hne. by destruct attr. Qed.

Lemma eq_from_attributes (h : heap) (a b : ErtConfig) :
    (forall attr, attr <> a_warning_infos -> getattr_eq h attr a b = true) ->
    __eq__ h a (AnErtConfig b) = true.
  Proof.
    intros Hagree. unfold __eq__, vars.
    apply forallb_forall. intros attr _.
    destruct attr; try (rewrite Hagree by done; apply orb_true_r); reflexivity.
  Qed.

  (** C10. When two configurations agree on every attribute other than
      [warning_infos], [__eq__] returns [True], and keeps doing so whatever
      warning lists are put on either side; compared with something that is
      no [ErtConfig] it returns [False]. *)
Theorem eq_ignores_warning_infos (h : heap) (a b : ErtConfig) :
    (forall attr, attr <> a_warning_infos -> getattr_eq h attr a b = true) ->
    __eq__ h a (AnErtConfig b) = true
    /\ (forall w1 w2,
          __eq__ h (with_warning_infos w1 a) (AnErtConfig (with_warning_infos w2 b))
          = true)
    /\ (forall description, __eq__ h a (NotAnErtConfig description) = false).
  Proof.
    intros Hagree. split; [by apply eq_from_attributes|]. split; [|done].
    intros w1 w2. apply eq_from_attributes. intros attr Hne.
    rewrite getattr_eq_with_warning_infos by done. by apply Hagree.
  Qed.

End EqualityProperties.

Section EqualityWitness.
Import Demo.

Lemma eq_ignores_warning_infos_witness :
  __eq__ Scenario.echo_store Scenario.quiet (AnErtConfig Scenario.noisy) = true
  /\ warning_infos Scenario.quiet <> warning_infos Scenario.noisy.
Proof.
  split; [|discriminate].
  apply (eq_ignores_warning_infos Scenario.echo_store Scenario.quiet Scenario.noisy).
  intros attr Hne. destruct attr; try reflexivity. by destruct Hne.
Defined.

End EqualityWitness.

(** ** Environment filtering in the descriptor *)

Section EnvironmentFiltering.
Import Demo.

(** C7, evaluated.  Neither [<MSG>] nor [<TOOL>] is defined.  The value
    [<MSG>] is dropped with a warning, but the value [/opt/<TOOL>/bin], which
    still contains an unresolved macro, is passed through literally: only a
    value that begins with [<] and ends with [>] is filtered. *)
Theorem filter_env_dict_passes_embedded_macro :
  let job := job "echo" "/bin/echo" ["<MSG>"]
                 [("GREETING", Some "<MSG>"); ("TOOLS", Some "/opt/<TOOL>/bin")] in
  filter_env_dict [] 0 0 (Substituter_init [] 0 0 job) (environment job) initial
  = (Ok (Some [("TOOLS", Some "/opt/<TOOL>/bin")]),
     mkState [] []
             [("WARNING",
               "Environment variable GREETING skipped due to unmatched define <MSG>")]).
Proof. reflexivity. Qed.

Example filter_env_dict_all_dropped :
  fst (filter_env_dict [] 0 0 (Substituter_init [] 0 0 (job "echo" "/bin/echo" [] []))
                       [("GREETING", Some "<MSG>")] initial)
  = Ok None.
Proof. reflexivity. Qed.

Example filter_env_dict_empty_value :
  fst (filter_env_dict [] 0 0 (Substituter_init [] 0 0 (job "echo" "/bin/echo" [] []))
                       [("GREETING", Some "")] initial)
  = Raise (IndexError "string index out of range").
Proof. reflexivity. Qed.

End EnvironmentFiltering.

Section EnvironmentFilteringGeneral.
Context `{PyBuiltins} `{FileSystem} `{Collaborators}.

  (** Whatever the substitution engine, a substituted value is kept as soon
      as its first character is not [<] or its last is not [>]. *)
Lemma filter_env_item_keeps (context : SubstitutionList) (iens itr : Z)
        (self : Substituter) (result : Dict.t string (option string))
        (key value : string) (first last : ascii) (s : state) :
    let new_value := Substituter_substitute context iens itr self value in
    Str.first new_value = Some first ->
    Str.last new_value = Some last ->
    first <> "<"%char \/ last <> ">"%char ->
    filter_env_item context iens itr self result (key, Some value) s
    = (Ok (Dict.set (Substituter_substitute context iens itr self key)
                    (Some new_value) result), s).
  Proof.
    intros new_value Hfirst Hlast Hends. unfold filter_env_item. simpl.
    fold new_value. rewrite Hfirst, Hlast.
    destruct (Ascii.eqb_spec first "<"%char) as [->|_];
      destruct (Ascii.eqb_spec last ">"%char) as [->|_]; simpl; try reflexivity.
    by destruct Hends.
  Qed.

End EnvironmentFilteringGeneral.

(** ** The first gate of [from_dict] *)

Lemma concat_all_nil {A} (per : list (list A)) :
  Forall (fun l => l = []) per -> concat per = [].
Proof. induction 1 as [|l per -> _ IH]; simpl; [done|exact IH]. Qed.

Section FirstGate.
Context `{PyBuiltins} `{FileSystem} `{Collaborators}.

Lemma validate_dict_summary_without_eclbase (config_dict : ConfigDict)
        (config_file keyword : string) (row : list string)
        (rows : list (list string)) :
    items config_dict !! ConfigKeys.SUMMARY = Some (Rows ((keyword :: row) :: rows)) ->
    items config_dict !! ConfigKeys.ECLBASE = None ->
    _validate_dict config_dict config_file
    = Ok [ set_context_keyword keyword
             {| message := "When using SUMMARY keyword, the config must also specify ECLBASE";
                filename := Some config_file; context := None |} ].
  Proof.
    intros Hsummary Heclbase. unfold _validate_dict, has_key.
    rewrite Hsummary, Heclbase. reflexivity.
  Qed.

Lemma validate_queue_option_one_malformed (config_dict : ConfigDict)
        (config_file queue value : string) (before after : list (list string)) :
    items config_dict !! "QUEUE_OPTION"
    = Some (Rows (before ++ [queue; "MAX_RUNNING"; value] :: after)) ->
    py_int value = None ->
    Forall (fun entry => max_running_errors config_file entry = Ok []) (before ++ after) ->
    _validate_queue_option_max_running config_file config_dict
    = Ok [ set_context_list [value]
             {| message := "QUEUE_OPTION MAX_RUNNING is not an integer: " +:+ py_repr value;
                filename := Some config_file; context := None |} ].
  Proof.
    intros Hqueue Hint Hclean. apply Forall_app in Hclean as [Hbefore Hafter].
    unfold _validate_queue_option_max_running, get_rows. rewrite Hqueue. simpl.
    set (err := set_context_list [value] _).
    rewrite (fold_result_append (max_running_errors config_file) _
               (map (fun _ => []) before ++ [err] :: map (fun _ => []) after) []).
    - simpl. rewrite concat_app. simpl.
      rewrite !concat_all_nil; [reflexivity| |];
        apply Forall_forall; intros l Hl; apply list_elem_of_In in Hl;
        apply in_map_iff in Hl; by destruct Hl as (? & <- & _).
    - apply Forall2_app; [|constructor].
      + clear -Hbefore. induction Hbefore; simpl; by constructor.
      + unfold max_running_errors. simpl. by rewrite Hint.
      + clear -Hafter. induction Hafter; simpl; by constructor.
  Qed.

  (** C2. A dictionary with SUMMARY but no ECLBASE, and with exactly one
      QUEUE_OPTION entry in error, a MAX_RUNNING value that is no integer,
      makes [from_dict] raise a [ConfigValidationError] that carries exactly
      two errors: the SUMMARY one and the MAX_RUNNING one. *)
Theorem from_dict_collects_both_errors
          (config_dict : ConfigDict) (s : state) (runpath : option string)
          (keyword queue value : string) (row : list string)
          (rows before after : list (list string)) :
    get_single ConfigKeys.RUNPATH_FILE config_dict = Ok runpath ->
    items config_dict !! ConfigKeys.SUMMARY = Some (Rows ((keyword :: row) :: rows)) ->
    items config_dict !! ConfigKeys.ECLBASE = None ->
    items config_dict !! "QUEUE_OPTION"
    = Some (Rows (before ++ [queue; "MAX_RUNNING"; value] :: after)) ->
    py_int value = None ->
    Forall (fun entry => forall config_file,
                max_running_errors config_file entry = Ok []) (before ++ after) ->
    exists summary_error max_running_error,
      from_dict config_dict s
      = (Raise (ConfigValidationError [summary_error; max_running_error]), s)
      /\ message summary_error
         = "When using SUMMARY keyword, the config must also specify ECLBASE"
      /\ context summary_error = Some (ContextKeyword keyword)
      /\ message max_running_error
         = "QUEUE_OPTION MAX_RUNNING is not an integer: " +:+ py_repr value
      /\ context max_running_error = Some (ContextList [value]).
  Proof.
    intros Hrunpath Hsummary Heclbase Hqueue Hint Hclean.
    unfold from_dict. rewrite Hrunpath. unfold bind at 1. unfold lift at 1.
    cbv zeta.
    set (config_file := default "no_config" (Dict.get "<CONFIG_FILE>" _)).
    unfold bind at 1. unfold lift at 1.
    rewrite (validate_dict_summary_without_eclbase _ config_file _ _ _ Hsummary Heclbase).
    rewrite (validate_queue_option_one_malformed _ config_file _ _ _ _ Hqueue Hint).
    - do 2 eexists. split; [reflexivity|]. by repeat split.
    - eapply Forall_impl; [exact Hclean|]. intros entry Hentry. apply Hentry.
  Qed.

End FirstGate.

Section FirstGateWitness.
Import Demo.

Lemma from_dict_collects_both_errors_witness :
  exists summary_error max_running_error,
    from_dict (config [("SUMMARY", Rows [["SUMMARY"; "WOPR:*"]]);
                       ("QUEUE_OPTION", Rows [["LOCAL"; "MAX_RUNNING"; "12"];
                                              ["LSF"; "MAX_RUNNING"; "4x"];
                                              ["LSF"; "LSF_QUEUE"; "mr"]])])
              initial
    = (Raise (ConfigValidationError [summary_error; max_running_error]), initial)
    /\ message max_running_error
       = "QUEUE_OPTION MAX_RUNNING is not an integer: '4x'".
Proof.
  destruct (from_dict_collects_both_errors
              (config [("SUMMARY", Rows [["SUMMARY"; "WOPR:*"]]);
                       ("QUEUE_OPTION", Rows [["LOCAL"; "MAX_RUNNING"; "12"];
                                              ["LSF"; "MAX_RUNNING"; "4x"];
                                              ["LSF"; "LSF_QUEUE"; "mr"]])])
              initial None "SUMMARY" "LSF" "4x" ["WOPR:*"] []
              [["LOCAL"; "MAX_RUNNING"; "12"]] [["LSF"; "LSF_QUEUE"; "mr"]])
    as (e1 & e2 & Hraise & _ & _ & Hmsg & _);
    try reflexivity.
  { repeat constructor. }
  exists e1, e2. split; [exact Hraise|exact Hmsg].
Defined.

End FirstGateWitness.

(** ** Reasoning about the state-and-exception monad *)

Lemma bind_ok_inv {A B} (m : M A) (k : A -> M B) (s s' : state) (b : B) :
  bind m k s = (Ok b, s') ->
  exists a s1, m s = (Ok a, s1) /\ k a s1 = (Ok b, s').
Proof.
  unfold bind. destruct (m s) as [[a|e] s1]; [eauto|discriminate].
Qed.

Lemma lift_ok_inv {A} (r : result A) (s s' : state) (a : A) :
  lift r s = (Ok a, s') -> r = Ok a /\ s' = s.
Proof. unfold lift. intros [= -> ->]. done. Qed.

Lemma ret_ok_inv {A} (a b : A) (s s' : state) :
  ret a s = (Ok b, s') -> b = a /\ s' = s.
Proof. unfold ret. intros [= -> ->]. done. Qed.

Lemma try_config_ok_inv {A} (m : M A) (s s' : state) (r : A + list ErrorInfo) :
  try_config m s = (Ok r, s') ->
  match r with
  | inl a => m s = (Ok a, s')
  | inr errors => m s = (Raise (ConfigValidationError errors), s')
  end.
Proof.
  unfold try_config. destruct (m s) as [[a|[]] s1]; intros [= <- <-]; reflexivity.
Qed.

Lemma bind_lift_ok {A B} (a : A) (k : A -> M B) (s : state) :
  bind (lift (Ok a)) k s = k a s.
Proof. reflexivity. Qed.

Lemma bind_step {A B} (m : M A) (k : A -> M B) (s s1 : state) (a : A) :
  m s = (Ok a, s1) -> bind m k s = k a s1.
Proof. intros Hm. unfold bind. by rewrite Hm. Qed.

Lemma bind_raise {A B} (m : M A) (k : A -> M B) (s s1 : state) (e : exn) :
  m s = (Raise e, s1) -> bind m k s = (Raise e, s1).
Proof. intros Hm. unfold bind. by rewrite Hm. Qed.

Lemma for_each_step {X S} (body : S -> X -> M S) (x : X) (xs : list X)
      (acc acc' : S) (s s1 : state) :
  body acc x s = (Ok acc', s1) ->
  for_each body (x :: xs) acc s = for_each body xs acc' s1.
Proof. intros Hbody. simpl. by apply bind_step. Qed.

Lemma for_each_raise {X S} (body : S -> X -> M S) (x : X) (xs : list X)
      (acc : S) (s s1 : state) (e : exn) :
  body acc x s = (Raise e, s1) ->
  for_each body (x :: xs) acc s = (Raise e, s1).
Proof. intros Hbody. simpl. by apply bind_raise. Qed.

(** Splitting a successful bind in a hypothesis. *)
Ltac bind_inv H :=
  let a := fresh "a" in
  let s := fresh "s" in
  let Hm := fresh "Hm" in
  apply bind_ok_inv in H; destruct H as (a & s & Hm & H).

Ltac lift_inv H :=
  apply lift_ok_inv in H; destruct H as [H ?]; subst.

(** ** All or nothing *)

Section AllOrNothing.
Context `{PyBuiltins} `{FileSystem} `{Collaborators}.

  (** What a successful run of the three [try] blocks says about each of
      them. *)
Lemma load_phases_ok_inv (config_dict : ConfigDict) (config_file : string)
        (sl0 : SubstitutionList) (s s' : state)
        (ensemble : EnsembleConfig) (l : loaded) :
    load_phases config_dict config_file sl0 [] s = (Ok (ensemble, l), s') ->
    loaded_errors l = [] ->
    EnsembleConfig_from_dict config_dict = Ok ensemble
    /\ _validate_ensemble_config config_file config_dict = Ok []
    /\ exists model s1,
        ModelConfig_from_dict (refcase ensemble) config_dict = Ok model
        /\ loaded_model_config l = Some model
        /\ loaded_substitution_list l
           = Dict.set "<ECLBASE>" (eclbase_format_string model)
               (Dict.set "<ECL_BASE>" (eclbase_format_string model)
                  (Dict.set "<RUNPATH>" (runpath_format_string model) sl0))
        /\ _workflows_from_dict config_dict (loaded_substitution_list l) s
           = (Ok (loaded_workflow_jobs l, loaded_workflows l,
                  loaded_hooked_workflows l), s1)
        /\ _installed_jobs_from_dict config_dict s1
           = (Ok (loaded_installed_jobs l), s').
  Proof.
    intros Hrun Hclean. unfold load_phases in Hrun.
    bind_inv Hrun. lift_inv Hm.
    bind_inv Hrun. lift_inv Hm0.
    bind_inv Hrun. apply try_config_ok_inv in Hm1.
    destruct a1 as [model|e].
    - lift_inv Hm1.
      bind_inv Hrun. apply try_config_ok_inv in Hm2.
      destruct a1 as [[[wj wf] hk]|e].
      + bind_inv Hrun. apply try_config_ok_inv in Hm3.
        destruct a1 as [jobs|e].
        * apply ret_ok_inv in Hrun as [[= -> ->] ->]. simpl in *.
          subst a0.
          split; [done|]. split; [done|].
          exists model. eexists. repeat split; first [eassumption|reflexivity].
        * apply ret_ok_inv in Hrun as [[= -> ->] ->]. simpl in Hclean.
          by apply app_eq_nil in Hclean as [_ ?].
      + bind_inv Hrun. apply try_config_ok_inv in Hm3.
        destruct a1 as [jobs|e'];
          apply ret_ok_inv in Hrun as [[= -> ->] ->]; simpl in Hclean.
        * by apply app_eq_nil in Hclean as [_ ?].
        * by apply app_eq_nil in Hclean as [_ ?].
    - bind_inv Hrun. apply try_config_ok_inv in Hm2.
      destruct a1 as [[[wj wf] hk]|e'];
        bind_inv Hrun; apply try_config_ok_inv in Hm3;
        destruct a1 as [jobs|e''];
        apply ret_ok_inv in Hrun as [[= -> ->] ->]; simpl in Hclean;
        repeat (apply app_eq_nil in Hclean as [Hclean ?]); done.
  Qed.

  (** What a returned configuration says about every phase of [from_dict]. *)
Lemma from_dict_ok_inv (config_dict : ConfigDict) (s s' : state)
          (cfg : ErtConfig) :
    from_dict config_dict s = (Ok cfg, s') ->
    let sl0 := Dict.set "<RUNPATH_FILE>" (runpath_file cfg)
                        (SubstitutionList_from_dict config_dict) in
    let config_file := default "no_config" (Dict.get "<CONFIG_FILE>" sl0) in
    _validate_dict config_dict config_file = Ok []
    /\ _validate_queue_option_max_running config_file config_dict = Ok []
    /\ EnsembleConfig_from_dict config_dict = Ok (ensemble_config cfg)
    /\ _validate_ensemble_config config_file config_dict = Ok []
    /\ exists model s1 s2,
        ModelConfig_from_dict (refcase (ensemble_config cfg)) config_dict = Ok model
        /\ model_config cfg = Some model
        /\ substitution_list cfg
           = Dict.set "<ECLBASE>" (eclbase_format_string model)
               (Dict.set "<ECL_BASE>" (eclbase_format_string model)
                  (Dict.set "<RUNPATH>" (runpath_format_string model) sl0))
        /\ _workflows_from_dict config_dict (substitution_list cfg) s
           = (Ok (workflow_jobs cfg, workflows cfg, hooked_workflows cfg), s1)
        /\ _installed_jobs_from_dict config_dict s1 = (Ok (installed_jobs cfg), s2)
        /\ read_forward_model (installed_jobs cfg) (substitution_list cfg)
                              config_dict config_file s2
           = (Ok (forward_model_list cfg), s').
  Proof.
    intros Hrun. unfold from_dict in Hrun.
    bind_inv Hrun. lift_inv Hm.
    bind_inv Hrun. lift_inv Hm0.
    bind_inv Hrun. lift_inv Hm1.
    destruct (map Info (a0 ++ a1)) as [|e errors] eqn:Hgate; [|discriminate].
    apply map_eq_nil, app_eq_nil in Hgate as [-> ->].
    bind_inv Hrun. destruct a0 as [ensemble l].
    destruct (loaded_errors l) as [|e errors] eqn:Hclean; [|discriminate].
    apply load_phases_ok_inv in Hm2; [|exact Hclean].
    destruct Hm2 as (Hens & Hval & model & s1 & Hmodel & Hmc & Hsl & Hwf & Hjobs).
    repeat (let a := fresh "v" in
            let s := fresh "t" in
            let Hm := fresh "Hstep" in
            apply bind_ok_inv in Hrun; destruct Hrun as (a & s & Hm & Hrun);
            try (apply lift_ok_inv in Hm; destruct Hm as [Hm ->])).
    apply ret_ok_inv in Hrun as [-> ->]. simpl.
    repeat split; try assumption.
    exists model, s1. eexists. repeat split; try eassumption.
  Qed.

End AllOrNothing.

(** ** Hook bindings *)

Section Hooks.
Context `{PyBuiltins} `{FileSystem} `{Collaborators}.







End Hooks.

Section HooksWitness.
Import Demo.


Example dangling_hooks_messages :
  fst (_workflows_from_dict Scenario3.dangling_hooks [] initial)
  = Raise (ConfigValidationError
             [ {| message := "Cannot setup hook for non-existing job name 'no_such_workflow'";
                  filename := None;
                  context := Some (ContextToken "no_such_workflow") |};
               {| message := "Run mode 'NO_SUCH_STAGE' not supported for Hook Workflow";
                  filename := None; context := None |} ]).
Proof. reflexivity. Qed.

End HooksWitness.

(** ** The object store *)

Lemma with_private_args_twice {P Q R} (p : P) (q : Q) (j : ExtJob R) :
  with_private_args q (with_private_args p j) = with_private_args q j.
Proof. reflexivity. Qed.

Lemma with_private_args_same {P} (j : ExtJob P) :
  with_private_args (private_args j) j = j.
Proof. by destruct j. Qed.

Lemma allocate_job_spec (j : ExtJob SubstitutionList) (s : state) :
  allocate_job j s
  = (Ok (S (length (store s))),
     mkState (store s ++ [OSubst (private_args j);
                          OJob (with_private_args (length (store s)) j)])
             (warnings s) (logs s)).
Proof.
  unfold allocate_job, bind, alloc. simpl.
  rewrite length_app, <- app_assoc. simpl.
  by rewrite Nat.add_1_r.
Qed.

(** A job object laid out by [allocate_job] or [deepcopy] reads back as the
    job with its private arguments, whatever the store holds after it. *)
Lemma snapshot_allocated {P} (h rest : heap) (d : SubstitutionList)
      (j : ExtJob P) :
  snapshot (h ++ OSubst d :: OJob (with_private_args (length h) j) :: rest)
           (S (length h))
  = Some (with_private_args d j).
Proof.
  unfold snapshot.
  assert (Hjob : (h ++ OSubst d :: OJob (with_private_args (length h) j) :: rest)
                 !! S (length h) = Some (OJob (with_private_args (length h) j))).
  { rewrite lookup_app_r by lia. by replace (S (length h) - length h) with 1 by lia. }
  rewrite Hjob. simpl.
  rewrite lookup_app_r by lia. by rewrite Nat.sub_diag.
Qed.

Lemma read_job_at (s : state) (l : loc) (j : ExtJob loc) :
  store s !! l = Some (OJob j) -> read_job l s = (Ok j, s).
Proof. intros Hl. unfold read_job. by rewrite Hl. Qed.

Lemma read_subst_at (s : state) (l : loc) (d : SubstitutionList) :
  store s !! l = Some (OSubst d) -> read_subst l s = (Ok d, s).
Proof. intros Hl. unfold read_subst. by rewrite Hl. Qed.

(** ** Installing the same job twice *)

Section LastWins.
Context `{PyBuiltins} `{FileSystem} `{Collaborators}.

Lemma register_job_fresh (job_name source : string)
      (new_job : ExtJob SubstitutionList) (jobs : Dict.t string loc) (s : state) :
  Dict.get job_name jobs = None ->
  register_job job_name source new_job jobs s
  = (Ok (Dict.set job_name (S (length (store s))) jobs),
     mkState (store s ++ [OSubst (private_args new_job);
                          OJob (with_private_args (length (store s)) new_job)])
             (warnings s) (logs s)).
Proof.
  intros Hget. unfold register_job. rewrite Hget. unfold bind, ret.
  by rewrite allocate_job_spec.
Qed.

Lemma register_job_taken (job_name source : string)
      (new_job : ExtJob SubstitutionList) (jobs : Dict.t string loc) (s : state)
      (previous : loc) (old : ExtJob loc) :
  Dict.get job_name jobs = Some previous ->
  store s !! previous = Some (OJob old) ->
  register_job job_name source new_job jobs s
  = (Ok (Dict.set job_name (S (length (store s))) jobs),
     mkState (store s ++ [OSubst (private_args new_job);
                          OJob (with_private_args (length (store s)) new_job)])
             (warnings s ++
              ["Duplicate forward model job with name " +:+ py_repr job_name
               +:+ ", choosing " +:+ py_repr source
               +:+ " over " +:+ py_repr (executable old)])
             (logs s)).
Proof.
  intros Hget Hold. unfold register_job. rewrite Hget. unfold bind, ret.
  rewrite (read_job_at _ _ _ Hold). unfold warn.
  by rewrite allocate_job_spec.
Qed.

(** C5, as the code has it.  Two INSTALL_JOB declarations of the same name
    whose job files both load leave one registry entry, which denotes the
    second job (so its executable wins); the call succeeds and emits exactly
    one warning, which quotes the name, the path of the second job file and
    the executable of the first job. *)
Theorem duplicate_install_last_wins
        (config_dict : ConfigDict) (s : state) (job_name path1 path2 : string)
        (rest1 rest2 : list string) (job1 job2 : ExtJob SubstitutionList) :
  get_rows ConfigKeys.INSTALL_JOB config_dict
  = Ok [job_name :: path1 :: rest1; job_name :: path2 :: rest2] ->
  get_paths ConfigKeys.INSTALL_JOB_DIRECTORY config_dict = Ok [] ->
  ExtJob_from_config_file (abspath path1) (Some job_name) = Ok job1 ->
  ExtJob_from_config_file (abspath path2) (Some job_name) = Ok job2 ->
  exists l s',
    _installed_jobs_from_dict config_dict s = (Ok [(job_name, l)], s')
    /\ snapshot (store s') l = Some job2
    /\ warnings s'
       = warnings s ++
         ["Duplicate forward model job with name " +:+ py_repr job_name
          +:+ ", choosing " +:+ py_repr (abspath path2)
          +:+ " over " +:+ py_repr (executable job1)]
    /\ logs s' = logs s.
Proof.
  intros Hrows Hdirs Hjob1 Hjob2. destruct s as [h w lg].
  set (cells1 := [OSubst (private_args job1);
                  OJob (with_private_args (length h) job1)]).
  set (warning := "Duplicate forward model job with name " +:+ py_repr job_name
                  +:+ ", choosing " +:+ py_repr (abspath path2)
                  +:+ " over " +:+ py_repr (executable job1)).
  assert (Hfirst :
            install_job ([], []) (job_name :: path1 :: rest1) (mkState h w lg)
            = (Ok ([], [(job_name, S (length h))]), mkState (h ++ cells1) w lg)).
  { unfold install_job. rewrite Hjob1. unfold bind, ret.
    by rewrite register_job_fresh. }
  assert (Hsecond :
            install_job ([], [(job_name, S (length h))])
                        (job_name :: path2 :: rest2) (mkState (h ++ cells1) w lg)
            = (Ok ([], [(job_name, S (length (h ++ cells1)))]),
               mkState ((h ++ cells1)
                          ++ [OSubst (private_args job2);
                              OJob (with_private_args (length (h ++ cells1)) job2)])
                       (w ++ [warning]) lg)).
  { unfold install_job. rewrite Hjob2. unfold bind, ret.
    erewrite (register_job_taken _ _ _ _ _ (S (length h))
                                 (with_private_args (length h) job1)).
    - simpl. by rewrite bool_decide_eq_true_2.
    - simpl. by rewrite bool_decide_eq_true_2.
    - simpl. unfold cells1. rewrite lookup_app_r by lia.
      by replace (S (length h) - length h) with 1 by lia. }
  unfold _installed_jobs_from_dict. rewrite Hrows, Hdirs, !bind_lift_ok.
  erewrite bind_step; cycle 1.
  { erewrite for_each_step by exact Hfirst.
    erewrite for_each_step by exact Hsecond. reflexivity. }
  unfold bind, ret, lift.
  do 2 eexists. split; [reflexivity|]. cbn [store warnings logs]. split; [|done].
  rewrite snapshot_allocated. by rewrite with_private_args_same.
Qed.

End LastWins.

Section LastWinsWitness.
Import Demo.

Lemma duplicate_install_last_wins_witness :
  exists l s',
    _installed_jobs_from_dict Scenario4.installed_twice initial
    = (Ok [("echo", l)], s')
    /\ option_map executable (snapshot (store s') l) = Some "/usr/local/bin/echo"
    /\ warnings s'
       = ["Duplicate forward model job with name 'echo', choosing '/jobs/echo_v2.job' over '/bin/echo'"].
Proof.
  destruct (duplicate_install_last_wins (H1 := collaborators)
              Scenario4.installed_twice initial
              "echo" "/jobs/echo.job" "/jobs/echo_v2.job" [] []
              (job "echo" "/bin/echo" ["<MSG>"]
                   [("GREETING", Some "<MSG>"); ("TOOLS", Some "/opt/<TOOL>/bin")])
              (job "echo" "/usr/local/bin/echo" ["<MSG>"] []))
    as (l & s' & Hrun & Hsnap & Hwarn & _); try reflexivity.
  exists l, s'. split; [exact Hrun|]. split.
  - rewrite Hsnap. reflexivity.
  - rewrite Hwarn. reflexivity.
Defined.

(** C5, as the claim states it, fails: the one warning emitted quotes the
    new job file and the old executable; the old job file, [/jobs/echo.job],
    is not named in it. *)
Lemma duplicate_warning_omits_old_job_file :
  let outcome := _installed_jobs_from_dict Scenario4.installed_twice initial in
  warnings (snd outcome)
  = ["Duplicate forward model job with name 'echo', choosing '/jobs/echo_v2.job' over '/bin/echo'"]
  /\ ~ (exists warning,
          In warning (warnings (snd outcome))
          /\ Str.contains "/jobs/echo.job" warning = true
          /\ Str.contains "/jobs/echo_v2.job" warning = true).
Proof.
  split; [reflexivity|].
  intros (warning & Hin & Hold & _).
  assert (Hw : warnings (snd (_installed_jobs_from_dict Scenario4.installed_twice initial))
               = ["Duplicate forward model job with name 'echo', choosing '/jobs/echo_v2.job' over '/bin/echo'"])
    by reflexivity.
  rewrite Hw in Hin. destruct Hin as [<-|[]].
  vm_compute in Hold. discriminate.
Qed.

End LastWinsWitness.

(** ** Copies in the store *)

Lemma snapshot_inv (h : heap) (l : loc) (j : ExtJob SubstitutionList) :
  snapshot h l = Some j ->
  exists cell,
    h !! l = Some (OJob cell)
    /\ h !! private_args cell = Some (OSubst (private_args j))
    /\ j = with_private_args (private_args j) cell.
Proof.
  unfold snapshot. intros Hsnap.
  destruct (h !! l) as [[cell|]|] eqn:Hl; try discriminate.
  destruct (h !! private_args cell) as [[|d]|] eqn:Hp; try discriminate.
  injection Hsnap as <-. exists cell. by destruct cell.
Qed.

Lemma snapshot_intro (h : heap) (l : loc) (cell : ExtJob loc) (d : SubstitutionList) :
  h !! l = Some (OJob cell) ->
  h !! private_args cell = Some (OSubst d) ->
  snapshot h l = Some (with_private_args d cell).
Proof. intros Hl Hp. unfold snapshot. by rewrite Hl, Hp. Qed.

(** Objects are never freed nor moved: what a reference denotes is not
    affected by later allocations. *)
Lemma snapshot_extend (h ext : heap) (l : loc) (j : ExtJob SubstitutionList) :
  snapshot h l = Some j -> snapshot (h ++ ext) l = Some j.
Proof.
  intros (cell & Hl & Hp & ->)%snapshot_inv.
  apply snapshot_intro; by apply lookup_app_l_Some.
Qed.

Lemma footprint_extend (h ext : heap) (l : loc) :
  l < length h -> footprint (h ++ ext) l = footprint h l.
Proof. intros Hl. unfold footprint. by rewrite lookup_app_l. Qed.

Lemma footprint_job (h : heap) (l : loc) (cell : ExtJob loc) :
  h !! l = Some (OJob cell) -> footprint h l = [l; private_args cell].
Proof. intros Hl. unfold footprint. by rewrite Hl. Qed.

(** [copy.deepcopy] of a registered job lays out two fresh cells at the end
    of the store and touches nothing else. *)
Lemma deepcopy_spec (s : state) (l : loc) (registered : ExtJob SubstitutionList) :
  snapshot (store s) l = Some registered ->
  deepcopy l s
  = (Ok (S (length (store s))),
     mkState (store s ++ [OSubst (private_args registered);
                          OJob (with_private_args (length (store s)) registered)])
             (warnings s) (logs s)).
Proof.
  intros (cell & Hl & Hp & Hreg)%snapshot_inv.
  unfold deepcopy, bind.
  rewrite (read_job_at _ _ _ Hl), (read_subst_at _ _ _ Hp).
  unfold alloc. simpl. rewrite length_app, <- app_assoc. simpl.
  rewrite Nat.add_1_r. by rewrite Hreg.
Qed.

Section FillPrivateArgs.
Context `{PyBuiltins} `{Collaborators}.

Lemma setitem_spec (s : state) (p : loc) (d : SubstitutionList) (key val : string) :
  store s !! p = Some (OSubst d) ->
  setitem p key val s
  = (Ok tt, mkState (<[p := OSubst (Dict.set key val d)]> (store s))
                    (warnings s) (logs s)).
Proof. intros Hp. unfold setitem, bind. by rewrite (read_subst_at _ _ _ Hp). Qed.

(** Well-formed pairs are all loaded into the dictionary object [p], in
    order, and nothing else in the store changes. *)
Lemma fill_pairs_spec (p : loc) (pairs : list (list string)) :
  forall (s : state) (d d' : SubstitutionList),
    store s !! p = Some (OSubst d) ->
    load_pairs pairs d = Some d' ->
    fill_private_args p (Pairs pairs) s
    = (Ok None, mkState (<[p := OSubst d']> (store s)) (warnings s) (logs s)).
Proof.
  unfold fill_private_args.
  induction pairs as [|pair pairs IH]; intros s d d' Hp Hload.
  - injection Hload as <-. simpl. unfold ret.
    rewrite list_insert_id by done. by destruct s.
  - destruct pair as [|key [|val [|? ?]]]; try discriminate Hload.
    simpl in Hload.
    erewrite for_each_step; cycle 1.
    { simpl. unfold bind, ret. by rewrite (setitem_spec _ _ _ _ _ Hp). }
    erewrite IH; [|simpl; apply list_lookup_insert_eq; by eapply lookup_lt_Some|exact Hload].
    simpl. by rewrite list_insert_insert_eq.
Qed.

(** The same for the argument string of the old parser, when it parses. *)
Lemma fill_text_spec (p : loc) (text : string) (s : state) (d' : SubstitutionList) :
  store s !! p = Some (OSubst []) ->
  add_from_string [] text = Ok d' ->
  fill_private_args p (Text text) s
  = (Ok None, mkState (<[p := OSubst d']> (store s)) (warnings s) (logs s)).
Proof.
  intros Hp Hparse. unfold fill_private_args, bind.
  rewrite (read_subst_at _ _ _ Hp), Hparse. reflexivity.
Qed.

Lemma fill_private_args_spec (p : loc) (args : fm_item) (s : state)
      (scope : SubstitutionList) :
  store s !! p = Some (OSubst []) ->
  parsed_args args = Some scope ->
  fill_private_args p args s
  = (Ok None, mkState (<[p := OSubst scope]> (store s)) (warnings s) (logs s)).
Proof.
  intros Hp Hparsed. destruct args as [text|pairs].
  - apply fill_text_spec; [done|]. unfold parsed_args in Hparsed.
    destruct (add_from_string [] text); congruence.
  - by eapply fill_pairs_spec.
Qed.

End FillPrivateArgs.

(** ** One invocation *)

Lemma layout_three (h : heap) (c1 c2 c3 a b : obj) :
  <[length h + 2 := b]> (<[S (length h) := a]> ((h ++ [c1; c2]) ++ [c3]))
  = h ++ [c1; a; b].
Proof.
  rewrite <- app_assoc. simpl.
  rewrite !insert_app_r_alt by lia.
  replace (S (length h) - length h) with 1 by lia.
  replace (length h + 2 - length h) with 2 by lia.
  reflexivity.
Qed.

Lemma layout_two (h : heap) (c1 c2 a : obj) :
  <[S (length h) := a]> (h ++ [c1; c2]) = h ++ [c1; a].
Proof.
  rewrite insert_app_r_alt by lia.
  by replace (S (length h) - length h) with 1 by lia.
Qed.

Lemma fresh_job_two (h : heap) (d : SubstitutionList) (j : ExtJob SubstitutionList) :
  fresh_job h [OSubst d; OJob (with_private_args (length h) j)]
            (with_private_args d j).
Proof.
  unfold fresh_job. split; [apply (snapshot_allocated h [] d j)|].
  assert (Hl : (h ++ [OSubst d; OJob (with_private_args (length h) j)])
               !! S (length h) = Some (OJob (with_private_args (length h) j))).
  { rewrite lookup_app_r by lia. by replace (S (length h) - length h) with 1 by lia. }
  rewrite (footprint_job _ _ _ Hl). rewrite length_app. simpl. split.
  - repeat constructor; lia.
  - repeat constructor; set_solver by lia.
Qed.

Lemma fresh_job_three (h : heap) (d scope : SubstitutionList)
      (j : ExtJob SubstitutionList) :
  fresh_job h [OSubst d; OJob (with_private_args (length h + 2) j); OSubst scope]
            (with_private_args scope j).
Proof.
  unfold fresh_job.
  assert (Hl : (h ++ [OSubst d; OJob (with_private_args (length h + 2) j); OSubst scope])
               !! S (length h) = Some (OJob (with_private_args (length h + 2) j))).
  { rewrite lookup_app_r by lia. by replace (S (length h) - length h) with 1 by lia. }
  assert (Hp : (h ++ [OSubst d; OJob (with_private_args (length h + 2) j); OSubst scope])
               !! (length h + 2) = Some (OSubst scope)).
  { rewrite lookup_app_r by lia. by replace (length h + 2 - length h) with 2 by lia. }
  split.
  - by rewrite (snapshot_intro _ _ _ _ Hl Hp).
  - rewrite (footprint_job _ _ _ Hl). rewrite length_app. simpl. split.
    + repeat constructor; lia.
    + repeat constructor; set_solver by lia.
Qed.

Section OneInvocation.
Context `{PyBuiltins} `{Collaborators}.

(** A FORWARD_MODEL entry naming a job that is not installed: one error,
    which lists the installed names; nothing else changes. *)
Lemma resolve_forward_model_missing
      (installed_jobs : Dict.t string loc) (sl : SubstitutionList)
      (config_file : string) (errors : list collected) (jobs : list loc)
      (entry : list fm_item) (inv : invocation) (s : state) :
  templated_of sl entry = Some inv ->
  Dict.get (invoked_name inv) installed_jobs = None ->
  resolve_forward_model installed_jobs sl config_file (errors, jobs) entry s
  = (Ok (errors ++ [missing_error installed_jobs config_file inv], jobs), s).
Proof.
  intros Hinv Hget. unfold resolve_forward_model.
  destruct entry as [|[job_name|] [|args [|? ?]]]; try discriminate Hinv;
    injection Hinv as <-; simpl in Hget; simpl;
    rewrite bind_lift_ok; by rewrite Hget.
Qed.

(** A FORWARD_MODEL entry naming an installed job, with well-formed
    arguments: the job is appended, as a fresh copy carrying the expected
    private scope; the cells already in the store are untouched. *)
Lemma resolve_forward_model_known
      (installed_jobs : Dict.t string loc) (sl : SubstitutionList)
      (config_file : string) (errors : list collected) (jobs : list loc)
      (entry : list fm_item) (inv : invocation) (s : state)
      (l : loc) (registered job : ExtJob SubstitutionList) :
  templated_of sl entry = Some inv ->
  Dict.get (invoked_name inv) installed_jobs = Some l ->
  snapshot (store s) l = Some registered ->
  expected_job registered inv = Some job ->
  exists cells,
    resolve_forward_model installed_jobs sl config_file (errors, jobs) entry s
    = (Ok (errors, jobs ++ [S (length (store s))]),
       mkState (store s ++ cells) (warnings s) (logs s))
    /\ fresh_job (store s) cells job.
Proof.
  intros Hinv Hget Hsnap Hexpected. destruct s as [h w lg].
  assert (Hgoal : forall job_name args,
             inv = Templated (substitute sl job_name) args ->
             exists cells,
               (let* job := deepcopy l in
                if truthy args then
                  let* p := alloc (OSubst []) in
                  let* j := read_job job in
                  let* _ := write job (OJob (with_private_args p j)) in
                  let* failed := fill_private_args p args in
                  match failed with
                  | Some err =>
                      ret (errors ++
                           [ Caught [ {| message :=
                                           err +:+ ": 'FORWARD_MODEL "
                                           +:+ substitute sl job_name
                                           +:+ "(" +:+ str_of_args args +:+ ")'";
                                         filename := Some config_file;
                                         context := None |} ] ],
                           jobs)
                  | None => ret (errors, jobs ++ [job])
                  end
                else ret (errors, jobs ++ [job])) (mkState h w lg)
               = (Ok (errors, jobs ++ [S (length h)]), mkState (h ++ cells) w lg)
               /\ fresh_job h cells job).
  { intros job_name args ->. simpl in Hexpected, Hget.
    rewrite (bind_step _ _ _ _ _ (deepcopy_spec _ _ _ Hsnap)). simpl store.
    destruct (truthy args) eqn:Htruthy.
    - destruct (parsed_args args) as [scope|] eqn:Hparsed; [|discriminate].
      injection Hexpected as <-.
      unfold bind at 1. unfold alloc at 1. simpl store. cbn [warnings logs].
      erewrite bind_step; cycle 1.
      { apply read_job_at. simpl. rewrite <- app_assoc. simpl.
        rewrite lookup_app_r by lia.
        by replace (S (length h) - length h) with 1 by lia. }
      unfold bind at 1. unfold write at 1. simpl store. cbn [warnings logs].
      erewrite bind_step; cycle 1.
      { apply fill_private_args_spec; [|exact Hparsed]. simpl.
        rewrite list_lookup_insert_ne
          by (rewrite length_app; simpl; lia).
        rewrite lookup_app_r by lia. by rewrite Nat.sub_diag. }
      simpl store. cbn [warnings logs]. unfold ret.
      exists [OSubst (private_args registered);
              OJob (with_private_args (length h + 2) registered);
              OSubst scope].
      split; [|apply fresh_job_three].
      rewrite !length_app. simpl length.
      rewrite with_private_args_twice.
      by rewrite layout_three.
    - injection Hexpected as <-. unfold ret.
      exists [OSubst (private_args registered);
              OJob (with_private_args (length h) registered)].
      split; [reflexivity|].
      rewrite <- (with_private_args_same registered) at 3.
      apply fresh_job_two. }
  unfold resolve_forward_model.
  destruct entry as [|[job_name|] [|args [|? ?]]]; try discriminate Hinv;
    injection Hinv as Hinv; symmetry in Hinv;
    destruct (Hgoal _ _ Hinv) as (cells & Hrun & Hfresh);
    subst inv; simpl in Hget; simpl; rewrite bind_lift_ok; rewrite Hget;
    exists cells; (split; [exact Hrun|exact Hfresh]).
Qed.

(** A SIMULATION_JOB entry naming a job that is not installed: one error,
    which names the job only. *)
Lemma resolve_simulation_job_missing
      (installed_jobs : Dict.t string loc) (config_file : string)
      (errors : list collected) (jobs : list loc)
      (job_description : list string) (inv : invocation) (s : state) :
  direct_of job_description = Some inv ->
  Dict.get (invoked_name inv) installed_jobs = None ->
  resolve_simulation_job installed_jobs config_file (errors, jobs) job_description s
  = (Ok (errors ++ [missing_error installed_jobs config_file inv], jobs), s).
Proof.
  intros Hinv Hget. unfold resolve_simulation_job.
  destruct job_description as [|job_name arguments]; [discriminate|].
  injection Hinv as <-. simpl in Hget. by rewrite Hget.
Qed.

(** A SIMULATION_JOB entry naming an installed job: the job is appended, as
    a fresh copy carrying the positional arguments. *)
Lemma resolve_simulation_job_known
      (installed_jobs : Dict.t string loc) (config_file : string)
      (errors : list collected) (jobs : list loc)
      (job_description : list string) (inv : invocation) (s : state)
      (l : loc) (registered job : ExtJob SubstitutionList) :
  direct_of job_description = Some inv ->
  Dict.get (invoked_name inv) installed_jobs = Some l ->
  snapshot (store s) l = Some registered ->
  expected_job registered inv = Some job ->
  exists cells,
    resolve_simulation_job installed_jobs config_file (errors, jobs) job_description s
    = (Ok (errors, jobs ++ [S (length (store s))]),
       mkState (store s ++ cells) (warnings s) (logs s))
    /\ fresh_job (store s) cells job.
Proof.
  intros Hinv Hget Hsnap Hexpected. destruct s as [h w lg].
  unfold resolve_simulation_job.
  destruct job_description as [|job_name arguments]; [discriminate|].
  injection Hinv as <-. simpl in Hget, Hexpected. injection Hexpected as <-.
  rewrite Hget.
  rewrite (bind_step _ _ _ _ _ (deepcopy_spec _ _ _ Hsnap)). simpl store.
  erewrite bind_step; cycle 1.
  { apply read_job_at. simpl. rewrite lookup_app_r by lia.
    by replace (S (length h) - length h) with 1 by lia. }
  unfold bind, write, ret. simpl store. cbn [warnings logs].
  exists [OSubst (private_args registered);
          OJob (with_private_args (length h) (with_arglist arguments registered))].
  split.
  - by rewrite layout_two.
  - replace (with_arglist arguments registered)
      with (with_private_args (private_args registered)
                              (with_arglist arguments registered)) at 2
      by (by destruct registered).
    apply (fresh_job_two h (private_args registered)
                         (with_arglist arguments registered)).
Qed.

End OneInvocation.

(** ** The loops of the resolver *)

Lemma footprint_self (h : heap) (l : loc) : l ∈ footprint h l.
Proof. unfold footprint. destruct (h !! l) as [[?|?]|]; set_solver. Qed.

Lemma flat_map_footprint_extend (h ext : heap) (jobs : list loc) :
  Forall (fun x => x < length h) (flat_map (footprint h) jobs) ->
  flat_map (footprint (h ++ ext)) jobs = flat_map (footprint h) jobs.
Proof.
  induction jobs as [|l jobs IH]; simpl; [done|].
  intros [Hl Hjobs]%Forall_app. rewrite IH by done.
  rewrite footprint_extend; [done|].
  rewrite Forall_forall in Hl. apply Hl, footprint_self.
Qed.

(** Appending a freshly laid out job keeps the jobs apart. *)
Lemma placed_snoc (h0 ext cells : heap) (jobs : list loc)
      (job : ExtJob SubstitutionList) :
  placed h0 (h0 ++ ext) jobs ->
  fresh_job (h0 ++ ext) cells job ->
  placed h0 ((h0 ++ ext) ++ cells) (jobs ++ [S (length (h0 ++ ext))]).
Proof.
  intros [Hbound Hnodup] (_ & Hfresh & Hnew). unfold placed.
  rewrite flat_map_app. simpl. rewrite app_nil_r.
  rewrite flat_map_footprint_extend
    by (eapply Forall_impl; [exact Hbound|]; simpl; intros; lia).
  split.
  - apply Forall_app. split.
    + eapply Forall_impl; [exact Hbound|]. simpl. intros x Hx.
      rewrite length_app. lia.
    + eapply Forall_impl; [exact Hfresh|]. simpl. intros x Hx.
      rewrite length_app in Hx. lia.
  - apply NoDup_app. split; [exact Hnodup|]. split; [|exact Hnew].
    intros x Hold Hin.
    rewrite Forall_forall in Hbound, Hfresh.
    specialize (Hbound x Hold). specialize (Hfresh x Hin). simpl in *. lia.
Qed.

Section Loop.
Context `{PyBuiltins} `{Collaborators}.
Context {X : Type}.
Variable step : fm_state -> X -> M fm_state.
Variable parse : X -> option invocation.
Variable installed_jobs : Dict.t string loc.
Variable config_file : string.

Hypothesis step_missing :
  forall errors jobs x inv s,
    parse x = Some inv ->
    Dict.get (invoked_name inv) installed_jobs = None ->
    step (errors, jobs) x s
    = (Ok (errors ++ [missing_error installed_jobs config_file inv], jobs), s).

Hypothesis step_known :
  forall errors jobs x inv s l registered job,
    parse x = Some inv ->
    Dict.get (invoked_name inv) installed_jobs = Some l ->
    snapshot (store s) l = Some registered ->
    expected_job registered inv = Some job ->
    exists cells,
      step (errors, jobs) x s
      = (Ok (errors, jobs ++ [S (length (store s))]),
         mkState (store s ++ cells) (warnings s) (logs s))
      /\ fresh_job (store s) cells job.

(** One loop of the resolver over the entries [xs], which ask for the
    invocations [invs]: the errors of the invocations of missing jobs are
    appended in order, one job is appended for every other invocation, each
    a fresh object denoting what the invocation resolves to, and the store
    is only extended. *)
Lemma loop_spec (h0 : heap) (xs : list X) (invs : list invocation) :
  Forall2 (fun x inv => parse x = Some inv) xs invs ->
  (forall inv, In inv invs -> installed installed_jobs inv = true ->
               exists job, resolvable installed_jobs h0 inv job) ->
  forall (errors : list collected) (jobs : list loc)
         (resolved : list (ExtJob SubstitutionList)) (ext : heap) (w : list string)
         (lg : list (string * string)),
    Forall2 (fun l job => snapshot (h0 ++ ext) l = Some job) jobs resolved ->
    placed h0 (h0 ++ ext) jobs ->
    exists new_jobs new_resolved ext',
      for_each step xs (errors, jobs) (mkState (h0 ++ ext) w lg)
      = (Ok (errors ++ map (missing_error installed_jobs config_file)
                           (List.filter (fun inv => negb (installed installed_jobs inv))
                                        invs),
             jobs ++ new_jobs),
         mkState (h0 ++ ext') w lg)
      /\ Forall2 (fun l job => snapshot (h0 ++ ext') l = Some job)
                 (jobs ++ new_jobs) (resolved ++ new_resolved)
      /\ placed h0 (h0 ++ ext') (jobs ++ new_jobs)
      /\ Forall2 (resolvable installed_jobs h0)
                 (List.filter (installed installed_jobs) invs) new_resolved.
Proof.
  induction 1 as [|x inv xs invs Hparse _ IH];
    intros Hres errors jobs resolved ext w lg Hsnap Hplaced.
  - exists [], [], ext. simpl. rewrite !app_nil_r. unfold ret.
    split; [reflexivity|]. split; [exact Hsnap|]. split; [exact Hplaced|constructor].
  - simpl List.filter.
    destruct (Dict.get (invoked_name inv) installed_jobs) as [l|] eqn:Hget.
    + assert (Hinst : installed installed_jobs inv = true)
        by (unfold installed, Dict.mem; by rewrite Hget).
      rewrite Hinst. simpl negb. cbv iota.
      destruct (Hres inv) as (job & l' & registered & Hget' & Hreg & Hexp);
        [by left|exact Hinst|].
      assert (l' = l) by congruence. subst l'.
      destruct (step_known errors jobs x inv (mkState (h0 ++ ext) w lg)
                           l registered job Hparse Hget
                           (snapshot_extend _ _ _ _ Hreg) Hexp)
        as (cells & Hstep & Hfresh).
      simpl in Hstep, Hfresh.
      rewrite (for_each_step _ _ _ _ _ _ _ Hstep).
      rewrite <- app_assoc.
      destruct (IH (fun inv' Hin => Hres inv' (or_intror Hin))
                   errors (jobs ++ [S (length (h0 ++ ext))]) (resolved ++ [job])
                   (ext ++ cells) w lg)
        as (new_jobs & new_resolved & ext' & Hloop & Hsnap' & Hplaced' & Hres').
      { apply Forall2_app.
        - eapply Forall2_impl; [exact Hsnap|]. intros l0 j0 Hl0.
          rewrite app_assoc. by apply snapshot_extend.
        - constructor; [|constructor]. rewrite app_assoc. apply Hfresh. }
      { rewrite app_assoc. by eapply placed_snoc. }
      exists (S (length (h0 ++ ext)) :: new_jobs), (job :: new_resolved), ext'.
      rewrite <- (app_assoc jobs) in Hsnap', Hplaced', Hloop.
      rewrite <- (app_assoc resolved) in Hsnap'.
      simpl in Hsnap', Hplaced', Hloop.
      split; [exact Hloop|]. split; [exact Hsnap'|]. split; [exact Hplaced'|].
      constructor; [|exact Hres']. by exists l, registered.
    + assert (Hinst : installed installed_jobs inv = false)
        by (unfold installed, Dict.mem; by rewrite Hget).
      rewrite Hinst. simpl negb. cbv iota.
      rewrite (for_each_step _ _ _ _ _ _ _
                 (step_missing errors jobs x inv _ Hparse Hget)).
      destruct (IH (fun inv' Hin => Hres inv' (or_intror Hin))
                   (errors ++ [missing_error installed_jobs config_file inv])
                   jobs resolved ext w lg Hsnap Hplaced)
        as (new_jobs & new_resolved & ext' & Hloop & Hsnap' & Hplaced' & Hres').
      exists new_jobs, new_resolved, ext'. simpl map.
      rewrite <- app_assoc in Hloop. simpl in Hloop.
      split; [exact Hloop|]. split; [exact Hsnap'|]. split; [exact Hplaced'|exact Hres'].
Qed.

End Loop.

(** ** The resolver as a whole *)

Section Resolver.
Context `{PyBuiltins} `{Collaborators}.

(** Both loops of [read_forward_model], run on well-shaped entries whose
    installed jobs are resolvable: the errors are those of the invocations
    of missing jobs, FORWARD_MODEL first, in declaration order; the jobs are
    fresh objects, one per other invocation, in declaration order; the store
    is only extended and nothing is warned or logged. *)
Lemma resolve_all_spec
      (installed_jobs : Dict.t string loc) (sl : SubstitutionList)
      (config_dict : ConfigDict) (config_file : string) (s : state)
      (entries : list (list fm_item)) (rows : list (list string))
      (templated direct : list invocation) :
  get_invocations ConfigKeys.FORWARD_MODEL config_dict = Ok entries ->
  get_rows ConfigKeys.SIMULATION_JOB config_dict = Ok rows ->
  Forall2 (fun entry inv => templated_of sl entry = Some inv) entries templated ->
  Forall2 (fun row inv => direct_of row = Some inv) rows direct ->
  (forall inv, In inv (templated ++ direct) ->
               installed installed_jobs inv = true ->
               exists job, resolvable installed_jobs (store s) inv job) ->
  exists jobs resolved ext,
    resolve_all installed_jobs sl config_dict config_file s
    = (Ok (map (missing_error installed_jobs config_file)
               (List.filter (fun inv => negb (installed installed_jobs inv))
                            (templated ++ direct)),
           jobs),
       mkState (store s ++ ext) (warnings s) (logs s))
    /\ Forall2 (fun l job => snapshot (store s ++ ext) l = Some job) jobs resolved
    /\ Forall2 (resolvable installed_jobs (store s))
               (List.filter (installed installed_jobs) (templated ++ direct))
               resolved
    /\ placed (store s) (store s ++ ext) jobs.
Proof.
  intros Hentries Hrows Htemplated Hdirect Hres. destruct s as [h w lg].
  simpl in Hres |- *.
  destruct (loop_spec (resolve_forward_model installed_jobs sl config_file)
                      (templated_of sl) installed_jobs config_file
                      (fun errors jobs x inv s Hp Hg =>
                         resolve_forward_model_missing
                           installed_jobs sl config_file errors jobs x inv s Hp Hg)
                      (fun errors jobs x inv s l registered job Hp Hg Hs He =>
                         resolve_forward_model_known
                           installed_jobs sl config_file errors jobs x inv s
                           l registered job Hp Hg Hs He)
                      h entries templated Htemplated
                      (fun inv Hin => Hres inv (in_or_app _ _ _ (or_introl Hin)))
                      [] [] [] [] w lg)
    as (jobs1 & resolved1 & ext1 & Hloop1 & Hsnap1 & Hplaced1 & Hres1).
  { constructor. }
  { split; [constructor|apply NoDup_nil_2]. }
  destruct (loop_spec (resolve_simulation_job installed_jobs config_file)
                      direct_of installed_jobs config_file
                      (fun errors jobs x inv s Hp Hg =>
                         resolve_simulation_job_missing
                           installed_jobs config_file errors jobs x inv s Hp Hg)
                      (fun errors jobs x inv s l registered job Hp Hg Hs He =>
                         resolve_simulation_job_known
                           installed_jobs config_file errors jobs x inv s
                           l registered job Hp Hg Hs He)
                      h rows direct Hdirect
                      (fun inv Hin => Hres inv (in_or_app _ _ _ (or_intror Hin)))
                      (map (missing_error installed_jobs config_file)
                           (List.filter (fun inv => negb (installed installed_jobs inv))
                                        templated))
                      jobs1 resolved1 ext1 w lg Hsnap1 Hplaced1)
    as (jobs2 & resolved2 & ext2 & Hloop2 & Hsnap2 & Hplaced2 & Hres2).
  simpl in Hloop1, Hsnap1, Hplaced1. rewrite app_nil_r in Hloop1.
  exists (jobs1 ++ jobs2), (resolved1 ++ resolved2), ext2.
  split; [|split; [exact Hsnap2|split; [|exact Hplaced2]]].
  - unfold resolve_all. rewrite Hentries, Hrows, !bind_lift_ok.
    rewrite (bind_step _ _ _ _ _ Hloop1). rewrite bind_lift_ok.
    rewrite Hloop2. by rewrite List.filter_app, map_app.
  - rewrite List.filter_app. by apply Forall2_app.
Qed.

End Resolver.

(** ** Isolation of the resolved jobs *)

(** What a job reference denotes depends on the cells of its footprint
    only. *)
Lemma snapshot_agree (h h' : heap) (l : loc) :
  (forall x, x ∈ footprint h l -> h' !! x = h !! x) ->
  snapshot h' l = snapshot h l.
Proof.
  intros Hagree. unfold snapshot.
  rewrite (Hagree l (footprint_self h l)).
  destruct (h !! l) as [[cell|]|] eqn:Hl; try reflexivity.
  rewrite (Hagree (private_args cell)); [reflexivity|].
  rewrite (footprint_job _ _ _ Hl). set_solver.
Qed.

Lemma elem_of_flat_map_footprint (h : heap) (jobs : list loc) (i : nat) (l x : loc) :
  jobs !! i = Some l -> x ∈ footprint h l -> x ∈ flat_map (footprint h) jobs.
Proof.
  intros Hl Hx. apply list_elem_of_In, in_flat_map. exists l. split.
  - apply list_elem_of_In. by eapply list_elem_of_lookup_2.
  - by apply list_elem_of_In.
Qed.

(** Two different jobs of a placed list share no cell. *)
Lemma disjoint_footprints (h : heap) (jobs : list loc) :
  NoDup (flat_map (footprint h) jobs) ->
  forall i k a b x,
    i <> k -> jobs !! i = Some a -> jobs !! k = Some b ->
    x ∈ footprint h a -> x ∈ footprint h b -> False.
Proof.
  induction jobs as [|l jobs IH]; intros Hnodup i k a b x Hne Ha Hb Hxa Hxb.
  - by rewrite lookup_nil in Ha.
  - simpl in Hnodup. apply NoDup_app in Hnodup as (_ & Hdisjoint & Hrest).
    destruct i as [|i], k as [|k]; simpl in Ha, Hb; try done.
    + injection Ha as ->. apply (Hdisjoint x Hxa).
      by eapply elem_of_flat_map_footprint.
    + injection Hb as ->. apply (Hdisjoint x Hxb).
      by eapply elem_of_flat_map_footprint.
    + apply (IH Hrest i k a b x); auto.
Qed.

Lemma placed_NoDup (h0 h : heap) (jobs : list loc) :
  placed h0 h jobs -> NoDup jobs.
Proof.
  intros [_ Hnodup]. apply NoDup_alt. intros i k l Hi Hk.
  destruct (decide (i = k)) as [|Hne]; [done|]. exfalso.
  apply (disjoint_footprints h jobs Hnodup i k l l l Hne Hi Hk);
    apply footprint_self.
Qed.

Lemma placed_bounds (h0 h : heap) (jobs : list loc) (i : nat) (l x : loc) :
  placed h0 h jobs -> jobs !! i = Some l -> x ∈ footprint h l ->
  length h0 <= x < length h.
Proof.
  intros [Hbound _] Hl Hx. rewrite Forall_forall in Hbound.
  apply Hbound. by eapply elem_of_flat_map_footprint.
Qed.

(** The cells of a job that a store denotes are cells of that store. *)
Lemma snapshot_footprint_bound (h : heap) (l : loc) (j : ExtJob SubstitutionList) (x : loc) :
  snapshot h l = Some j -> x ∈ footprint h l -> x < length h.
Proof.
  intros (cell & Hl & Hp & _)%snapshot_inv Hx.
  rewrite (footprint_job _ _ _ Hl) in Hx.
  apply list_elem_of_In in Hx. destruct Hx as [<-|[<-|[]]];
    by eapply lookup_lt_Some.
Qed.

(** Changing a store on the cells of one placed job only leaves every
    other placed job, and every job of the original store, as it was. *)
Lemma placed_isolation (h0 ext h' : heap) (jobs : list loc) (i : nat) (li : loc) :
  placed h0 (h0 ++ ext) jobs ->
  jobs !! i = Some li ->
  (forall x, x < length (h0 ++ ext) -> x ∉ footprint (h0 ++ ext) li ->
             h' !! x = (h0 ++ ext) !! x) ->
  (forall l j, snapshot h0 l = Some j -> snapshot h' l = Some j)
  /\ (forall k lk, k <> i -> jobs !! k = Some lk ->
                   snapshot h' lk = snapshot (h0 ++ ext) lk).
Proof.
  intros Hplaced Hli Hagree. split.
  - intros l j Hsnap.
    rewrite <- (snapshot_extend h0 ext l j Hsnap).
    apply snapshot_agree. intros x Hx.
    assert (Hx0 : x < length h0).
    { apply (snapshot_footprint_bound h0 l j x Hsnap).
      rewrite footprint_extend in Hx; [done|].
      apply (snapshot_footprint_bound h0 l j l Hsnap), footprint_self. }
    apply Hagree; [rewrite length_app; lia|].
    intros Hin. pose proof (placed_bounds _ _ _ _ _ _ Hplaced Hli Hin). lia.
  - intros k lk Hne Hlk. apply snapshot_agree. intros x Hx.
    apply Hagree.
    + by apply (placed_bounds _ _ _ _ _ _ Hplaced Hlk Hx).
    + intros Hin. destruct Hplaced as [_ Hnodup].
      by apply (disjoint_footprints _ _ Hnodup k i lk li x Hne Hlk Hli).
Qed.

Lemma filter_all_true {A} (f : A -> bool) (l : list A) :
  (forall x, In x l -> f x = true) ->
  List.filter f l = l /\ List.filter (fun x => negb (f x)) l = [].
Proof.
  induction l as [|x l IH]; intros Hall; [done|]. simpl.
  rewrite (Hall x) by (by left). simpl.
  destruct IH as [-> ->]; [|done]. intros y Hy. apply Hall. by right.
Qed.

Section ResolvedJobs.
Context `{PyBuiltins} `{Collaborators}.

(** [job.private_args[key] = val] on a job of the store: the job then
    denotes the same definition with the updated private scope, and no cell
    outside its footprint changes. *)
Lemma set_private_arg_spec (s : state) (l : loc) (j : ExtJob SubstitutionList)
      (key val : string) :
  snapshot (store s) l = Some j ->
  exists s',
    set_private_arg l key val s = (Ok tt, s')
    /\ snapshot (store s') l
       = Some (with_private_args (Dict.set key val (private_args j)) j)
    /\ length (store s') = length (store s)
    /\ (forall x, x ∉ footprint (store s) l -> store s' !! x = store s !! x)
    /\ warnings s' = warnings s /\ logs s' = logs s.
Proof.
  intros Hsnap. pose proof Hsnap as (cell & Hl & Hp & Hj)%snapshot_inv.
  eexists. split.
  { unfold set_private_arg. rewrite (bind_step _ _ _ _ _ (read_job_at _ _ _ Hl)).
    apply (setitem_spec _ _ _ _ _ Hp). }
  simpl. assert (Hne : private_args cell <> l) by congruence.
  split; [|split; [apply length_insert|split; [|done]]].
  - rewrite (snapshot_intro _ l cell (Dict.set key val (private_args j))).
    + f_equal. generalize (Dict.set key val (private_args j)). intros scope.
      rewrite Hj. reflexivity.
    + by rewrite list_lookup_insert_ne.
    + apply list_lookup_insert_eq. by eapply lookup_lt_Some.
  - intros x Hx. rewrite (footprint_job _ _ _ Hl) in Hx.
    rewrite list_lookup_insert_ne; [done|]. set_solver.
Qed.

(** The outcome of [read_forward_model] when every invocation is
    resolvable, with the layout of the resolved jobs in the store. *)
Lemma read_forward_model_resolves
      (installed_jobs : Dict.t string loc) (sl : SubstitutionList)
      (config_dict : ConfigDict) (config_file : string) (s : state)
      (entries : list (list fm_item)) (rows : list (list string))
      (templated direct : list invocation) :
  get_invocations ConfigKeys.FORWARD_MODEL config_dict = Ok entries ->
  get_rows ConfigKeys.SIMULATION_JOB config_dict = Ok rows ->
  Forall2 (fun entry inv => templated_of sl entry = Some inv) entries templated ->
  Forall2 (fun row inv => direct_of row = Some inv) rows direct ->
  (forall inv, In inv (templated ++ direct) ->
               exists job, resolvable installed_jobs (store s) inv job) ->
  exists jobs resolved ext,
    read_forward_model installed_jobs sl config_dict config_file s
    = (Ok jobs, mkState (store s ++ ext) (warnings s) (logs s))
    /\ Forall2 (resolvable installed_jobs (store s)) (templated ++ direct) resolved
    /\ Forall2 (fun l job => snapshot (store s ++ ext) l = Some job) jobs resolved
    /\ placed (store s) (store s ++ ext) jobs.
Proof.
  intros Hentries Hrows Htemplated Hdirect Hres.
  assert (Hinstalled : forall inv, In inv (templated ++ direct) ->
                                   installed installed_jobs inv = true).
  { intros inv Hin. destruct (Hres inv Hin) as (job & l & reg & Hget & _).
    unfold installed, Dict.mem. by rewrite Hget. }
  destruct (resolve_all_spec installed_jobs sl config_dict config_file s
                             entries rows templated direct
                             Hentries Hrows Htemplated Hdirect
                             (fun inv Hin _ => Hres inv Hin))
    as (jobs & resolved & ext & Hrun & Hsnap & Hresolved & Hplaced).
  destruct (filter_all_true (installed installed_jobs) _ Hinstalled) as [Hall Hnone].
  rewrite Hall in Hresolved. rewrite Hnone in Hrun. simpl in Hrun.
  exists jobs, resolved, ext.
  split; [|split; [exact Hresolved|split; [exact Hsnap|exact Hplaced]]].
  unfold read_forward_model. by rewrite (bind_step _ _ _ _ _ Hrun).
Qed.

(** When every requested invocation names an installed job and is well
    formed, [read_forward_model] returns one job per invocation, in
    declaration order, FORWARD_MODEL entries first.  Each job is a fresh object
    denoting the registered definition with the invocation's own private
    scope or arguments; the jobs are pairwise distinct references; no cell
    of the store that existed before the call is modified; and changing the
    store on the cells of one returned job (the job object or its private
    scope) affects neither what the registry entries denote nor what any
    other returned job denotes. *)
Theorem read_forward_model_isolated
        (installed_jobs : Dict.t string loc) (sl : SubstitutionList)
        (config_dict : ConfigDict) (config_file : string) (s : state)
        (entries : list (list fm_item)) (rows : list (list string))
        (templated direct : list invocation) :
  get_invocations ConfigKeys.FORWARD_MODEL config_dict = Ok entries ->
  get_rows ConfigKeys.SIMULATION_JOB config_dict = Ok rows ->
  Forall2 (fun entry inv => templated_of sl entry = Some inv) entries templated ->
  Forall2 (fun row inv => direct_of row = Some inv) rows direct ->
  (forall inv, In inv (templated ++ direct) ->
               exists job, resolvable installed_jobs (store s) inv job) ->
  exists jobs resolved s',
    read_forward_model installed_jobs sl config_dict config_file s = (Ok jobs, s')
    /\ Forall2 (resolvable installed_jobs (store s)) (templated ++ direct) resolved
    /\ Forall2 (fun l job => snapshot (store s') l = Some job) jobs resolved
    /\ NoDup jobs
    /\ (forall x, x < length (store s) -> store s' !! x = store s !! x)
    /\ (forall i li h',
          jobs !! i = Some li ->
          (forall x, x < length (store s') -> x ∉ footprint (store s') li ->
                     h' !! x = store s' !! x) ->
          (forall l j, snapshot (store s) l = Some j -> snapshot h' l = Some j)
          /\ (forall k lk, k <> i -> jobs !! k = Some lk ->
                           snapshot h' lk = snapshot (store s') lk)).
Proof.
  intros Hentries Hrows Htemplated Hdirect Hres.
  destruct (read_forward_model_resolves installed_jobs sl config_dict config_file s
              entries rows templated direct
              Hentries Hrows Htemplated Hdirect Hres)
    as (jobs & resolved & ext & Hrun & Hresolved & Hsnap & Hplaced).
  exists jobs, resolved, (mkState (store s ++ ext) (warnings s) (logs s)).
  split; [exact Hrun|split; [exact Hresolved|split; [exact Hsnap|split; [|split]]]].
  - by eapply placed_NoDup.
  - intros x Hx. simpl. by apply lookup_app_l.
  - intros i li h' Hli Hagree. simpl in Hagree |- *.
    by apply (placed_isolation (store s) ext h' jobs i li).
Qed.

(** Assigning a private argument on one of the jobs [read_forward_model]
    returned, [jobs[i].private_args[key] = val], updates the private scope of
    that job and of no other: the other returned jobs and every job of the
    registry denote what they denoted before. *)
Theorem private_argument_assignment_is_local
        (installed_jobs : Dict.t string loc) (sl : SubstitutionList)
        (config_dict : ConfigDict) (config_file : string) (s : state)
        (entries : list (list fm_item)) (rows : list (list string))
        (templated direct : list invocation) :
  get_invocations ConfigKeys.FORWARD_MODEL config_dict = Ok entries ->
  get_rows ConfigKeys.SIMULATION_JOB config_dict = Ok rows ->
  Forall2 (fun entry inv => templated_of sl entry = Some inv) entries templated ->
  Forall2 (fun row inv => direct_of row = Some inv) rows direct ->
  (forall inv, In inv (templated ++ direct) ->
               exists job, resolvable installed_jobs (store s) inv job) ->
  exists jobs s',
    read_forward_model installed_jobs sl config_dict config_file s = (Ok jobs, s')
    /\ forall i li key val,
        jobs !! i = Some li ->
        exists job s'',
          snapshot (store s') li = Some job
          /\ set_private_arg li key val s' = (Ok tt, s'')
          /\ snapshot (store s'') li
             = Some (with_private_args (Dict.set key val (private_args job)) job)
          /\ (forall l j, snapshot (store s) l = Some j ->
                          snapshot (store s'') l = Some j)
          /\ (forall k lk, k <> i -> jobs !! k = Some lk ->
                           snapshot (store s'') lk = snapshot (store s') lk).
Proof.
  intros Hentries Hrows Htemplated Hdirect Hres.
  destruct (read_forward_model_resolves installed_jobs sl config_dict config_file s
              entries rows templated direct
              Hentries Hrows Htemplated Hdirect Hres)
    as (jobs & resolved & ext & Hrun & Hresolved & Hsnap & Hplaced).
  exists jobs, (mkState (store s ++ ext) (warnings s) (logs s)).
  split; [exact Hrun|]. intros i li key val Hli. simpl.
  destruct (Forall2_lookup_l _ _ _ _ _ Hsnap Hli) as (job & _ & Hjob).
  destruct (set_private_arg_spec
              (mkState (store s ++ ext) (warnings s) (logs s)) li job key val Hjob)
    as (s'' & Hset & Hnew & Hlen & Hrest & _).
  simpl in Hnew, Hlen, Hrest.
  exists job, s''. split; [exact Hjob|]. split; [exact Hset|]. split; [exact Hnew|].
  apply (placed_isolation (store s) ext (store s'') jobs i li Hplaced Hli).
  intros x _ Hx. by apply Hrest.
Qed.

(** When some requested invocations name jobs that are not installed,
    both loops still go over every invocation: each of the others is
    resolved to a fresh job, each missing job contributes one error, in
    declaration order, and [read_forward_model] raises them all together.  The
    error of a FORWARD_MODEL invocation lists the installed names; the error
    of a SIMULATION_JOB invocation names the missing job only. *)
Theorem read_forward_model_collects_missing_jobs
        (installed_jobs : Dict.t string loc) (sl : SubstitutionList)
        (config_dict : ConfigDict) (config_file : string) (s : state)
        (entries : list (list fm_item)) (rows : list (list string))
        (templated direct : list invocation) :
  get_invocations ConfigKeys.FORWARD_MODEL config_dict = Ok entries ->
  get_rows ConfigKeys.SIMULATION_JOB config_dict = Ok rows ->
  Forall2 (fun entry inv => templated_of sl entry = Some inv) entries templated ->
  Forall2 (fun row inv => direct_of row = Some inv) rows direct ->
  (forall inv, In inv (templated ++ direct) ->
               installed installed_jobs inv = true ->
               exists job, resolvable installed_jobs (store s) inv job) ->
  Exists (fun inv => installed installed_jobs inv = false) (templated ++ direct) ->
  let errors :=
    map (missing_error installed_jobs config_file)
        (List.filter (fun inv => negb (installed installed_jobs inv))
                     (templated ++ direct)) in
  exists jobs resolved s',
    resolve_all installed_jobs sl config_dict config_file s = (Ok (errors, jobs), s')
    /\ Forall2 (resolvable installed_jobs (store s))
               (List.filter (installed installed_jobs) (templated ++ direct))
               resolved
    /\ Forall2 (fun l job => snapshot (store s') l = Some job) jobs resolved
    /\ errors <> []
    /\ read_forward_model installed_jobs sl config_dict config_file s
       = (Raise (from_collected errors), s')
    /\ (forall job_name args,
          In (Templated job_name args) templated ->
          Dict.get job_name installed_jobs = None ->
          exists e, In (Caught [e]) errors
                    /\ message e = "Could not find job " +:+ py_repr job_name
                                   +:+ " in list of installed jobs: "
                                   +:+ repr_list (Dict.keys installed_jobs))
    /\ (forall job_name arguments,
          In (Direct job_name arguments) direct ->
          Dict.get job_name installed_jobs = None ->
          exists e, In (Caught [e]) errors
                    /\ message e = "Could not find job " +:+ py_repr job_name
                                   +:+ " in list of installed jobs.").
Proof.
  intros Hentries Hrows Htemplated Hdirect Hres Hmissing errors.
  destruct (resolve_all_spec installed_jobs sl config_dict config_file s
                             entries rows templated direct
                             Hentries Hrows Htemplated Hdirect Hres)
    as (jobs & resolved & ext & Hrun & Hsnap & Hresolved & _).
  fold errors in Hrun.
  assert (Hin : forall inv, In inv (templated ++ direct) ->
                            installed installed_jobs inv = false ->
                            In (missing_error installed_jobs config_file inv) errors).
  { intros inv Hinv Hno. apply in_map, filter_In. split; [exact Hinv|].
    by rewrite Hno. }
  assert (Hne : errors <> []).
  { apply Exists_exists in Hmissing as (inv & Hinv%list_elem_of_In & Hno).
    intros Hnil. specialize (Hin inv Hinv Hno). rewrite Hnil in Hin. destruct Hin. }
  exists jobs, resolved, (mkState (store s ++ ext) (warnings s) (logs s)).
  split; [exact Hrun|]. split; [exact Hresolved|]. split; [exact Hsnap|].
  split; [exact Hne|]. split; [|split].
  - unfold read_forward_model. rewrite (bind_step _ _ _ _ _ Hrun).
    destruct errors; [done|reflexivity].
  - intros job_name args Hinv Hget. eexists. split.
    + apply (Hin (Templated job_name args)).
      * apply in_or_app. by left.
      * unfold installed, Dict.mem. simpl. by rewrite Hget.
    + reflexivity.
  - intros job_name arguments Hinv Hget. eexists. split.
    + apply (Hin (Direct job_name arguments)).
      * apply in_or_app. by right.
      * unfold installed, Dict.mem. simpl. by rewrite Hget.
    + reflexivity.
Qed.

End ResolvedJobs.

Section ResolvedJobsWitness.
Import Demo.

Lemma read_forward_model_isolated_witness :
  exists jobs s',
    read_forward_model Scenario5.registry [] Scenario5.four_invocations "demo.ert"
                       Scenario5.echo_state
    = (Ok jobs, s')
    /\ length jobs = 4
    /\ NoDup jobs.
Proof.
  destruct (read_forward_model_isolated (H0 := collaborators)
              Scenario5.registry [] Scenario5.four_invocations "demo.ert"
              Scenario5.echo_state
              [[Text "echo"; Pairs [["<MSG>"; "hello"]]];
               [Text "echo"; Text "<MSG>=bye"];
               [Text "echo"]]
              [["echo"; "again"]]
              [Templated "echo" (Pairs [["<MSG>"; "hello"]]);
               Templated "echo" (Text "<MSG>=bye");
               Templated "echo" (Pairs [])]
              [Direct "echo" ["again"]])
    as (jobs & resolved & s' & Hrun & Hres & Hsnap & Hnodup & _);
    try reflexivity.
  - repeat constructor.
  - repeat constructor.
  - intros inv Hin. simpl in Hin.
    destruct Hin as [<-|[<-|[<-|[<-|[]]]]];
      eexists; exists 1; eexists; (split; [reflexivity|]);
      (split; [reflexivity|]); reflexivity.
  - exists jobs, s'. split; [exact Hrun|]. split; [|exact Hnodup].
    apply Forall2_length in Hres, Hsnap. simpl in Hres. lia.
Defined.

End ResolvedJobsWitness.

Section MissingJobsWitness.
Import Demo.

Lemma private_argument_assignment_is_local_witness :
  exists jobs s',
    read_forward_model Scenario5.registry [] Scenario5.four_invocations "demo.ert"
                       Scenario5.echo_state
    = (Ok jobs, s')
    /\ forall li, jobs !! 0 = Some li ->
                  exists s'',
                    set_private_arg li "<MSG>" "changed" s' = (Ok tt, s'')
                    /\ snapshot (store s'') 1 = snapshot Scenario.echo_store 1.
Proof.
  destruct (private_argument_assignment_is_local (H0 := collaborators)
              Scenario5.registry [] Scenario5.four_invocations "demo.ert"
              Scenario5.echo_state
              [[Text "echo"; Pairs [["<MSG>"; "hello"]]];
               [Text "echo"; Text "<MSG>=bye"];
               [Text "echo"]]
              [["echo"; "again"]]
              [Templated "echo" (Pairs [["<MSG>"; "hello"]]);
               Templated "echo" (Text "<MSG>=bye");
               Templated "echo" (Pairs [])]
              [Direct "echo" ["again"]])
    as (jobs & s' & Hrun & Hlocal);
    try reflexivity.
  - repeat constructor.
  - repeat constructor.
  - intros inv Hin. simpl in Hin.
    destruct Hin as [<-|[<-|[<-|[<-|[]]]]];
      eexists; exists 1; eexists; (split; [reflexivity|]);
      (split; [reflexivity|]); reflexivity.
  - exists jobs, s'. split; [exact Hrun|]. intros li Hli.
    destruct (Hlocal 0 li "<MSG>" "changed" Hli)
      as (job & s'' & _ & Hset & _ & Hregistry & _).
    exists s''. split; [exact Hset|].
    by apply Hregistry.
Defined.

Lemma read_forward_model_collects_missing_jobs_witness :
  exists s',
    read_forward_model Scenario5.registry [] Scenario5.with_typos "demo.ert"
                       Scenario5.echo_state
    = (Raise (from_collected
                (map (missing_error Scenario5.registry "demo.ert")
                     [Templated "ecoh" (Pairs []); Direct "shout" ["again"]])),
       s').
Proof.
  destruct (read_forward_model_collects_missing_jobs (H0 := collaborators)
              Scenario5.registry [] Scenario5.with_typos "demo.ert"
              Scenario5.echo_state
              [[Text "echo"; Pairs [["<MSG>"; "hello"]]];
               [Text "ecoh"];
               [Text "echo"]]
              [["shout"; "again"]; ["echo"; "again"]]
              [Templated "echo" (Pairs [["<MSG>"; "hello"]]);
               Templated "ecoh" (Pairs []);
               Templated "echo" (Pairs [])]
              [Direct "shout" ["again"]; Direct "echo" ["again"]])
    as (jobs & resolved & s' & _ & _ & _ & _ & Hraise & _);
    try reflexivity.
  - repeat constructor.
  - repeat constructor.
  - intros inv Hin Hinst. simpl in Hin.
    destruct Hin as [<-|[<-|[<-|[<-|[<-|[]]]]]]; try discriminate Hinst;
      eexists; exists 1; eexists; (split; [reflexivity|]);
      (split; [reflexivity|]); reflexivity.
  - apply Exists_cons_tl, Exists_cons_hd. reflexivity.
  - exists s'. exact Hraise.
Defined.

Example missing_job_messages :
  fst (read_forward_model Scenario5.registry [] Scenario5.with_typos "demo.ert"
                          Scenario5.echo_state)
  = Raise (ConfigValidationError
             [ {| message := "Could not find job 'ecoh' in list of installed jobs: ['echo']";
                  filename := Some "demo.ert"; context := None |};
               {| message := "Could not find job 'shout' in list of installed jobs.";
                  filename := Some "demo.ert"; context := None |} ]).
Proof. reflexivity. Qed.

End MissingJobsWitness.

(** ** More on the environment filter *)

Section EnvironmentFilter.
Context `{PyBuiltins} `{FileSystem} `{Collaborators}.

(** [filter_env_dict] on one entry whose substituted value is not empty:
    the entry is dropped, with one warning in the log, exactly when the
    first character of the substituted value is [<] and its last is [>];
    otherwise it is
    stored under the substituted key.  The store and the warnings are not
    touched. *)
Theorem filter_env_item_spec (context : SubstitutionList) (iens itr : Z)
        (self : Substituter) (result : Dict.t string (option string))
        (key value : string) (s : state) :
  let new_key := Substituter_substitute context iens itr self key in
  let new_value := Substituter_substitute context iens itr self value in
  new_value <> "" ->
  filter_env_item context iens itr self result (key, Some value) s
  = if match Str.first new_value, Str.last new_value with
       | Some first, Some last => Ascii.eqb first "<" && Ascii.eqb last ">"
       | _, _ => false
       end
    then (Ok result,
          mkState (store s) (warnings s)
                  (logs s ++ [("WARNING",
                               "Environment variable " +:+ new_key
                               +:+ " skipped due to unmatched define "
                               +:+ new_value)]))
    else (Ok (Dict.set new_key (Some new_value) result), s).
Proof.
  intros new_key new_value. subst new_key new_value.
  unfold filter_env_item. simpl.
  remember (Substituter_substitute context iens itr self value) as new_value.
  intros Hne. destruct new_value as [|c rest]; [done|].
  destruct (last_cons_some c rest) as [z Hz]. rewrite Hz.
  change (Str.first (String c rest)) with (Some c). cbv iota.
  destruct (Ascii.eqb c "<"), (Ascii.eqb z ">"); reflexivity.
Qed.

(** [filter_env_dict] never returns an empty mapping: a mapping from which
    everything was filtered, or that was empty to begin with, comes out as
    [None]. *)
Theorem filter_env_dict_never_empty (context : SubstitutionList) (iens itr : Z)
        (self : Substituter) (d : Dict.t string (option string))
        (s s' : state) (result : option (Dict.t string (option string))) :
  filter_env_dict context iens itr self d s = (Ok result, s') ->
  result <> Some [].
Proof.
  unfold filter_env_dict. intros Hrun.
  apply bind_ok_inv in Hrun as (r & s1 & _ & Hret).
  destruct r; apply ret_ok_inv in Hret as [-> _]; discriminate.
Qed.

End EnvironmentFilter.

Section EnvironmentFilterWitness.
Import Demo.

Lemma filter_env_item_spec_witness :
  filter_env_item [] 0 0 (Substituter_init [] 0 0 (job "echo" "/bin/echo" [] []))
                  [] ("TOOLS", Some "<TOOL>/bin") initial
  = (Ok [("TOOLS", Some "<TOOL>/bin")], initial).
Proof.
  rewrite (filter_env_item_spec (H1 := collaborators)); [reflexivity|].
  discriminate.
Defined.

Lemma filter_env_dict_never_empty_witness :
  exists result s',
    filter_env_dict [] 0 0 (Substituter_init [] 0 0 (job "echo" "/bin/echo" [] []))
                    [("GREETING", Some "<MSG>")] initial
    = (Ok result, s')
    /\ result <> Some [].
Proof.
  assert (Hrun :
            filter_env_dict [] 0 0
                            (Substituter_init [] 0 0 (job "echo" "/bin/echo" [] []))
                            [("GREETING", Some "<MSG>")] initial
            = (Ok None,
               mkState [] []
                       [("WARNING",
                         "Environment variable GREETING skipped due to unmatched define <MSG>")]))
    by reflexivity.
  do 2 eexists. split; [exact Hrun|].
  exact (filter_env_dict_never_empty (H1 := collaborators) _ _ _ _ _ _ _ _ Hrun).
Defined.

End EnvironmentFilterWitness.

(** ** What a loaded configuration holds *)

Section LoadedConfiguration.
Context `{PyBuiltins} `{FileSystem} `{Collaborators} `{ConfigSource}.

(** A file that loads was parsed, its defaults could be injected, and the
    completed dictionary loaded. *)
Lemma from_file_ok_inv (user_config_file : string) (user_config_dict : ConfigDict)
      (s s' : state) (cfg : ErtConfig) :
  read_user_config user_config_file = Ok user_config_dict ->
  from_file user_config_file s = (Ok cfg, s') ->
  exists content_dict s1,
    apply_config_content_defaults user_config_dict
                                  (abspath (Path.dirname user_config_file))
    = Ok content_dict
    /\ from_dict content_dict s1 = (Ok cfg, s').
Proof.
  intros Hread Hrun. unfold from_file in Hrun. rewrite Hread, bind_lift_ok in Hrun.
  apply bind_ok_inv in Hrun as ([] & s1 & _ & Hrun).
  apply bind_ok_inv in Hrun as ([] & s2 & _ & Hrun).
  apply bind_ok_inv in Hrun as (content_dict & s3 & Hdefaults & Hrun).
  lift_inv Hdefaults. eauto.
Qed.

(** The fields of a returned configuration that [from_dict] reads straight
    off the dictionary. *)
Lemma from_dict_fields (config_dict : ConfigDict) (s s' : state) (cfg : ErtConfig) :
  from_dict config_dict s = (Ok cfg, s') ->
  exists runpath ens setenv,
    get_single ConfigKeys.RUNPATH_FILE config_dict = Ok runpath
    /\ runpath_file cfg = default DEFAULT_RUNPATH_FILE runpath
    /\ get_single ConfigKeys.ENSPATH config_dict = Ok ens
    /\ ens_path cfg = default DEFAULT_ENSPATH ens
    /\ get_single ConfigKeys.RANDOM_SEED config_dict = Ok (random_seed cfg)
    /\ warning_infos cfg = default [] (parser_warnings config_dict)
    /\ get_rows "SETENV" config_dict = Ok setenv
    /\ fold_result (fun env_vars row =>
                      and_then (unpack2 row) (fun kv =>
                      Ok (Dict.set (fst kv) (snd kv) env_vars)))
                   setenv []
       = Ok (env_vars cfg).
Proof.
  intros Hrun. unfold from_dict in Hrun.
  bind_inv Hrun. lift_inv Hm.
  bind_inv Hrun. lift_inv Hm0.
  bind_inv Hrun. lift_inv Hm1.
  destruct (map Info (a0 ++ a1)) as [|e errors] eqn:Hgate; [|discriminate].
  bind_inv Hrun. destruct a2 as [ensemble l].
  destruct (loaded_errors l) as [|e errors] eqn:Hclean; [|discriminate].
  repeat (let a := fresh "v" in
          let s := fresh "t" in
          let Hm := fresh "Hstep" in
          apply bind_ok_inv in Hrun; destruct Hrun as (a & s & Hm & Hrun);
          try (apply lift_ok_inv in Hm; destruct Hm as [Hm ->])).
  apply ret_ok_inv in Hrun as [-> ->]. simpl.
  eexists _, _, _. repeat split; eassumption.
Qed.

Lemma apply_defaults_inv (content_dict d : ConfigDict) (config_dir : string) :
  apply_config_content_defaults content_dict config_dir = Ok d ->
  parser_warnings d = parser_warnings content_dict
  /\ items d !! ConfigKeys.ENSPATH
     = Some (default (Single (Path.join config_dir DEFAULT_ENSPATH))
                     (items content_dict !! ConfigKeys.ENSPATH))
  /\ exists runpath,
      items d !! ConfigKeys.RUNPATH_FILE = Some (Single runpath)
      /\ match items content_dict !! ConfigKeys.RUNPATH_FILE with
         | None => runpath = Path.join config_dir DEFAULT_RUNPATH_FILE
         | Some (Single p) =>
             runpath = if Path.isabs p then p
                       else Path.normpath (Path.join config_dir p)
         | Some _ => False
         end.
Proof.
  unfold apply_config_content_defaults, has_key.
  assert (Hkeys : ConfigKeys.ENSPATH <> ConfigKeys.RUNPATH_FILE) by done.
  set (d1 := if negb (bool_decide (is_Some (items content_dict !! ConfigKeys.ENSPATH)))
             then _ else _).
  assert (Hw : parser_warnings d1 = parser_warnings content_dict).
  { unfold d1. by destruct (negb _). }
  assert (Hrun : items d1 !! ConfigKeys.RUNPATH_FILE
                 = items content_dict !! ConfigKeys.RUNPATH_FILE).
  { unfold d1. destruct (negb _); [|done]. simpl. by rewrite lookup_insert_ne. }
  assert (Hens : items d1 !! ConfigKeys.ENSPATH
                 = Some (default (Single (Path.join config_dir DEFAULT_ENSPATH))
                                 (items content_dict !! ConfigKeys.ENSPATH))).
  { unfold d1. destruct (items content_dict !! ConfigKeys.ENSPATH) as [v|] eqn:He.
    - rewrite bool_decide_eq_true_2 by eauto. simpl. by rewrite He.
    - rewrite bool_decide_eq_false_2 by (intros [? ?]; done). simpl.
      by rewrite lookup_insert_eq. }
  clearbody d1. rewrite Hrun.
  destruct (items content_dict !! ConfigKeys.RUNPATH_FILE) as [[p|?|?|?]|] eqn:Hp;
    try discriminate.
  - destruct (Path.isabs p) eqn:Habs; simpl; intros [= <-].
    + split; [done|]. split; [done|]. exists p. by rewrite Hrun.
    + simpl. split; [done|]. split; [by rewrite lookup_insert_ne|].
      eexists. by rewrite lookup_insert_eq.
  - intros [= <-]. simpl. split; [done|]. split; [by rewrite lookup_insert_ne|].
    eexists. by rewrite lookup_insert_eq.
Qed.

(** Loading a file whose dictionary declares no ENSPATH gives the ensemble
    path [storage] under the directory of the file, made absolute; a
    declared ENSPATH is taken as it is.  The run-path file is
    [.ert_runpath_list] under that directory when none is declared, a
    declared relative path is resolved against that directory, an absolute
    one is kept. *)
Theorem from_file_injects_defaults (user_config_file : string)
        (user_config_dict : ConfigDict) (s s' : state) (cfg : ErtConfig) :
  read_user_config user_config_file = Ok user_config_dict ->
  from_file user_config_file s = (Ok cfg, s') ->
  let config_dir := abspath (Path.dirname user_config_file) in
  (items user_config_dict !! ConfigKeys.ENSPATH = None ->
   ens_path cfg = Path.join config_dir "storage")
  /\ (forall p, items user_config_dict !! ConfigKeys.ENSPATH = Some (Single p) ->
                ens_path cfg = p)
  /\ (items user_config_dict !! ConfigKeys.RUNPATH_FILE = None ->
      runpath_file cfg = Path.join config_dir ".ert_runpath_list")
  /\ (forall p, items user_config_dict !! ConfigKeys.RUNPATH_FILE = Some (Single p) ->
                runpath_file cfg
                = if Path.isabs p then p
                  else Path.normpath (Path.join config_dir p)).
Proof.
  intros Hread Hrun config_dir. apply (from_file_ok_inv _ _ _ _ _ Hread) in Hrun
    as (content_dict & s1 & Hm & Hrun). fold config_dir in Hm.
  apply apply_defaults_inv in Hm as (_ & Hens & runpath & Hrp & Hcase).
  apply from_dict_fields in Hrun
    as (r & e & _ & Hgr & Hr & Hge & He & _).
  unfold get_single in Hgr, Hge. rewrite Hrp in Hgr. rewrite Hens in Hge.
  injection Hgr as <-. simpl in Hr.
  repeat split.
  - intros Hnone. rewrite Hnone in Hge. simpl in Hge. injection Hge as <-.
    by rewrite He.
  - intros p Hp. rewrite Hp in Hge. simpl in Hge. injection Hge as <-.
    by rewrite He.
  - intros Hnone. rewrite Hnone in Hcase. by rewrite Hr, Hcase.
  - intros p Hp. rewrite Hp in Hcase. by rewrite Hr, Hcase.
Qed.

(** The macros of a loaded configuration: [<RUNPATH_FILE>] is the
    configuration's run-path file, [<RUNPATH>] the run-path format of its
    model configuration, [<ECLBASE>] and [<ECL_BASE>] its ECLBASE format. *)
Theorem from_dict_defines_runpath_macros (config_dict : ConfigDict)
        (s s' : state) (cfg : ErtConfig) :
  from_dict config_dict s = (Ok cfg, s') ->
  exists model,
    model_config cfg = Some model
    /\ Dict.get "<RUNPATH_FILE>" (substitution_list cfg) = Some (runpath_file cfg)
    /\ Dict.get "<RUNPATH>" (substitution_list cfg)
       = Some (runpath_format_string model)
    /\ Dict.get "<ECLBASE>" (substitution_list cfg)
       = Some (eclbase_format_string model)
    /\ Dict.get "<ECL_BASE>" (substitution_list cfg)
       = Some (eclbase_format_string model).
Proof.
  intros Hrun. apply from_dict_ok_inv in Hrun. cbv zeta in Hrun.
  destruct Hrun as (_ & _ & _ & _ & model & _ & _ & _ & Hmodel & Hsl & _).
  exists model. split; [exact Hmodel|]. rewrite Hsl.
  repeat split.
  - rewrite !dict_get_set_ne by done. apply dict_get_set_eq.
  - rewrite !dict_get_set_ne by done. apply dict_get_set_eq.
  - apply dict_get_set_eq.
  - rewrite dict_get_set_ne by done. apply dict_get_set_eq.
Qed.

(** The suggestions for a configuration file that loads are the messages
    of the warnings the parser attached to its dictionary, in order. *)
Theorem make_suggestion_list_spec (config_file : string)
        (user_config_dict : ConfigDict) (s s' : state) (suggestions : list string) :
  read_user_config config_file = Ok user_config_dict ->
  make_suggestion_list config_file s = (Ok suggestions, s') ->
  suggestions
  = map warning_message (default [] (parser_warnings user_config_dict)).
Proof.
  intros Hread Hrun. unfold make_suggestion_list in Hrun.
  apply bind_ok_inv in Hrun as (cfg & s1 & Hfile & Hrun).
  apply ret_ok_inv in Hrun as [-> _].
  apply (from_file_ok_inv _ _ _ _ _ Hread) in Hfile
    as (content_dict & s2 & Hdefaults & Hdict).
  apply apply_defaults_inv in Hdefaults as (Hw & _).
  apply from_dict_fields in Hdict as (_ & _ & _ & _ & _ & _ & _ & _ & Hwarn & _).
  by rewrite Hwarn, Hw.
Qed.

End LoadedConfiguration.

Section LoadedConfigurationWitness.
Import Demo.

Lemma from_file_injects_defaults_witness :
  exists cfg s',
    from_file (H0 := Scenario10.project_files) (H2 := Scenario10.source)
              "cases/demo.ert" initial = (Ok cfg, s')
    /\ ens_path cfg = "/work/cases/storage"
    /\ runpath_file cfg = "/work/cases/runs.txt".
Proof.
  assert (Hrun : exists cfg s',
             from_file (H0 := Scenario10.project_files) (H2 := Scenario10.source)
                       "cases/demo.ert" initial
             = (Ok cfg, s')).
  { let outcome := eval vm_compute in
        (from_file (H0 := Scenario10.project_files) (H2 := Scenario10.source)
                   "cases/demo.ert" initial) in
    match outcome with
    | (Ok ?cfg, ?s') => exists cfg, s'
    end.
    reflexivity. }
  destruct Hrun as (cfg & s' & Hrun). exists cfg, s'. split; [exact Hrun|].
  destruct (from_file_injects_defaults
              (H0 := Scenario10.project_files) (H1 := collaborators)
              (H2 := Scenario10.source)
              "cases/demo.ert" Scenario6.with_parser_warnings _ _ _ eq_refl Hrun)
    as (Hens & _ & _ & Hrunpath).
  split.
  - rewrite Hens; reflexivity.
  - rewrite (Hrunpath "out/../runs.txt"); reflexivity.
Defined.

Lemma from_dict_defines_runpath_macros_witness :
  exists cfg s',
    from_dict Scenario2.echo_config initial = (Ok cfg, s')
    /\ Dict.get "<RUNPATH_FILE>" (substitution_list cfg) = Some (runpath_file cfg).
Proof.
  assert (Hrun : exists cfg s', from_dict Scenario2.echo_config initial = (Ok cfg, s')).
  { let outcome := eval vm_compute in (from_dict Scenario2.echo_config initial) in
    match outcome with
    | (Ok ?cfg, ?s') => exists cfg, s'
    end.
    reflexivity. }
  destruct Hrun as (cfg & s' & Hrun). exists cfg, s'. split; [exact Hrun|].
  destruct (from_dict_defines_runpath_macros (H1 := collaborators) _ _ _ _ Hrun)
    as (model & _ & Hfile & _).
  exact Hfile.
Defined.

Lemma make_suggestion_list_spec_witness :
  exists suggestions s',
    make_suggestion_list (H0 := Scenario10.project_files) (H2 := Scenario10.source)
                         "cases/demo.ert" initial
    = (Ok suggestions, s')
    /\ suggestions = ["PLOT_SETTINGS is deprecated";
                      "Use NUM_CPU instead of QUEUE_OPTION"].
Proof.
  assert (Hrun : exists suggestions s',
             make_suggestion_list (H0 := Scenario10.project_files)
                                  (H2 := Scenario10.source)
                                  "cases/demo.ert" initial
             = (Ok suggestions, s')).
  { let outcome := eval vm_compute in
        (make_suggestion_list (H0 := Scenario10.project_files)
                              (H2 := Scenario10.source)
                              "cases/demo.ert" initial) in
    match outcome with
    | (Ok ?l, ?s') => exists l, s'
    end.
    reflexivity. }
  destruct Hrun as (suggestions & s' & Hrun). exists suggestions, s'.
  split; [exact Hrun|].
  rewrite (make_suggestion_list_spec
             (H0 := Scenario10.project_files) (H1 := collaborators)
             (H2 := Scenario10.source)
             "cases/demo.ert" Scenario6.with_parser_warnings _ _ _ eq_refl Hrun).
  reflexivity.
Defined.

End LoadedConfigurationWitness.

(** ** Loops and what they preserve *)

(** An invariant of the loop's variables and the state that every
    completed iteration preserves holds when the loop completes. *)
Lemma for_each_invariant {X S} (I : S -> state -> Prop) (body : S -> X -> M S)
      (xs : list X) :
  (forall acc x s acc' s', In x xs -> I acc s ->
                           body acc x s = (Ok acc', s') -> I acc' s') ->
  forall acc s acc' s',
    I acc s -> for_each body xs acc s = (Ok acc', s') -> I acc' s'.
Proof.
  induction xs as [|x xs IH]; intros Hbody acc s acc' s' Hinv Hrun.
  - apply ret_ok_inv in Hrun as [-> ->]. exact Hinv.
  - simpl in Hrun. bind_inv Hrun.
    apply (IH (fun acc x s acc' s' Hin => Hbody acc x s acc' s' (or_intror Hin))
              a s0 acc' s'); [|exact Hrun].
    eapply Hbody; [left; reflexivity|exact Hinv|exact Hm].
Qed.

(** A relation between the state before and after that every iteration
    establishes, however it ends, holds for the loop, however it ends. *)
Lemma for_each_frame {X S} (R : state -> state -> Prop) (body : S -> X -> M S)
      (xs : list X) :
  (forall s, R s s) ->
  (forall s1 s2 s3, R s1 s2 -> R s2 s3 -> R s1 s3) ->
  (forall acc x s r s', In x xs -> body acc x s = (r, s') -> R s s') ->
  forall acc s r s', for_each body xs acc s = (r, s') -> R s s'.
Proof.
  intros Hrefl Htrans. induction xs as [|x xs IH]; intros Hbody acc s r s' Hrun.
  - injection Hrun as <- <-. apply Hrefl.
  - simpl in Hrun. unfold bind in Hrun.
    destruct (body acc x s) as [[acc1|e] s1] eqn:Hstep.
    + eapply Htrans.
      * eapply Hbody; [left; reflexivity|exact Hstep].
      * eapply IH; [|exact Hrun]. intros ? ? ? ? ? Hin. apply Hbody. by right.
    + injection Hrun as <- <-. eapply Hbody; [left; reflexivity|exact Hstep].
Qed.

(** An exception that leaves a loop was raised by one of its iterations. *)
Lemma for_each_raise_inv {X S} (body : S -> X -> M S) (xs : list X)
      (acc : S) (s s' : state) (e : exn) :
  for_each body xs acc s = (Raise e, s') ->
  exists acc1 x s1, In x xs /\ body acc1 x s1 = (Raise e, s').
Proof.
  revert acc s. induction xs as [|x xs IH]; intros acc s Hrun; [discriminate|].
  simpl in Hrun. unfold bind in Hrun.
  destruct (body acc x s) as [[acc1|e1] s1] eqn:Hstep.
  - destruct (IH _ _ Hrun) as (acc2 & y & s2 & Hin & Hy).
    exists acc2, y, s2. split; [by right|exact Hy].
  - injection Hrun as <- <-. exists acc, x, s. split; [by left|exact Hstep].
Qed.

(** A successful loop over a list that holds [x] has run the iteration of
    [x]. *)
Lemma for_each_visits {X S} (body : S -> X -> M S) (xs : list X) (x : X)
      (acc acc' : S) (s s' : state) :
  In x xs ->
  for_each body xs acc s = (Ok acc', s') ->
  exists post acc1 s1 acc2 s2,
    body acc1 x s1 = (Ok acc2, s2)
    /\ for_each body post acc2 s2 = (Ok acc', s')
    /\ forall y, In y post -> In y xs.
Proof.
  revert acc s. induction xs as [|y xs IH]; intros acc s Hin Hrun; [done|].
  simpl in Hrun. bind_inv Hrun. destruct Hin as [->|Hin].
  - exists xs, acc, s, a, s0. split; [exact Hm|]. split; [exact Hrun|].
    intros z Hz. by right.
  - destruct (IH _ _ Hin Hrun) as (post & acc1 & s1 & acc2 & s2 & H1 & H2 & H3).
    exists post, acc1, s1, acc2, s2. split; [exact H1|]. split; [exact H2|].
    intros z Hz. right. by apply H3.
Qed.

Lemma extends_refl (s : state) : extends s s.
Proof.
  split; [|split]; [exists []|exists []|]; by rewrite ?app_nil_r.
Qed.

Lemma extends_trans (s1 s2 s3 : state) :
  extends s1 s2 -> extends s2 s3 -> extends s1 s3.
Proof.
  intros ([c1 H1] & [w1 H2] & H3) ([c2 H4] & [w2 H5] & H6).
  repeat split.
  - exists (c1 ++ c2). by rewrite H4, H1, app_assoc.
  - exists (w1 ++ w2). by rewrite H5, H2, app_assoc.
  - by rewrite H6.
Qed.

Lemma warn_extends (msg : string) (s : state) :
  extends s (mkState (store s) (warnings s ++ [msg]) (logs s)).
Proof.
  split; [|split]; simpl; [exists []; by rewrite app_nil_r|by exists [msg]|done].
Qed.

Lemma alloc_extends (cells : heap) (messages : list string) (s : state) :
  extends s (mkState (store s ++ cells) (warnings s ++ messages) (logs s)).
Proof. split; [|split]; simpl; eauto. Qed.

(** ** The registry of installed jobs *)

Section Registry.
Context `{PyBuiltins} `{FileSystem} `{Collaborators}.

Lemma register_job_sound (s0 : state) (job_name source config_file : string)
      (declared : option string)
      (new_job : ExtJob SubstitutionList) (jobs jobs' : Dict.t string loc)
      (s s' : state) :
  ExtJob_from_config_file config_file declared = Ok new_job ->
  extends s0 s ->
  registry_sound (store s0) (store s) jobs ->
  register_job job_name source new_job jobs s = (Ok jobs', s') ->
  extends s0 s' /\ registry_sound (store s0) (store s') jobs'.
Proof.
  intros Hload Hext Hsound Hrun.
  assert (Hstep : jobs' = Dict.set job_name (S (length (store s))) jobs
                  /\ exists messages,
                      s' = mkState (store s ++
                                    [OSubst (private_args new_job);
                                     OJob (with_private_args (length (store s))
                                                             new_job)])
                                   (warnings s ++ messages) (logs s)).
  { destruct (Dict.get job_name jobs) as [previous|] eqn:Hget.
    - destruct (Hsound _ _ Hget) as (_ & old & Hold & _).
      apply snapshot_inv in Hold as (cell & Hcell & _).
      rewrite (register_job_taken _ _ _ _ _ _ _ Hget Hcell) in Hrun.
      injection Hrun as <- <-. split; [done|]. by eexists.
    - rewrite (register_job_fresh _ _ _ _ _ Hget) in Hrun.
      injection Hrun as <- <-. split; [done|]. exists [].
      by rewrite app_nil_r. }
  destruct Hstep as (-> & messages & ->). split.
  - eapply extends_trans; [exact Hext|apply alloc_extends].
  - intros other l Hget. simpl.
    destruct (decide (other = job_name)) as [->|Hne].
    + rewrite dict_get_set_eq in Hget. injection Hget as <-. split.
      * destruct Hext as ([cells ->] & _). rewrite length_app. lia.
      * exists new_job. split; [|eauto].
        rewrite (snapshot_allocated (store s) [] (private_args new_job) new_job).
        by rewrite with_private_args_same.
    + rewrite dict_get_set_ne in Hget by done.
      destruct (Hsound _ _ Hget) as (Hfresh & job & Hjob & Hfile).
      split; [exact Hfresh|]. exists job. split; [|exact Hfile].
      by apply snapshot_extend.
Qed.

Lemma install_job_sound (s0 : state) (st st' : install_state)
      (row : list string) (s s' : state) :
  extends s0 s /\ registry_sound (store s0) (store s) (snd st) ->
  install_job st row s = (Ok st', s') ->
  extends s0 s' /\ registry_sound (store s0) (store s') (snd st').
Proof.
  intros [Hext Hsound] Hrun. destruct st as [errors jobs]. unfold install_job in Hrun.
  destruct row as [|job_name [|path rest]]; try discriminate.
  destruct (ExtJob_from_config_file (abspath path) (Some job_name))
    as [new_job|e] eqn:Hload.
  - bind_inv Hrun. apply ret_ok_inv in Hrun as [-> ->]. simpl in *.
    by eapply register_job_sound.
  - destruct e; try discriminate. apply ret_ok_inv in Hrun as [-> ->]. done.
Qed.

Lemma install_job_file_sound (s0 : state) (job_path : string)
      (st st' : install_state) (file_name : string) (s s' : state) :
  extends s0 s /\ registry_sound (store s0) (store s) (snd st) ->
  install_job_file job_path st file_name s = (Ok st', s') ->
  extends s0 s' /\ registry_sound (store s0) (store s') (snd st').
Proof.
  intros [Hext Hsound] Hrun. destruct st as [errors jobs].
  unfold install_job_file in Hrun.
  destruct (negb (isfile (abspath (Path.join job_path file_name)))).
  - apply ret_ok_inv in Hrun as [-> ->]. done.
  - destruct (ExtJob_from_config_file (abspath (Path.join job_path file_name)) None)
      as [new_job|e] eqn:Hload.
    + bind_inv Hrun. apply ret_ok_inv in Hrun as [-> ->]. simpl in *.
      by eapply register_job_sound.
    + destruct e; try discriminate. apply ret_ok_inv in Hrun as [-> ->]. done.
Qed.

Lemma install_job_directory_sound (s0 : state) (st st' : install_state)
      (job_path : string) (s s' : state) :
  extends s0 s /\ registry_sound (store s0) (store s) (snd st) ->
  install_job_directory st job_path s = (Ok st', s') ->
  extends s0 s' /\ registry_sound (store s0) (store s') (snd st').
Proof.
  intros Hinv Hrun. destruct st as [errors jobs].
  unfold install_job_directory in Hrun.
  destruct (negb (isdir job_path)).
  - apply ret_ok_inv in Hrun as [-> ->]. done.
  - destruct (List.filter _ (listdir job_path)).
    + bind_inv Hrun. apply ret_ok_inv in Hrun as [-> ->].
      injection Hm as _ <-. destruct Hinv as [Hext Hsound]. split; [|done].
      eapply extends_trans; [exact Hext|apply warn_extends].
    + revert Hinv Hrun.
      apply (for_each_invariant
               (fun st s => extends s0 s
                            /\ registry_sound (store s0) (store s) (snd st))).
      intros acc x t acc' t' _. apply install_job_file_sound.
Qed.

(** When [_installed_jobs_from_dict] returns, every entry of the registry
    is a reference to a job object created during the call, and it denotes
    the job a job file was loaded to; the objects that existed before are
    unchanged, warnings have only been added, and nothing is logged. *)
Theorem installed_jobs_denote_loaded_jobs (config_dict : ConfigDict)
        (s s' : state) (jobs : Dict.t string loc) :
  _installed_jobs_from_dict config_dict s = (Ok jobs, s') ->
  extends s s' /\ registry_sound (store s) (store s') jobs.
Proof.
  intros Hrun. unfold _installed_jobs_from_dict in Hrun.
  apply bind_ok_inv in Hrun as (rows & s1 & Hrows & Hrun). lift_inv Hrows.
  apply bind_ok_inv in Hrun as (st1 & s1 & Hfiles & Hrun).
  apply bind_ok_inv in Hrun as (dirs & s2 & Hdirs & Hrun). lift_inv Hdirs.
  apply bind_ok_inv in Hrun as ([errors registry] & s3 & Hloop & Hrun).
  destruct errors; [|discriminate].
  apply ret_ok_inv in Hrun as [-> ->].
  change registry with (snd (@nil collected, registry)).
  revert Hloop.
  apply (for_each_invariant
           (fun st t => extends s t /\ registry_sound (store s) (store t) (snd st))).
  { intros acc x t acc' t' _. apply install_job_directory_sound. }
  revert Hfiles.
  apply (for_each_invariant
           (fun st t => extends s t /\ registry_sound (store s) (store t) (snd st))).
  { intros acc x t acc' t' _. apply install_job_sound. }
  split; [apply extends_refl|]. intros job_name l Hget. discriminate.
Qed.

End Registry.

Section RegistryErrors.
Context `{PyBuiltins} `{FileSystem} `{Collaborators}.

Lemma register_job_raises (job_name source : string)
      (new_job : ExtJob SubstitutionList) (jobs : Dict.t string loc)
      (s s' : state) (e : exn) :
  register_job job_name source new_job jobs s = (Raise e, s') ->
  e = TypeError "dangling reference".
Proof.
  unfold register_job. unfold bind at 1.
  destruct (Dict.get job_name jobs) as [previous|].
  - unfold bind at 1. unfold read_job, dangling, raise.
    destruct (store s !! previous) as [[old|]|]; unfold warn;
      rewrite ?bind_step with (1 := allocate_job_spec _ _); unfold ret;
      congruence.
  - unfold ret at 1. rewrite bind_step with (1 := allocate_job_spec _ _).
    discriminate.
Qed.

Lemma install_job_raises (st : install_state) (row : list string)
      (s s' : state) (e : exn) :
  install_job st row s = (Raise e, s') ->
  forall errors, e <> ConfigValidationError errors.
Proof.
  destruct st as [errors jobs]. unfold install_job.
  destruct row as [|job_name [|path rest]]; try (intros [= <- _]; done).
  destruct (ExtJob_from_config_file (abspath path) (Some job_name)) as [new_job|e0].
  - unfold bind.
    destruct (register_job job_name (abspath path) new_job jobs s)
      as [[jobs'|e1] s1] eqn:Hreg; [discriminate|].
    intros [= <- _]. by rewrite (register_job_raises _ _ _ _ _ _ _ Hreg).
  - destruct e0; try discriminate; intros [= <- _]; done.
Qed.

Lemma install_job_file_raises (job_path : string) (st : install_state)
      (file_name : string) (s s' : state) (e : exn) :
  install_job_file job_path st file_name s = (Raise e, s') ->
  forall errors, e <> ConfigValidationError errors.
Proof.
  destruct st as [errors jobs]. unfold install_job_file.
  destruct (negb (isfile (abspath (Path.join job_path file_name))));
    [discriminate|].
  destruct (ExtJob_from_config_file (abspath (Path.join job_path file_name)) None)
    as [new_job|e0].
  - unfold bind.
    destruct (register_job (name new_job) (abspath (Path.join job_path file_name))
                           new_job jobs s)
      as [[jobs'|e1] s1] eqn:Hreg; [discriminate|].
    intros [= <- _]. by rewrite (register_job_raises _ _ _ _ _ _ _ Hreg).
  - destruct e0; try discriminate; intros [= <- _]; done.
Qed.

Lemma install_job_directory_raises (st : install_state) (job_path : string)
      (s s' : state) (e : exn) :
  install_job_directory st job_path s = (Raise e, s') ->
  forall errors, e <> ConfigValidationError errors.
Proof.
  destruct st as [errors jobs]. unfold install_job_directory.
  destruct (negb (isdir job_path)); [discriminate|].
  destruct (List.filter _ (listdir job_path)); [discriminate|].
  intros (acc1 & x & s1 & _ & Hstep)%for_each_raise_inv.
  by eapply install_job_file_raises.
Qed.

(** The errors collected so far are never dropped. *)
Lemma install_job_file_keeps_errors (job_path : string) (c : collected)
      (st st' : install_state) (file_name : string) (s s' : state) :
  In c (fst st) ->
  install_job_file job_path st file_name s = (Ok st', s') ->
  In c (fst st').
Proof.
  destruct st as [errors jobs]. unfold install_job_file. intros Hin.
  destruct (negb (isfile (abspath (Path.join job_path file_name)))).
  - by intros [-> _]%ret_ok_inv.
  - destruct (ExtJob_from_config_file _ None) as [new_job|e0].
    + intros Hrun. bind_inv Hrun. by apply ret_ok_inv in Hrun as [-> _].
    + destruct e0; try discriminate. intros [-> _]%ret_ok_inv. simpl.
      apply in_or_app. by left.
Qed.

Lemma install_job_directory_keeps_errors (c : collected)
      (st st' : install_state) (job_path : string) (s s' : state) :
  In c (fst st) ->
  install_job_directory st job_path s = (Ok st', s') ->
  In c (fst st').
Proof.
  destruct st as [errors jobs]. unfold install_job_directory. intros Hin.
  destruct (negb (isdir job_path)).
  - intros [-> _]%ret_ok_inv. simpl. apply in_or_app. by left.
  - destruct (List.filter _ (listdir job_path)).
    + intros Hrun. bind_inv Hrun. by apply ret_ok_inv in Hrun as [-> _].
    + revert Hin.
      apply (for_each_invariant (fun st (_ : state) => In c (fst st))).
      intros acc x t acc' t' _. apply install_job_file_keeps_errors.
Qed.

(** A job directory that does not exist makes [_installed_jobs_from_dict]
    fail, whatever else the dictionary declares: it never returns a
    registry, and when it raises the collected configuration errors, the
    error naming the directory is among them.  (Any other exception comes
    from a malformed dictionary or a job file that fails for another
    reason.) *)
Theorem missing_job_directory_is_reported (config_dict : ConfigDict)
        (directories : list string) (job_path : string)
        (s s' : state) (r : result (Dict.t string loc)) :
  get_paths ConfigKeys.INSTALL_JOB_DIRECTORY config_dict = Ok directories ->
  In job_path directories ->
  isdir job_path = false ->
  _installed_jobs_from_dict config_dict s = (r, s') ->
  (forall jobs, r <> Ok jobs)
  /\ (forall errors,
        r = Raise (ConfigValidationError errors) ->
        In {| message := "Unable to locate job directory " +:+ py_repr job_path;
              filename := None; context := None |} errors).
Proof.
  intros Hdirs Hin Hmissing Hrun. unfold _installed_jobs_from_dict in Hrun.
  rewrite Hdirs in Hrun. unfold bind at 1 in Hrun. unfold lift at 1 in Hrun.
  destruct (get_rows ConfigKeys.INSTALL_JOB config_dict) as [rows|e] eqn:Hrows.
  2:{ unfold get_rows, ill_shaped in Hrows.
      destruct (items config_dict !! ConfigKeys.INSTALL_JOB) as [[]|];
        injection Hrun as <- <-; split; intros; congruence. }
  unfold bind at 1 in Hrun.
  destruct (for_each install_job rows ([], []) s) as [[st1|e] s1] eqn:Hfiles.
  2:{ injection Hrun as <- <-.
      apply for_each_raise_inv in Hfiles as (acc1 & x & t & _ & Hstep).
      pose proof (install_job_raises _ _ _ _ _ Hstep) as Hne.
      split; [done|]. intros errs Heq. injection Heq as ->.
      by destruct (Hne errs). }
  rewrite bind_lift_ok in Hrun. unfold bind in Hrun.
  destruct (for_each install_job_directory directories st1 s1)
    as [[[errors jobs]|e] s2] eqn:Hloop.
  2:{ injection Hrun as <- <-.
      apply for_each_raise_inv in Hloop as (acc1 & x & t & _ & Hstep).
      pose proof (install_job_directory_raises _ _ _ _ _ Hstep) as Hne.
      split; [done|]. intros errs Heq. injection Heq as ->.
      by destruct (Hne errs). }
  set (c := Caught [ {| message := "Unable to locate job directory "
                                   +:+ py_repr job_path;
                        filename := None; context := None |} ]).
  assert (Hc : In c errors).
  { destruct (for_each_visits _ _ _ _ _ _ _ Hin Hloop)
      as (post & [errs1 jobs1] & t1 & acc2 & t2 & Hstep & Hpost & _).
    change errors with (fst (errors, jobs)). revert Hpost.
    apply (for_each_invariant (fun st (_ : state) => In c (fst st))).
    { intros acc x t acc' t' _. apply install_job_directory_keeps_errors. }
    unfold install_job_directory in Hstep. rewrite Hmissing in Hstep. simpl in Hstep.
    apply ret_ok_inv in Hstep as [-> _]. simpl. apply in_or_app. right. by left. }
  assert (Hflat : forall errs, from_collected errors = ConfigValidationError errs ->
                              In {| message := "Unable to locate job directory "
                                               +:+ py_repr job_path;
                                    filename := None; context := None |} errs).
  { intros errs [= <-]. apply in_flat_map. exists c. split; [exact Hc|]. by left. }
  destruct errors as [|c0 errors]; [done|].
  injection Hrun as <- <-. split; [done|].
  intros errs Heq. apply Hflat. by injection Heq as <-.
Qed.

Lemma install_empty_directories (directories : list string)
      (st : install_state) (s : state) :
  Forall (fun job_path =>
            isdir job_path = true
            /\ Forall (fun f => isfile (abspath (Path.join job_path f)) = false)
                      (listdir job_path)) directories ->
  for_each install_job_directory directories st s
  = (Ok st,
     mkState (store s)
             (warnings s ++
              map (fun job_path => "No files found in job directory " +:+ job_path)
                  directories)
             (logs s)).
Proof.
  intros Hempty. revert s. induction Hempty as [|job_path directories [Hdir Hfiles] _ IH];
    intros s.
  - simpl. rewrite app_nil_r. by destruct s.
  - assert (Hstep : install_job_directory st job_path s
                    = (Ok st, mkState (store s)
                                      (warnings s ++
                                       ["No files found in job directory "
                                        +:+ job_path])
                                      (logs s))).
    { destruct st as [errors jobs]. unfold install_job_directory.
      rewrite Hdir. simpl.
      replace (List.filter _ (listdir job_path)) with (@nil string); [done|].
      symmetry. induction Hfiles as [|f files Hf _ IHf]; [done|].
      simpl. by rewrite Hf. }
    rewrite (for_each_step _ _ _ _ _ _ _ Hstep), IH. simpl.
    by rewrite <- app_assoc.
Qed.

(** Job directories that exist and hold no regular file install nothing
    and are no error: with no INSTALL_JOB declaration the registry is
    empty, and each directory gives one warning, in declaration order; the
    store and the log are untouched. *)
Theorem empty_job_directories_only_warn (config_dict : ConfigDict)
        (directories : list string) (s : state) :
  get_rows ConfigKeys.INSTALL_JOB config_dict = Ok [] ->
  get_paths ConfigKeys.INSTALL_JOB_DIRECTORY config_dict = Ok directories ->
  Forall (fun job_path =>
            isdir job_path = true
            /\ Forall (fun f => isfile (abspath (Path.join job_path f)) = false)
                      (listdir job_path)) directories ->
  _installed_jobs_from_dict config_dict s
  = (Ok [],
     mkState (store s)
             (warnings s ++
              map (fun job_path => "No files found in job directory " +:+ job_path)
                  directories)
             (logs s)).
Proof.
  intros Hrows Hdirs Hempty. unfold _installed_jobs_from_dict.
  rewrite Hrows, Hdirs, !bind_lift_ok. simpl for_each at 1.
  unfold bind at 1. unfold ret at 1. rewrite bind_lift_ok.
  by rewrite (bind_step _ _ _ _ _ (install_empty_directories _ _ _ Hempty)).
Qed.

End RegistryErrors.

Section RegistryWitness.
Import Demo.

Lemma installed_jobs_denote_loaded_jobs_witness :
  exists jobs s',
    _installed_jobs_from_dict Scenario2.echo_config initial = (Ok jobs, s')
    /\ extends initial s'
    /\ registry_sound (store initial) (store s') jobs.
Proof.
  assert (Hrun : exists jobs s',
             _installed_jobs_from_dict Scenario2.echo_config initial = (Ok jobs, s')).
  { let outcome := eval vm_compute in
        (_installed_jobs_from_dict Scenario2.echo_config initial) in
    match outcome with
    | (Ok ?jobs, ?s') => exists jobs, s'
    end.
    reflexivity. }
  destruct Hrun as (jobs & s' & Hrun). exists jobs, s'. split; [exact Hrun|].
  exact (installed_jobs_denote_loaded_jobs (H1 := collaborators) _ _ _ _ Hrun).
Defined.

Lemma missing_job_directory_is_reported_witness :
  let outcome := _installed_jobs_from_dict Scenario7.missing_directory initial in
  (forall jobs, fst outcome <> Ok jobs)
  /\ (forall errors,
        fst outcome = Raise (ConfigValidationError errors) ->
        In {| message := "Unable to locate job directory " +:+ py_repr "/nowhere";
              filename := None; context := None |} errors).
Proof.
  intros outcome.
  apply (missing_job_directory_is_reported
           (H1 := collaborators) Scenario7.missing_directory
           ["/jobs"; "/nowhere"] "/nowhere" initial (snd outcome) (fst outcome)).
  - reflexivity.
  - right. by left.
  - reflexivity.
  - apply surjective_pairing.
Defined.

Lemma empty_job_directories_only_warn_witness :
  _installed_jobs_from_dict (H0 := Scenario7.bare_files)
                            Scenario7.empty_directories initial
  = (Ok [],
     mkState [] ["No files found in job directory /empty";
                 "No files found in job directory /attic"] []).
Proof.
  apply (empty_job_directories_only_warn
           (H0 := Scenario7.bare_files) (H1 := collaborators)
           Scenario7.empty_directories ["/empty"; "/attic"] initial).
  - reflexivity.
  - reflexivity.
  - repeat constructor.
Defined.

End RegistryWitness.

(** ** Workflows *)

Lemma only_warns_refl (s : state) : only_warns s s.
Proof. split; [done|]. split; [done|]. exists []. by rewrite app_nil_r. Qed.

Lemma only_warns_trans (s1 s2 s3 : state) :
  only_warns s1 s2 -> only_warns s2 s3 -> only_warns s1 s3.
Proof.
  intros (H1 & H2 & w1 & H3) (H4 & H5 & w2 & H6).
  split; [congruence|]. split; [congruence|].
  exists (w1 ++ w2). by rewrite H6, H3, app_assoc.
Qed.

Lemma warn_only_warns (msg : string) (s : state) :
  only_warns s (mkState (store s) (warnings s ++ [msg]) (logs s)).
Proof. split; [done|]. split; [done|]. by exists [msg]. Qed.

Lemma bind_only_warns {A B} (m : M A) (k : A -> M B) (s s' : state) (r : result B) :
  (forall r1 s1, m s = (r1, s1) -> only_warns s s1) ->
  (forall a s1 r2 s2, k a s1 = (r2, s2) -> only_warns s1 s2) ->
  bind m k s = (r, s') -> only_warns s s'.
Proof.
  intros Hm Hk. unfold bind. destruct (m s) as [[a|e] s1] eqn:Hrun.
  - intros Hrest. eapply only_warns_trans; [by eapply Hm|by eapply Hk].
  - intros [= <- <-]. by eapply Hm.
Qed.

Lemma lift_only_warns {A} (x : result A) (s s' : state) (r : result A) :
  lift x s = (r, s') -> only_warns s s'.
Proof. intros [= <- <-]. apply only_warns_refl. Qed.

Section WorkflowFrame.
Context `{PyBuiltins} `{FileSystem} `{Collaborators}.

Lemma load_workflow_job_only_warns (config_file : string) (job_name : option string)
      (on_error : string -> ErrorInfo)
      (st : list collected * Dict.t string WorkflowJob) (s s' : state)
      (r : result (list collected * Dict.t string WorkflowJob)) :
  load_workflow_job config_file job_name on_error st s = (r, s') ->
  only_warns s s'.
Proof.
  destruct st as [errors jobs]. unfold load_workflow_job.
  destruct (WorkflowJob_from_file config_file job_name) as [new_job|[]];
    try (intros [= <- <-]; apply only_warns_refl).
  intros [= <- <-]. apply warn_only_warns.
Qed.

Lemma load_declared_job_only_warns
      (st : list collected * Dict.t string WorkflowJob) (row : list string)
      (s s' : state) (r : result (list collected * Dict.t string WorkflowJob)) :
  load_declared_job st row s = (r, s') -> only_warns s s'.
Proof.
  unfold load_declared_job. destruct row as [|path rest].
  - intros [= <- <-]. apply only_warns_refl.
  - apply load_workflow_job_only_warns.
Qed.

Lemma load_job_directory_only_warns
      (st : list collected * Dict.t string WorkflowJob) (job_path : string)
      (s s' : state) (r : result (list collected * Dict.t string WorkflowJob)) :
  load_job_directory st job_path s = (r, s') -> only_warns s s'.
Proof.
  unfold load_job_directory. destruct (negb (isdir job_path)).
  - intros [= <- <-]. apply warn_only_warns.
  - apply (for_each_frame only_warns); [apply only_warns_refl|apply only_warns_trans|].
    intros ? ? ? ? ? _. apply load_workflow_job_only_warns.
Qed.

Lemma load_workflow_jobs_only_warns (content_dict : ConfigDict) (s s' : state)
      (r : result (list collected * Dict.t string WorkflowJob)) :
  load_workflow_jobs content_dict s = (r, s') -> only_warns s s'.
Proof.
  unfold load_workflow_jobs.
  apply bind_only_warns; [intros ? ?; apply lift_only_warns|]. intros rows s1 r1 s2.
  apply bind_only_warns; [intros ? ?; apply lift_only_warns|]. intros dirs s3 r3 s4.
  apply bind_only_warns.
  - intros ? ?. apply (for_each_frame only_warns); [apply only_warns_refl|apply only_warns_trans|].
    intros ? ? ? ? ? _. apply load_declared_job_only_warns.
  - intros st s5 r5 s6.
    apply (for_each_frame only_warns); [apply only_warns_refl|apply only_warns_trans|].
    intros ? ? ? ? ? _. apply load_job_directory_only_warns.
Qed.

Lemma load_workflow_only_warns (sl : SubstitutionList)
      (jobs : Dict.t string WorkflowJob) (workflows : Dict.t string Workflow)
      (work : list string) (s s' : state) (r : result (Dict.t string Workflow)) :
  load_workflow sl jobs workflows work s = (r, s') -> only_warns s s'.
Proof.
  unfold load_workflow.
  apply bind_only_warns; [intros ? ?; apply lift_only_warns|]. intros [path filename] s1 r1 s2.
  destruct (Workflow_from_file path sl jobs) as [workflow|[]];
    try (intros [= <- <-]; apply only_warns_refl).
  - destruct (Dict.mem filename workflows).
    + intros [= <- <-]. apply warn_only_warns.
    + intros [= <- <-]. apply only_warns_refl.
  - intros [= <- <-]. apply warn_only_warns.
Qed.

Lemma bind_hook_only_warns (workflows : Dict.t string Workflow)
      (st : list collected * hooks_t) (hook : list string) (s s' : state)
      (r : result (list collected * hooks_t)) :
  bind_hook workflows st hook s = (r, s') -> only_warns s s'.
Proof.
  destruct st as [errors hooked]. unfold bind_hook.
  apply bind_only_warns; [intros ? ?; apply lift_only_warns|]. intros [hook_name mode_name] s1 r1 s2.
  destruct (HookRuntime_attr mode_name) as [mode|].
  - destruct (Dict.get hook_name workflows);
      intros [= <- <-]; apply only_warns_refl.
  - intros [= <- <-]. apply only_warns_refl.
Qed.

Lemma workflows_from_dict_frame (content_dict : ConfigDict)
      (sl : SubstitutionList) (s s' : state)
      (r : result (Dict.t string WorkflowJob * Dict.t string Workflow * hooks_t)) :
  _workflows_from_dict content_dict sl s = (r, s') -> only_warns s s'.
Proof.
  unfold _workflows_from_dict.
  apply bind_only_warns; [intros ? ?; apply lift_only_warns|]. intros hooks s1 r1 s2.
  apply bind_only_warns; [intros ? ?; apply lift_only_warns|]. intros info s3 r3 s4.
  apply bind_only_warns; [intros ? ?; apply load_workflow_jobs_only_warns|].
  intros [errors jobs] s5 r5 s6.
  destruct errors; [|intros [= <- <-]; apply only_warns_refl].
  apply bind_only_warns.
  { intros ? ?. apply (for_each_frame only_warns); [apply only_warns_refl|apply only_warns_trans|].
    intros ? ? ? ? ? _. apply load_workflow_only_warns. }
  intros workflows s7 r7 s8.
  apply bind_only_warns.
  { intros ? ?. apply (for_each_frame only_warns); [apply only_warns_refl|apply only_warns_trans|].
    intros ? ? ? ? ? _. apply bind_hook_only_warns. }
  intros [errors hooked] s9 r9 s10.
  destruct errors; intros [= <- <-]; apply only_warns_refl.
Qed.

(** However it ends, [_workflows_from_dict] creates and modifies no object
    and logs nothing: all it does to the state is add warnings. *)
Theorem workflows_from_dict_only_warns (content_dict : ConfigDict)
        (sl : SubstitutionList) (s s' : state)
        (r : result (Dict.t string WorkflowJob * Dict.t string Workflow * hooks_t)) :
  _workflows_from_dict content_dict sl s = (r, s') ->
  store s' = store s
  /\ logs s' = logs s
  /\ exists messages, warnings s' = warnings s ++ messages.
Proof. apply workflows_from_dict_frame. Qed.

Lemma bind_hooks_in_order (workflows : Dict.t string Workflow)
      (hooks : list (list string)) :
  forall (errors0 errors : list collected) (hooked0 hooked : hooks_t)
         (s s' : state),
    for_each (bind_hook workflows) hooks (errors0, hooked0) s
    = (Ok (errors, hooked), s') ->
    exists more,
      errors = errors0 ++ more
      /\ (more = [] ->
          forall mode,
            default [] (Dict.get mode hooked)
            = default [] (Dict.get mode hooked0)
              ++ omap (bound_workflow workflows mode) hooks).
Proof.
  induction hooks as [|hook hooks IH]; intros errors0 errors hooked0 hooked s s' Hrun.
  - apply ret_ok_inv in Hrun as [[= -> ->] _]. exists []. rewrite !app_nil_r.
    split; [done|]. intros _ mode. simpl. by rewrite app_nil_r.
  - simpl in Hrun. apply bind_ok_inv in Hrun as ([errors1 hooked1] & s1 & Hstep & Hrun).
    apply IH in Hrun as (more & -> & Horder).
    unfold bind_hook in Hstep.
    apply bind_ok_inv in Hstep as ([hook_name mode_name] & s2 & Hpair & Hstep).
    lift_inv Hpair.
    assert (Hhook : hook = [hook_name; mode_name]).
    { destruct hook as [|a [|b [|c rest]]]; try discriminate. by injection Hpair as -> ->. }
    subst hook.
    destruct (HookRuntime_attr mode_name) as [mode|] eqn:Hmode.
    + destruct (Dict.get hook_name workflows) as [workflow|] eqn:Hworkflow.
      * apply ret_ok_inv in Hstep as [[= -> ->] _].
        exists more. split; [done|]. intros Hnil mode'.
        rewrite (Horder Hnil mode'). simpl. rewrite Hmode.
        destruct (decide (Some mode = Some mode')) as [[= ->]|Hne].
        -- rewrite dict_get_set_eq, Hworkflow. simpl. by rewrite <- app_assoc.
        -- rewrite dict_get_set_ne; [done|]. intros ->. done.
      * apply ret_ok_inv in Hstep as [[= -> ->] _].
        eexists. rewrite <- app_assoc. split; [reflexivity|]. discriminate.
    + apply ret_ok_inv in Hstep as [[= -> ->] _].
      eexists. rewrite <- app_assoc. split; [reflexivity|]. discriminate.
Qed.

(** When [_workflows_from_dict] returns, the workflows bound to a stage are
    those of the HOOK_WORKFLOW declarations naming that stage, one per
    declaration and in declaration order; a stage no declaration names has
    no workflow. *)
Theorem hooks_bound_in_declaration_order (content_dict : ConfigDict)
        (sl : SubstitutionList) (s s' : state) (hooks : list (list string))
        (jobs : Dict.t string WorkflowJob) (workflows : Dict.t string Workflow)
        (hooked : hooks_t) :
  _workflows_from_dict content_dict sl s = (Ok (jobs, workflows, hooked), s') ->
  get_rows ConfigKeys.HOOK_WORKFLOW content_dict = Ok hooks ->
  forall mode,
    default [] (Dict.get mode hooked) = omap (bound_workflow workflows mode) hooks.
Proof.
  intros Hrun Hhooks mode. unfold _workflows_from_dict in Hrun.
  rewrite Hhooks, bind_lift_ok in Hrun.
  apply bind_ok_inv in Hrun as (info & s1 & Hinfo & Hrun). lift_inv Hinfo.
  apply bind_ok_inv in Hrun as ([errors wj] & s2 & Hjobs & Hrun).
  destruct errors; [|discriminate].
  apply bind_ok_inv in Hrun as (wfs & s3 & Hwfs & Hrun).
  apply bind_ok_inv in Hrun as ([errors hk] & s4 & Hloop & Hrun).
  destruct errors; [|discriminate].
  apply ret_ok_inv in Hrun as [[= -> -> ->] _].
  apply bind_hooks_in_order in Hloop as (more & Hmore & Horder).
  symmetry in Hmore. simpl in Hmore. by rewrite (Horder Hmore mode).
Qed.

(** When [_workflows_from_dict] returns, every workflow it returns was
    loaded from the file of a LOAD_WORKFLOW declaration, under the name the
    declaration gives (the base name of the file when it gives none), with
    the substitution list passed in and the complete set of workflow jobs
    that is returned. *)
Theorem loaded_workflows_come_from_declarations (content_dict : ConfigDict)
        (sl : SubstitutionList) (s s' : state) (info : list (list string))
        (jobs : Dict.t string WorkflowJob) (workflows : Dict.t string Workflow)
        (hooked : hooks_t) :
  _workflows_from_dict content_dict sl s = (Ok (jobs, workflows, hooked), s') ->
  get_rows ConfigKeys.LOAD_WORKFLOW content_dict = Ok info ->
  forall workflow_name workflow,
    Dict.get workflow_name workflows = Some workflow ->
    exists path rest,
      In (path :: rest) info
      /\ workflow_name = declared_workflow_name path rest
      /\ Workflow_from_file path sl jobs = Ok workflow.
Proof.
  intros Hrun Hinfo. unfold _workflows_from_dict in Hrun.
  apply bind_ok_inv in Hrun as (hooks & s0 & Hhooks & Hrun). lift_inv Hhooks.
  rewrite Hinfo, bind_lift_ok in Hrun.
  apply bind_ok_inv in Hrun as ([errors wj] & s2 & Hjobs & Hrun).
  destruct errors; [|discriminate].
  apply bind_ok_inv in Hrun as (wfs & s3 & Hwfs & Hrun).
  apply bind_ok_inv in Hrun as ([errors hk] & s4 & Hloop & Hrun).
  destruct errors; [|discriminate].
  apply ret_ok_inv in Hrun as [[= <- <- <-] _].
  revert Hwfs.
  apply (for_each_invariant
           (fun (wfs : Dict.t string Workflow) (_ : state) =>
              forall workflow_name workflow,
                Dict.get workflow_name wfs = Some workflow ->
                exists path rest,
                  In (path :: rest) info
                  /\ workflow_name = declared_workflow_name path rest
                  /\ Workflow_from_file path sl jobs = Ok workflow));
    [|discriminate].
  intros acc work t acc' t' Hin Hacc Hstep. unfold load_workflow in Hstep.
  apply bind_ok_inv in Hstep as ([path filename] & t1 & Hnamed & Hstep).
  lift_inv Hnamed.
  assert (Hwork : exists rest, work = path :: rest
                               /\ filename = declared_workflow_name path rest).
  { destruct work as [|p [|f rest]]; try discriminate;
      injection Hnamed as <- <-; eexists; split; reflexivity. }
  destruct Hwork as (rest & -> & ->).
  destruct (Workflow_from_file path sl jobs) as [loaded|[]] eqn:Hload;
    try discriminate.
  - apply bind_ok_inv in Hstep as ([] & t2 & _ & Hstep).
    apply ret_ok_inv in Hstep as [-> _].
    intros workflow_name workflow Hget.
    destruct (decide (workflow_name = declared_workflow_name path rest)) as [->|Hne].
    + rewrite dict_get_set_eq in Hget. injection Hget as <-. eauto.
    + rewrite dict_get_set_ne in Hget by done. by apply Hacc.
  - apply bind_ok_inv in Hstep as ([] & t2 & _ & Hstep).
    apply ret_ok_inv in Hstep as [-> _]. exact Hacc.
Qed.

End WorkflowFrame.

Section WorkflowWitness.
Import Demo.

Lemma workflows_from_dict_only_warns_witness :
  let outcome := _workflows_from_dict Scenario3.dangling_hooks [] initial in
  store (snd outcome) = store initial
  /\ logs (snd outcome) = logs initial
  /\ exists messages, warnings (snd outcome) = warnings initial ++ messages.
Proof.
  intros outcome.
  apply (workflows_from_dict_only_warns
           (H1 := collaborators) Scenario3.dangling_hooks [] initial
           (snd outcome) (fst outcome)).
  apply surjective_pairing.
Defined.

Lemma hooks_bound_in_declaration_order_witness :
  exists jobs workflows hooked s',
    _workflows_from_dict Scenario8.three_hooks [] initial
    = (Ok (jobs, workflows, hooked), s')
    /\ default [] (Dict.get POST_SIMULATION hooked)
       = ["/workflows/cleanup"; "/workflows/export"]
    /\ default [] (Dict.get PRE_UPDATE hooked) = [].
Proof.
  assert (Hrun : exists jobs hooked s',
             _workflows_from_dict Scenario8.three_hooks [] initial
             = (Ok (jobs,
                    [("export", "/workflows/export"); ("tidy", "/workflows/cleanup")],
                    hooked), s')).
  { let outcome := eval vm_compute in
        (_workflows_from_dict Scenario8.three_hooks [] initial) in
    match outcome with
    | (Ok (?jobs, _, ?hooked), ?s') => exists jobs, hooked, s'
    end.
    reflexivity. }
  destruct Hrun as (jobs & hooked & s' & Hrun).
  exists jobs, [("export", "/workflows/export"); ("tidy", "/workflows/cleanup")],
         hooked, s'.
  split; [exact Hrun|].
  pose proof (hooks_bound_in_declaration_order
                (H1 := collaborators) Scenario8.three_hooks [] initial s'
                [["tidy"; "POST_SIMULATION"];
                 ["export"; "PRE_SIMULATION"];
                 ["export"; "POST_SIMULATION"]]
                jobs _ hooked Hrun eq_refl) as Horder.
  split.
  - exact (Horder POST_SIMULATION).
  - exact (Horder PRE_UPDATE).
Defined.

Lemma loaded_workflows_come_from_declarations_witness :
  exists jobs workflows hooked s',
    _workflows_from_dict Scenario8.three_hooks [] initial
    = (Ok (jobs, workflows, hooked), s')
    /\ Dict.get "tidy" workflows = Some "/workflows/cleanup"
    /\ exists path rest,
        In (path :: rest) [["/workflows/export"];
                           ["/broken/plot"];
                           ["/workflows/cleanup"; "tidy"]]
        /\ "tidy" = declared_workflow_name path rest
        /\ Workflow_from_file path [] jobs = Ok "/workflows/cleanup".
Proof.
  assert (Hrun : exists jobs workflows hooked s',
             _workflows_from_dict Scenario8.three_hooks [] initial
             = (Ok (jobs, workflows, hooked), s')
             /\ Dict.get "tidy" workflows = Some "/workflows/cleanup").
  { let outcome := eval vm_compute in
        (_workflows_from_dict Scenario8.three_hooks [] initial) in
    match outcome with
    | (Ok (?jobs, ?workflows, ?hooked), ?s') => exists jobs, workflows, hooked, s'
    end.
    split; reflexivity. }
  destruct Hrun as (jobs & workflows & hooked & s' & Hrun & Hget).
  exists jobs, workflows, hooked, s'. split; [exact Hrun|]. split; [exact Hget|].
  exact (loaded_workflows_come_from_declarations
           (H1 := collaborators) Scenario8.three_hooks [] initial s' _
           jobs workflows hooked Hrun eq_refl "tidy" "/workflows/cleanup" Hget).
Defined.

End WorkflowWitness.

(** ** The execution descriptor *)

Lemma only_logs_refl (s : state) : only_logs s s.
Proof. split; [done|]. split; [done|]. exists []. by rewrite app_nil_r. Qed.

Lemma only_logs_trans (s1 s2 s3 : state) :
  only_logs s1 s2 -> only_logs s2 s3 -> only_logs s1 s3.
Proof.
  intros (H1 & H2 & w1 & H3) (H4 & H5 & w2 & H6).
  split; [congruence|]. split; [congruence|].
  exists (w1 ++ w2). by rewrite H6, H3, app_assoc.
Qed.

Lemma log_only_logs (level msg : string) (s : state) :
  only_logs s (mkState (store s) (warnings s) (logs s ++ [(level, msg)])).
Proof. split; [done|]. split; [done|]. by eexists. Qed.

Lemma bind_only_logs {A B} (m : M A) (k : A -> M B) (s s' : state) (r : result B) :
  (forall r1 s1, m s = (r1, s1) -> only_logs s s1) ->
  (forall a s1 r2 s2, k a s1 = (r2, s2) -> only_logs s1 s2) ->
  bind m k s = (r, s') -> only_logs s s'.
Proof.
  intros Hm Hk. unfold bind. destruct (m s) as [[a|e] s1] eqn:Hrun.
  - intros Hrest. eapply only_logs_trans; [by eapply Hm|by eapply Hk].
  - intros [= <- <-]. by eapply Hm.
Qed.

Lemma enumerate_from_length {A} (idx : nat) (l : list A) :
  length (enumerate_from idx l) = length l.
Proof. revert idx. induction l as [|x l IH]; intros idx; simpl; [done|by rewrite IH]. Qed.

Lemma enumerate_from_lookup {A} (idx i : nat) (l : list A) (x : A) :
  l !! i = Some x -> enumerate_from idx l !! i = Some (idx + i, x).
Proof.
  revert idx i. induction l as [|y l IH]; intros idx [|i] Hi; try discriminate.
  - injection Hi as ->. simpl. by rewrite Nat.add_0_r.
  - simpl in Hi |- *. rewrite (IH (S idx) i Hi). f_equal. f_equal. lia.
Qed.

(** A loop that appends one result per element. *)
Lemma for_each_collect {X Y} (f : X -> M Y) (P : X -> Y -> Prop) (xs : list X) :
  (forall x s y s', f x s = (Ok y, s') -> P x y) ->
  forall acc s out s',
    for_each (fun acc x => let* y := f x in ret (acc ++ [y])) xs acc s
    = (Ok out, s') ->
    exists new, out = acc ++ new /\ Forall2 P xs new.
Proof.
  intros Hf. induction xs as [|x xs IH]; intros acc s out s' Hrun.
  - apply ret_ok_inv in Hrun as [-> _]. exists []. by rewrite app_nil_r.
  - simpl in Hrun. apply bind_ok_inv in Hrun as (acc1 & s1 & Hstep & Hrun).
    apply bind_ok_inv in Hstep as (y & s2 & Hy & Hstep).
    apply ret_ok_inv in Hstep as [-> ->].
    apply IH in Hrun as (new & -> & Hnew).
    exists (y :: new). rewrite <- app_assoc. split; [done|].
    constructor; [by eapply Hf|exact Hnew].
Qed.

Section DescriptorProperties.
Context `{PyBuiltins} `{FileSystem} `{Collaborators}.

Lemma read_snapshot_ok_inv (l : loc) (s s' : state) (job : ExtJob SubstitutionList) :
  read_snapshot l s = (Ok job, s') ->
  s' = s /\ snapshot (store s) l = Some job.
Proof.
  unfold read_snapshot, bind, read_job, read_subst, snapshot, dangling, raise, ret.
  destruct (store s !! l) as [[cell|]|]; try discriminate.
  destruct (store s !! private_args cell) as [[|d]|]; try discriminate.
  by intros [= <- <-].
Qed.

Lemma read_snapshots_ok_inv (locs : list loc) :
  forall (acc jobs : list (ExtJob SubstitutionList)) (s s' : state),
    for_each (fun acc l => let* job := read_snapshot l in ret (acc ++ [job]))
             locs acc s = (Ok jobs, s') ->
    s' = s
    /\ exists new, jobs = acc ++ new
                   /\ Forall2 (fun l job => snapshot (store s) l = Some job) locs new.
Proof.
  induction locs as [|l locs IH]; intros acc jobs s s' Hrun.
  - apply ret_ok_inv in Hrun as [-> ->]. split; [done|]. exists [].
    by rewrite app_nil_r.
  - simpl in Hrun. apply bind_ok_inv in Hrun as (acc1 & s1 & Hstep & Hrun).
    apply bind_ok_inv in Hstep as (job & s2 & Hjob & Hstep).
    apply ret_ok_inv in Hstep as [-> ->].
    apply read_snapshot_ok_inv in Hjob as [-> Hjob].
    apply IH in Hrun as (-> & new & -> & Hnew). split; [done|].
    exists (job :: new). rewrite <- app_assoc. split; [done|]. by constructor.
Qed.

Lemma filter_env_dict_only_logs (context : SubstitutionList) (iens itr : Z)
      (self : Substituter) (d : Dict.t string (option string)) (s s' : state)
      (r : result (option (Dict.t string (option string)))) :
  filter_env_dict context iens itr self d s = (r, s') -> only_logs s s'.
Proof.
  unfold filter_env_dict. apply bind_only_logs.
  - intros ? ?. apply (for_each_frame only_logs);
      [apply only_logs_refl|apply only_logs_trans|].
    intros acc [key value] t r0 t' _. unfold filter_env_item.
    destruct (Substituter_substitute_opt context iens itr self value) as [new_value|];
      [|intros [= <- <-]; apply only_logs_refl].
    destruct (Str.first new_value), (Str.last new_value);
      try (intros [= <- <-]; apply only_logs_refl).
    destruct (negb _); intros [= <- <-];
      [apply only_logs_refl|apply log_only_logs].
  - intros [|] ? ? ? [= <- <-]; apply only_logs_refl.
Qed.

Lemma job_to_json_only_logs (context : SubstitutionList) (iens itr : Z)
      (idx : nat) (job : ExtJob SubstitutionList) (s s' : state)
      (r : result job_json) :
  job_to_json context iens itr idx job s = (r, s') -> only_logs s s'.
Proof.
  unfold job_to_json.
  apply bind_only_logs; [intros ? ?; apply filter_env_dict_only_logs|].
  intros env s1 r1 s2.
  apply bind_only_logs; [intros ? ?; apply filter_env_dict_only_logs|].
  intros exec s3 r3 s4 [= <- <-]. apply only_logs_refl.
Qed.

Lemma job_to_json_describes (context : SubstitutionList) (iens itr : Z)
      (idx : nat) (job : ExtJob SubstitutionList) (s s' : state) (j : job_json) :
  job_to_json context iens itr idx job s = (Ok j, s') -> describes idx job j.
Proof.
  unfold job_to_json. intros Hrun.
  apply bind_ok_inv in Hrun as (env & s1 & _ & Hrun).
  apply bind_ok_inv in Hrun as (exec & s2 & _ & Hrun).
  apply ret_ok_inv in Hrun as [-> _]. unfold describes. simpl.
  repeat split; try reflexivity.
  - by rewrite length_map.
  - intros out Hout. destruct (nonempty (stdout_file job)); [|discriminate].
    destruct (stdout_file job) as [f|]; [|discriminate].
    injection Hout as <-. by eexists.
  - intros err Herr. destruct (nonempty (stderr_file job)); [|discriminate].
    destruct (stderr_file job) as [f|]; [|discriminate].
    injection Herr as <-. by eexists.
Qed.

Lemma report_shadowing_only_logs (context : SubstitutionList)
      (job : ExtJob SubstitutionList) (s s' : state) (r : result unit) :
  report_shadowing context job s = (r, s') -> only_logs s s'.
Proof.
  unfold report_shadowing. apply bind_only_logs.
  - intros ? ?. apply (for_each_frame only_logs);
      [apply only_logs_refl|apply only_logs_trans|].
    intros [] [key val] t r0 t' _.
    destruct (Dict.get key context) as [global|];
      [|intros [= <- <-]; apply only_logs_refl].
    destruct (negb (String.eqb key val)); intros [= <- <-];
      [apply log_only_logs|apply only_logs_refl].
  - intros ? ? ? ? [= <- <-]. apply only_logs_refl.
Qed.

(** When [forward_model_data_to_json] returns a descriptor, its job list
    has one entry per job of the forward model, in order; the entry at
    position [i] describes the job the [i]-th reference denotes: time and
    argument limits and argument types are taken over unsubstituted, there
    is one argument per argument of the job, and the standard output and
    error files, when present, carry the suffix [.i].  The environment, the
    run identifier and the process identifier are passed through.  The call
    creates and modifies no object and emits no warning; it only logs. *)
Theorem forward_model_data_to_json_describes_every_job (self : ErtConfig)
        (id : string) (iens itr : Z) (s s' : state) (d : descriptor) :
  forward_model_data_to_json self id iens itr s = (Ok d, s') ->
  only_logs s s'
  /\ global_environment d = env_vars self
  /\ run_id d = id
  /\ ert_pid d = getpid
  /\ exists jobs,
      Forall2 (fun l job => snapshot (store s) l = Some job)
              (forward_model_list self) jobs
      /\ Forall2 (fun ij j => describes (fst ij) (snd ij) j)
                 (enumerate_from 0 jobs) (jobList d).
Proof.
  intros Hrun. unfold forward_model_data_to_json in Hrun.
  apply bind_ok_inv in Hrun as (jobs & s1 & Hjobs & Hrun).
  apply read_snapshots_ok_inv in Hjobs as (-> & new & -> & Hjobs). simpl in *.
  apply bind_ok_inv in Hrun as ([] & s2 & Hreport & Hrun).
  apply bind_ok_inv in Hrun as (job_list & s3 & Hlist & Hrun).
  apply ret_ok_inv in Hrun as [-> ->]. simpl.
  split; [|split; [done|split; [done|split; [done|]]]].
  - apply (only_logs_trans s s2 s3).
    + eapply (for_each_frame only_logs);
        [apply only_logs_refl|apply only_logs_trans| |exact Hreport].
      intros ? ? ? ? ? _. apply report_shadowing_only_logs.
    + eapply (for_each_frame only_logs);
        [apply only_logs_refl|apply only_logs_trans| |exact Hlist].
      intros acc ij t r0 t' _.
      apply bind_only_logs; [intros ? ?; apply job_to_json_only_logs|].
      intros ? ? ? ? [= <- <-]. apply only_logs_refl.
  - exists new. split; [exact Hjobs|].
    apply (for_each_collect
             (fun ij => job_to_json (substitution_list self) iens itr (fst ij) (snd ij))
             (fun ij j => describes (fst ij) (snd ij) j)) in Hlist.
    + by destruct Hlist as (out & -> & Hout).
    + intros ij t j t'. apply job_to_json_describes.
Qed.

End DescriptorProperties.

Section DescriptorWitness.
Import Demo.

Lemma forward_model_data_to_json_describes_every_job_witness :
  exists d s',
    forward_model_data_to_json Scenario.quiet "run-1" 3 0 Scenario5.echo_state
    = (Ok d, s')
    /\ only_logs Scenario5.echo_state s'
    /\ length (jobList d) = 1.
Proof.
  assert (Hrun : exists d s',
             forward_model_data_to_json Scenario.quiet "run-1" 3 0
                                        Scenario5.echo_state
             = (Ok d, s')).
  { let outcome := eval vm_compute in
        (forward_model_data_to_json Scenario.quiet "run-1" 3 0
                                    Scenario5.echo_state) in
    match outcome with
    | (Ok ?d, ?s') => exists d, s'
    end.
    reflexivity. }
  destruct Hrun as (d & s' & Hrun). exists d, s'. split; [exact Hrun|].
  destruct (forward_model_data_to_json_describes_every_job
              (H1 := collaborators) _ _ _ _ _ _ _ Hrun)
    as (Hframe & _ & _ & _ & jobs & Hjobs & Hlist).
  split; [exact Hframe|].
  apply Forall2_length in Hlist, Hjobs.
  rewrite <- Hlist, enumerate_from_length, <- Hjobs. reflexivity.
Defined.

End DescriptorWitness.

(** ** Environment variables *)

Lemma unpack2_ok_inv {A} (row : list A) (a b : A) :
  unpack2 row = Ok (a, b) -> row = [a; b].
Proof.
  destruct row as [|x [|y [|z rest]]]; try discriminate. by intros [= -> ->].
Qed.

Lemma setenv_fold (rows : list (list string)) :
  forall env0 env : Dict.t string string,
    fold_result (fun env_vars row =>
                   and_then (unpack2 row) (fun kv =>
                   Ok (Dict.set (fst kv) (snd kv) env_vars)))
                rows env0
    = Ok env ->
    Forall (fun row => length row = 2) rows
    /\ forall key value,
        Dict.get key env = Some value
        <-> (exists before after,
                rows = before ++ [key; value] :: after
                /\ Forall (fun row => head row <> Some key) after)
            \/ (Dict.get key env0 = Some value
                /\ Forall (fun row => head row <> Some key) rows).
Proof.
  induction rows as [|row rows IH]; intros env0 env Hfold.
  - injection Hfold as <-. split; [constructor|]. intros key value. split.
    + intros Hget. right. by split.
    + intros [(before & after & Hrows & _)|[Hget _]]; [|exact Hget].
      by destruct before.
  - simpl in Hfold. destruct (unpack2 row) as [[k v]|e] eqn:Hrow; [|discriminate].
    apply unpack2_ok_inv in Hrow as ->. simpl in Hfold.
    apply IH in Hfold as [Hshape Hget]. split; [by constructor|].
    intros key value. rewrite Hget. split.
    + intros [(before & after & -> & Hafter)|[Hkey Hrest]].
      * left. exists ([k; v] :: before), after. by split.
      * destruct (decide (key = k)) as [->|Hne].
        -- rewrite dict_get_set_eq in Hkey. injection Hkey as ->.
           left. exists [], rows. by split.
        -- rewrite dict_get_set_ne in Hkey by done. right. split; [done|].
           constructor; [|done]. simpl. congruence.
    + intros [(before & after & Hrows & Hafter)|[Hkey Hrest]].
      * destruct before as [|first before].
        -- injection Hrows as -> -> ->. right. split; [|done].
           apply dict_get_set_eq.
        -- injection Hrows as <- ->. left. by exists before, after.
      * apply Forall_cons in Hrest as [Hhead Hrest]. simpl in Hhead.
        right. split; [|done]. rewrite dict_get_set_ne; [done|]. congruence.
Qed.

Section Environment.
Context `{PyBuiltins} `{FileSystem} `{Collaborators}.

(** In a configuration [from_dict] returns, an environment variable has
    the value of the last SETENV declaration of its name, and only declared
    variables are set; every SETENV declaration has a name and a value. *)
Theorem setenv_last_declaration_wins (config_dict : ConfigDict)
        (s s' : state) (cfg : ErtConfig) (rows : list (list string)) :
  from_dict config_dict s = (Ok cfg, s') ->
  get_rows "SETENV" config_dict = Ok rows ->
  Forall (fun row => length row = 2) rows
  /\ forall key value,
      Dict.get key (env_vars cfg) = Some value
      <-> exists before after,
            rows = before ++ [key; value] :: after
            /\ Forall (fun row => head row <> Some key) after.
Proof.
  intros Hrun Hrows.
  apply from_dict_fields in Hrun
    as (_ & _ & setenv & _ & _ & _ & _ & _ & _ & Hsetenv & Hfold).
  rewrite Hrows in Hsetenv. injection Hsetenv as <-.
  apply setenv_fold in Hfold as [Hshape Hget]. split; [exact Hshape|].
  intros key value. rewrite Hget. split; [|by left].
  intros [Hleft|[Hnone _]]; [exact Hleft|discriminate].
Qed.

End Environment.

Section EnvironmentWitness.
Import Demo.

Lemma setenv_last_declaration_wins_witness :
  exists cfg s',
    from_dict Scenario9.environment_and_templates initial = (Ok cfg, s')
    /\ Dict.get "PATH" (env_vars cfg) = Some "/usr/bin".
Proof.
  assert (Hrun : exists cfg s',
             from_dict Scenario9.environment_and_templates initial = (Ok cfg, s')).
  { let outcome := eval vm_compute in
        (from_dict Scenario9.environment_and_templates initial) in
    match outcome with
    | (Ok ?cfg, ?s') => exists cfg, s'
    end.
    reflexivity. }
  destruct Hrun as (cfg & s' & Hrun). exists cfg, s'. split; [exact Hrun|].
  destruct (setenv_last_declaration_wins
              (H1 := collaborators) Scenario9.environment_and_templates
              initial s' cfg
              [["PATH"; "/bin"]; ["LANG"; "C"]; ["PATH"; "/usr/bin"]]
              Hrun eq_refl) as [_ Hget].
  apply Hget. exists [["PATH"; "/bin"]; ["LANG"; "C"]], []. split; [reflexivity|].
  constructor.
Defined.

End EnvironmentWitness.

(** ** Templates *)

Lemma and_then_ok_inv {A B} (r : result A) (k : A -> result B) (b : B) :
  and_then r k = Ok b -> exists a, r = Ok a /\ k a = Ok b.
Proof. destruct r as [a|e]; [eauto|discriminate]. Qed.

Section Templates.
Context `{PyBuiltins} `{FileSystem} `{Collaborators}.

Lemma from_dict_templates (config_dict : ConfigDict) (s s' : state) (cfg : ErtConfig) :
  from_dict config_dict s = (Ok cfg, s') ->
  _read_templates config_dict = Ok (ert_templates cfg).
Proof.
  intros Hrun. unfold from_dict in Hrun.
  bind_inv Hrun. lift_inv Hm.
  bind_inv Hrun. lift_inv Hm0.
  bind_inv Hrun. lift_inv Hm1.
  destruct (map Info (a0 ++ a1)) as [|e errors] eqn:Hgate; [|discriminate].
  bind_inv Hrun. destruct a2 as [ensemble l].
  destruct (loaded_errors l) as [|e errors] eqn:Hclean; [|discriminate].
  repeat (let a := fresh "v" in
          let s := fresh "t" in
          let Hm := fresh "Hstep" in
          apply bind_ok_inv in Hrun; destruct Hrun as (a & s & Hm & Hrun);
          try (apply lift_ok_inv in Hm; destruct Hm as [Hm ->])).
  apply ret_ok_inv in Hrun as [-> ->]. simpl. assumption.
Qed.

(** The templates of a loaded configuration are the RUN_TEMPLATE
    declarations in order.  When both DATA_FILE and ECLBASE are declared,
    they are preceded by the template of the data file, whose target is the
    ECLBASE with [%d] replaced by [<IENS>] and [.DATA] appended, and the data
    file has been read as UTF-8; a DATA_FILE without ECLBASE is ignored. *)
Theorem loaded_templates_spec (config_dict : ConfigDict)
        (s s' : state) (cfg : ErtConfig) :
  from_dict config_dict s = (Ok cfg, s') ->
  exists run_templates,
    get_rows ConfigKeys.RUN_TEMPLATE config_dict = Ok run_templates
    /\ match items config_dict !! ConfigKeys.DATA_FILE,
             items config_dict !! ConfigKeys.ECLBASE with
       | Some (Single source_file), Some (Single eclbase) =>
           read_utf8 source_file = ReadOk
           /\ ert_templates cfg
              = [source_file; Str.replace "%d" "<IENS>" eclbase +:+ ".DATA"]
                  :: run_templates
       | Some _, Some _ => False
       | _, _ => ert_templates cfg = run_templates
       end.
Proof.
  intros Hrun. apply from_dict_templates in Hrun.
  unfold _read_templates in Hrun.
  apply and_then_ok_inv in Hrun as (templates & Hfirst & Hrun).
  apply and_then_ok_inv in Hrun as (run_templates & Hrows & Hrun).
  injection Hrun as <-. exists run_templates. split; [exact Hrows|].
  unfold has_key, get_single, ill_shaped, check_non_utf_chars in Hfirst.
  destruct (items config_dict !! ConfigKeys.DATA_FILE) as [data|] eqn:Hdata;
    destruct (items config_dict !! ConfigKeys.ECLBASE) as [ecl|] eqn:Hecl;
    simpl in Hfirst.
  - rewrite ?bool_decide_eq_true_2 in Hfirst by eauto. simpl in Hfirst.
    destruct data as [source_file| | |]; simpl in Hfirst; try discriminate.
    destruct ecl as [eclbase| | |]; simpl in Hfirst; try discriminate.
    destruct (read_utf8 source_file); simpl in Hfirst; try discriminate.
    injection Hfirst as <-. done.
  - rewrite ?(bool_decide_eq_false_2 (is_Some None)) in Hfirst by (intros [? ?]; done).
    rewrite ?andb_false_r in Hfirst. simpl in Hfirst. injection Hfirst as <-.
    by destruct data.
  - rewrite ?(bool_decide_eq_false_2 (is_Some None)) in Hfirst by (intros [? ?]; done).
    simpl in Hfirst. by injection Hfirst as <-.
  - rewrite ?(bool_decide_eq_false_2 (is_Some None)) in Hfirst by (intros [? ?]; done).
    simpl in Hfirst. by injection Hfirst as <-.
Qed.

End Templates.

Section TemplatesWitness.
Import Demo.

Lemma loaded_templates_spec_witness :
  exists cfg s',
    from_dict Scenario9.environment_and_templates initial = (Ok cfg, s')
    /\ ert_templates cfg = [["/work/CASE.DATA"; "CASE-<IENS>.DATA"];
                            ["params.tmpl"; "params.json"]].
Proof.
  assert (Hrun : exists cfg s',
             from_dict Scenario9.environment_and_templates initial = (Ok cfg, s')).
  { let outcome := eval vm_compute in
        (from_dict Scenario9.environment_and_templates initial) in
    match outcome with
    | (Ok ?cfg, ?s') => exists cfg, s'
    end.
    reflexivity. }
  destruct Hrun as (cfg & s' & Hrun). exists cfg, s'. split; [exact Hrun|].
  destruct (loaded_templates_spec (H1 := collaborators) _ _ _ _ Hrun)
    as (run_templates & Hrows & Hcase).
  injection Hrows as <-.
  change (items Scenario9.environment_and_templates !! ConfigKeys.DATA_FILE)
    with (Some (Single "/work/CASE.DATA")) in Hcase.
  change (items Scenario9.environment_and_templates !! ConfigKeys.ECLBASE)
    with (Some (Single "CASE-%d")) in Hcase.
  destruct Hcase as [_ Htemplates]. rewrite Htemplates. reflexivity.
Defined.

End TemplatesWitness.

(** ** A MAX_RUNNING option with two values *)

Lemma fold_result_append_raises {X E} (f : X -> result (list E))
      (before after : list X) (x : X) (per : list (list E)) (acc : list E) (e : exn) :
  Forall2 (fun x errs => f x = Ok errs) before per ->
  f x = Raise e ->
  fold_result (fun errors x => and_then (f x) (fun new => Ok (errors ++ new)))
              (before ++ x :: after) acc
  = Raise e.
Proof.
  intros Hbefore Hx. revert acc.
  induction Hbefore as [|y errs before per Hy _ IH]; intros acc; simpl.
  - by rewrite Hx.
  - rewrite Hy. simpl. apply IH.
Qed.

Section TwoValues.
Context `{PyBuiltins} `{FileSystem} `{Collaborators}.

Lemma max_running_errors_total (config_path : string) (entry : list string) :
  length entry = 2 \/ length entry = 3 ->
  exists errs, max_running_errors config_path entry = Ok errs.
Proof.
  intros Hshape. unfold max_running_errors.
  destruct entry as [|queue [|option_name [|value [|extra rest]]]];
    try (simpl in Hshape; lia).
  - destruct (String.eqb option_name "MAX_RUNNING"); by eexists.
  - destruct (String.eqb option_name "MAX_RUNNING"); [|by eexists].
    destruct (py_int value) as [n|]; [|by eexists].
    destruct (n <? 0)%Z; by eexists.
Qed.

(** A QUEUE_OPTION MAX_RUNNING entry with two values is not reported as a
    configuration error: the validation raises a [TypeError], whatever the
    values and whatever follows the entry, even when earlier entries are
    in error, and so [from_dict] returns no configuration. *)
Theorem max_running_with_two_values_raises_type_error
        (config_dict : ConfigDict) (config_path queue v1 v2 : string)
        (before after : list (list string)) :
  get_rows "QUEUE_OPTION" config_dict
  = Ok (before ++ [queue; "MAX_RUNNING"; v1; v2] :: after) ->
  Forall (fun entry => length entry = 2 \/ length entry = 3) before ->
  _validate_queue_option_max_running config_path config_dict
  = Raise (TypeError "'str' object cannot be interpreted as an integer")
  /\ forall s cfg s', from_dict config_dict s <> (Ok cfg, s').
Proof.
  intros Hrows Hshape.
  assert (Hraise : forall path,
             _validate_queue_option_max_running path config_dict
             = Raise (TypeError "'str' object cannot be interpreted as an integer")).
  { intros path. unfold _validate_queue_option_max_running. rewrite Hrows. simpl.
    assert (Hper : exists per,
               Forall2 (fun entry errs => max_running_errors path entry = Ok errs)
                       before per).
    { clear Hrows. induction Hshape as [|entry before Hentry _ [per IH]].
      - exists []. constructor.
      - destruct (max_running_errors_total path entry Hentry) as [errs Herrs].
        exists (errs :: per). by constructor. }
    destruct Hper as [per Hper].
    by apply (fold_result_append_raises (max_running_errors path) before after _ per). }
  split; [apply Hraise|].
  intros s cfg s' Hrun. apply from_dict_ok_inv in Hrun. cbv zeta in Hrun.
  destruct Hrun as (_ & Hqueue & _). by rewrite Hraise in Hqueue.
Qed.

End TwoValues.

Section TwoValuesWitness.
Import Demo.

Lemma max_running_with_two_values_raises_type_error_witness :
  _validate_queue_option_max_running "demo.ert" Scenario9.two_limits
  = Raise (TypeError "'str' object cannot be interpreted as an integer")
  /\ forall s cfg s', from_dict Scenario9.two_limits s <> (Ok cfg, s').
Proof.
  apply (max_running_with_two_values_raises_type_error
           (H1 := collaborators) Scenario9.two_limits "demo.ert" "LSF" "10" "20"
           [["LOCAL"; "MAX_RUNNING"; "4"]] [["LSF"; "MAX_RUNNING"; "many"]]).
  - reflexivity.
  - constructor; [by right|constructor].
Defined.

End TwoValuesWitness.

(** ** Logging the configuration file *)

Lemma str_app_cons (c : ascii) (a b : string) :
  String c a +:+ b = String c (a +:+ b).
Proof. reflexivity. Qed.

Lemma str_app_nil_l (s : string) : EmptyString +:+ s = s.
Proof. reflexivity. Qed.

Lemma str_app_nil_r (s : string) : s +:+ EmptyString = s.
Proof. induction s as [|c s IH]; [done|]. by rewrite str_app_cons, IH. Qed.

Lemma str_app_assoc (a b c : string) : (a +:+ b) +:+ c = a +:+ (b +:+ c).
Proof. induction a as [|x a IH]; [done|]. by rewrite !str_app_cons, IH. Qed.

Lemma startswith_app (p a b : string) :
  Str.startswith p a = true -> Str.startswith p (a +:+ b) = true.
Proof.
  revert a. induction p as [|x p IH]; intros a; [done|].
  destruct a as [|y a]; simpl; [discriminate|].
  destruct (Ascii.eqb x y); [apply IH|discriminate].
Qed.

Lemma contains_unfold (p s : string) :
  Str.contains p s
  = if Str.startswith p s then true
    else match s with
         | EmptyString => false
         | String _ s' => Str.contains p s'
         end.
Proof. by destruct s. Qed.

Lemma contains_app (p a b : string) :
  Str.contains p a = true -> Str.contains p (a +:+ b) = true.
Proof.
  induction a as [|c a IH]; intros Ha.
  - rewrite contains_unfold in Ha.
    destruct (Str.startswith p EmptyString) eqn:Hp; [|discriminate].
    destruct p; [|discriminate]. by destruct b.
  - rewrite contains_unfold in Ha. rewrite contains_unfold.
    destruct (Str.startswith p (String c a)) eqn:Hp.
    + by rewrite (startswith_app _ _ b Hp).
    + destruct (Str.startswith p (String c a +:+ b)); [done|]. by apply IH.
Qed.

Lemma text_before_cons (sep : string) (c : ascii) (s : string) :
  text_before sep (String c s)
  = if Str.startswith sep (String c s) then EmptyString
    else String c (text_before sep s).
Proof. reflexivity. Qed.

Lemma text_before_prefix (sep s : string) :
  exists rest, s = text_before sep s +:+ rest.
Proof.
  induction s as [|c s [rest IH]]; [by exists EmptyString|].
  simpl text_before. destruct (Str.startswith sep (String c s)).
  - by exists (String c s).
  - exists rest. by rewrite str_app_cons, <- IH.
Qed.

Lemma contains_text_before (sep s : string) :
  sep <> EmptyString -> Str.contains sep (text_before sep s) = false.
Proof.
  intros Hsep. induction s as [|c s IH].
  - destruct sep; [done|reflexivity].
  - simpl text_before. destruct (Str.startswith sep (String c s)) eqn:Hstart.
    + destruct sep; [done|reflexivity].
    + rewrite contains_unfold, IH.
      destruct (Str.startswith sep (String c (text_before sep s))) eqn:Hb; [|done].
      destruct (text_before_prefix sep s) as [rest Hrest].
      apply (startswith_app _ _ rest) in Hb. rewrite str_app_cons, <- Hrest in Hb.
      congruence.
Qed.

Lemma hd_split_from (sep s cur : string) :
  hd EmptyString (PyStr.split_from sep 0 cur s) = cur +:+ text_before sep s.
Proof.
  revert cur. induction s as [|c s IH]; intros cur.
  - simpl. by rewrite str_app_nil_r.
  - simpl PyStr.split_from. simpl text_before.
    destruct (Str.startswith sep (String c s)).
    + simpl. by rewrite str_app_nil_r.
    + rewrite IH. by rewrite str_app_assoc.
Qed.

Lemma lstrip_first (s : string) (c : ascii) :
  Str.first (PyStr.lstrip s) = Some c -> PyStr.isspace c = false.
Proof.
  induction s as [|x s IH]; [discriminate|]. simpl.
  destruct (PyStr.isspace x) eqn:Hx; [exact IH|]. simpl. by intros [= <-].
Qed.

Lemma rstrip_unfold (c : ascii) (s : string) :
  PyStr.rstrip (String c s)
  = match PyStr.rstrip s with
    | EmptyString => if PyStr.isspace c then EmptyString else String c EmptyString
    | rest => String c rest
    end.
Proof. reflexivity. Qed.

Lemma rstrip_last (s : string) (c : ascii) :
  Str.last (PyStr.rstrip s) = Some c -> PyStr.isspace c = false.
Proof.
  induction s as [|x s IH]; [discriminate|]. rewrite rstrip_unfold.
  destruct (PyStr.rstrip s) as [|y rest] eqn:Hrest.
  - destruct (PyStr.isspace x) eqn:Hx; [discriminate|]. simpl. by intros [= <-].
  - exact IH.
Qed.

Lemma rstrip_prefix (s : string) : exists rest, s = PyStr.rstrip s +:+ rest.
Proof.
  induction s as [|x s [rest IH]]; [by exists EmptyString|]. rewrite rstrip_unfold.
  destruct (PyStr.rstrip s) as [|y kept] eqn:Hkept.
  - destruct (PyStr.isspace x).
    + by exists (String x s).
    + exists s. reflexivity.
  - exists rest. by rewrite str_app_cons, <- IH.
Qed.

Lemma rstrip_first (s : string) (c : ascii) :
  Str.first s = Some c -> PyStr.isspace c = false ->
  Str.first (PyStr.rstrip s) = Some c.
Proof.
  destruct s as [|x s]; [discriminate|]. intros [= ->] Hc. rewrite rstrip_unfold.
  destruct (PyStr.rstrip s); [by rewrite Hc|done].
Qed.

Lemma first_app (a b : string) (c : ascii) :
  Str.first a = Some c -> Str.first (a +:+ b) = Some c.
Proof. by destruct a. Qed.

Lemma strip_first (s : string) (c : ascii) :
  Str.first (PyStr.strip s) = Some c -> PyStr.isspace c = false.
Proof.
  unfold PyStr.strip. intros Hfirst. apply (lstrip_first s).
  destruct (rstrip_prefix (PyStr.lstrip s)) as [rest Hrest].
  rewrite Hrest. by apply first_app.
Qed.

Lemma existsb_contains_false (words : list string) (l : string) :
  existsb (fun w => Str.contains w l) words = false ->
  Forall (fun w => Str.contains w l = false) words.
Proof.
  induction words as [|w words IH]; [constructor|]. simpl.
  intros [Hw Hrest]%orb_false_elim. constructor; [exact Hw|by apply IH].
Qed.

Lemma existsb_contains_true (words : list string) (l : string) :
  existsb (fun w => Str.contains w l) words = true ->
  Exists (fun w => Str.contains w l = true) words.
Proof.
  induction words as [|w words IH]; [discriminate|]. simpl.
  intros [Hw|Hrest]%orb_true_elim; [by left|right; by apply IH].
Qed.

(** What one line of the file contributes to the logged text. *)
Lemma log_line_cases (config_context raw : string) :
  log_line config_context raw = config_context
  \/ exists l rest,
      log_line config_context raw = config_context +:+ l +:+ newline
      /\ clean_line l
      /\ PyStr.strip raw = l +:+ rest.
Proof.
  unfold log_line. remember (PyStr.strip raw) as line eqn:Hstrip.
  assert (Hfirst : forall c, Str.first line = Some c -> PyStr.isspace c = false)
    by (intros c; rewrite Hstrip; apply strip_first).
  assert (Hlast : forall c, Str.last line = Some c -> PyStr.isspace c = false)
    by (intros c; rewrite Hstrip; apply rstrip_last).
  clear Hstrip.
  destruct (String.eqb line "" || Str.startswith "--" line) eqn:Hskip; [by left|].
  apply orb_false_elim in Hskip as [Hempty Hcomment].
  apply String.eqb_neq in Hempty.
  destruct (Str.contains "--" line
            && negb (existsb (fun x => Str.contains x line) quotes)) eqn:Hcut.
  - set (cut := PyStr.rstrip (hd "" (PyStr.split "--" line))).
    destruct (existsb (fun kw => Str.contains kw cut) unlogged_keywords) eqn:Hkw;
      [by left|right].
    assert (Hhead : hd "" (PyStr.split "--" line) = text_before "--" line).
    { unfold PyStr.split. by rewrite hd_split_from. }
    destruct (rstrip_prefix (text_before "--" line)) as [rest1 Hrest1].
    destruct (text_before_prefix "--" line) as [rest2 Hrest2].
    assert (Hnone : Str.contains "--" cut = false).
    { unfold cut. rewrite Hhead.
      destruct (Str.contains "--" (PyStr.rstrip (text_before "--" line))) eqn:Hc;
        [|done].
      apply (contains_app _ _ rest1) in Hc. rewrite <- Hrest1 in Hc.
      by rewrite contains_text_before in Hc. }
    assert (Hc : exists c, Str.first cut = Some c /\ PyStr.isspace c = false).
    { destruct line as [|c tail] eqn:Hline; [done|]. exists c.
      assert (Hsp : PyStr.isspace c = false) by by apply Hfirst.
      split; [|exact Hsp]. unfold cut. rewrite Hhead. apply rstrip_first; [|exact Hsp].
      by rewrite text_before_cons, Hcomment. }
    destruct Hc as (c & Hc & Hsp).
    exists cut, (rest1 +:+ rest2). split; [done|]. split.
    + split; [by destruct cut|]. split.
      { rewrite contains_unfold in Hnone.
        by destruct (Str.startswith "--" cut). }
      split; [by apply existsb_contains_false|].
      split; [by rewrite Hnone|]. split.
      * intros c' Hc'. rewrite Hc in Hc'. by injection Hc' as <-.
      * intros c'. apply rstrip_last.
    + rewrite <- str_app_assoc. unfold cut. rewrite Hhead, <- Hrest1. exact Hrest2.
  - destruct (existsb (fun kw => Str.contains kw line) unlogged_keywords) eqn:Hkw;
      [by left|right].
    exists line, EmptyString. split; [done|]. split; [|by rewrite str_app_nil_r].
    split; [done|]. split; [done|]. split; [by apply existsb_contains_false|].
    split; [|by split].
    intros Hdash. rewrite Hdash in Hcut. simpl in Hcut.
    apply negb_false_iff in Hcut. by apply existsb_contains_true.
Qed.

Lemma log_lines_spec (lines : list string) :
  forall config_context,
  exists kept,
    fold_left log_line lines config_context = config_context +:+ lines_text kept
    /\ length kept <= length lines
    /\ Forall clean_line kept
    /\ Forall (fun l => exists raw rest,
                   In raw lines /\ PyStr.strip raw = l +:+ rest) kept.
Proof.
  induction lines as [|raw lines IH]; intros config_context.
  - exists []. simpl. rewrite str_app_nil_r. repeat split; constructor.
  - simpl fold_left.
    destruct (log_line_cases config_context raw)
      as [->|(l & rest & -> & Hclean & Hraw)].
    + destruct (IH config_context) as (kept & Hfold & Hlen & Hall & Hfrom).
      exists kept. split; [exact Hfold|]. split; [simpl; lia|]. split; [exact Hall|].
      eapply Forall_impl; [exact Hfrom|].
      intros x (r & t & Hin & Hx). exists r, t. split; [by right|exact Hx].
    + destruct (IH (config_context +:+ l +:+ newline))
        as (kept & Hfold & Hlen & Hall & Hfrom).
      exists (l :: kept). split.
      { rewrite Hfold. simpl. by rewrite !str_app_assoc. }
      split; [simpl; lia|]. split; [by constructor|]. constructor.
      * exists raw, rest. split; [by left|exact Hraw].
      * eapply Forall_impl; [exact Hfrom|].
        intros x (r & t & Hin & Hx). exists r, t. split; [by right|exact Hx].
Qed.

Section ConfigLog.
Context `{PyBuiltins} `{FileSystem} `{Collaborators} `{ConfigSource}.

(** For a configuration file that can be read, [_log_config_file] logs one
    record, at level INFO: a header naming the file, followed by the lines
    it lets through, each ended by a line feed.  Every such line is the
    beginning of a line of the file stripped of surrounding white space, is
    not empty, does not start a comment, carries no white space at either
    end, names none of FORWARD_MODEL, LOAD_WORKFLOW, LOAD_WORKFLOW_JOB,
    HOOK_WORKFLOW and WORKFLOW_JOB_DIRECTORY, and holds [--] only if it also
    holds a quote.  Nothing else in the state changes. *)
Theorem log_config_file_keeps_clean_lines (config_file : string)
        (lines : list string) (s : state) :
  isfile config_file = true ->
  open_lines config_file = Ok lines ->
  exists kept,
    _log_config_file (Some config_file) s
    = (Ok tt,
       mkState (store s) (warnings s)
               (logs s ++
                [("INFO",
                  "Content of the configuration file (" +:+ config_file
                  +:+ "):" +:+ newline +:+ lines_text kept)]))
    /\ length kept <= length lines
    /\ Forall clean_line kept
    /\ Forall (fun l => exists raw rest,
                   In raw lines /\ PyStr.strip raw = l +:+ rest) kept.
Proof.
  intros Hfile Hlines. unfold _log_config_file. rewrite Hfile, Hlines, bind_lift_ok.
  destruct (log_lines_spec lines "") as (kept & Hfold & Hlen & Hclean & Hfrom).
  exists kept. rewrite Hfold. by repeat split.
Qed.

(** [_log_config_dict] logs one record, at level INFO, made of a header and
    [str] of a dictionary that has the entries of the configuration
    dictionary except those of the five keywords kept out of the log.
    Nothing else in the state changes. *)
Theorem log_config_dict_omits_workflow_keys (content_dict : ConfigDict) (s : state) :
  exists tmp_dict,
    _log_config_dict content_dict s
    = (Ok tt,
       mkState (store s) (warnings s)
               (logs s ++
                [("INFO", "Content of the config_dict: " +:+ py_str_dict tmp_dict)]))
    /\ (forall keyword, In keyword unlogged_keywords -> tmp_dict !! keyword = None)
    /\ (forall keyword, ~ In keyword unlogged_keywords ->
                        tmp_dict !! keyword = items content_dict !! keyword).
Proof.
  eexists. split; [reflexivity|]. split.
  - intros keyword Hin. simpl in Hin.
    destruct Hin as [<-|[<-|[<-|[<-|[<-|[]]]]]];
      repeat first [apply lookup_delete_eq | rewrite lookup_delete_ne by done].
  - intros keyword Hout. simpl in Hout.
    repeat (rewrite lookup_delete_ne; [|intros <-; apply Hout; tauto]).
    reflexivity.
Qed.

End ConfigLog.

Section ConfigLogWitness.
Import Demo.

Lemma log_config_file_keeps_clean_lines_witness :
  exists kept,
    _log_config_file (H0 := Scenario10.project_files) (H2 := Scenario10.source)
                     (Some "cases/demo.ert") initial
    = (Ok tt,
       mkState [] []
               [("INFO",
                 "Content of the configuration file (cases/demo.ert):"
                 +:+ newline +:+ lines_text kept)])
    /\ length kept <= 8
    /\ Forall clean_line kept.
Proof.
  destruct (log_config_file_keeps_clean_lines
              (H0 := Scenario10.project_files) (H2 := Scenario10.source)
              "cases/demo.ert" Scenario10.demo_lines initial eq_refl eq_refl)
    as (kept & Hrun & Hlen & Hclean & _).
  exists kept. split; [exact Hrun|]. split; [exact Hlen|exact Hclean].
Defined.

End ConfigLogWitness.

(** ** What is logged, and when *)

Lemma same_logs_refl (s : state) : same_logs s s.
Proof. reflexivity. Qed.

Lemma same_logs_trans (s1 s2 s3 : state) :
  same_logs s1 s2 -> same_logs s2 s3 -> same_logs s1 s3.
Proof. unfold same_logs. congruence. Qed.

Lemma bind_same_logs {A B} (m : M A) (k : A -> M B) (s s' : state) (r : result B) :
  (forall r1 s1, m s = (r1, s1) -> same_logs s s1) ->
  (forall a s1 r2 s2, k a s1 = (r2, s2) -> same_logs s1 s2) ->
  bind m k s = (r, s') -> same_logs s s'.
Proof.
  intros Hm Hk. unfold bind. destruct (m s) as [[a|e] s1] eqn:Hrun.
  - intros Hrest. eapply same_logs_trans; [by eapply Hm|by eapply Hk].
  - intros [= <- <-]. by eapply Hm.
Qed.

Lemma try_config_same_logs {A} (m : M A) (s s' : state)
      (r : result (A + list ErrorInfo)) :
  (forall r0 s0, m s = (r0, s0) -> same_logs s s0) ->
  try_config m s = (r, s') -> same_logs s s'.
Proof.
  intros Hm. unfold try_config. destruct (m s) as [[a|[]] s1] eqn:Hrun;
    intros [= <- <-]; by eapply Hm.
Qed.

Create HintDb same_logs.

(** The operations on the store and [warn] leave the log alone. *)
Ltac same_logs_step :=
  unfold read_job, read_subst, write, alloc, warn, dangling, raise, ret, lift;
  repeat case_match; intros [= <- <-]; reflexivity.

(** A computation built from such operations, loops and calls of functions
    known to leave the log alone, leaves the log alone. *)
Ltac same_logs_frame :=
  cbv beta zeta;
  lazymatch goal with
  | |- bind _ _ _ = _ -> same_logs _ _ =>
      apply bind_same_logs;
      [intros ? ?; same_logs_frame | intros ? ? ? ?; same_logs_frame]
  | |- for_each _ _ _ _ = _ -> same_logs _ _ =>
      apply (for_each_frame same_logs);
      [apply same_logs_refl | apply same_logs_trans
       | intros ? ? ? ? ? _; same_logs_frame]
  | |- try_config _ _ = _ -> same_logs _ _ =>
      apply try_config_same_logs; intros ? ?; same_logs_frame
  | |- (match ?x with _ => _ end) _ = _ -> same_logs _ _ =>
      destruct x; same_logs_frame
  | |- _ => first [ solve [eauto with same_logs] | solve [same_logs_step] ]
  end.

Lemma deepcopy_same_logs (l : loc) (s s' : state) (r : result loc) :
  deepcopy l s = (r, s') -> same_logs s s'.
Proof. unfold deepcopy. same_logs_frame. Qed.

Lemma allocate_job_same_logs (j : ExtJob SubstitutionList) (s s' : state)
      (r : result loc) :
  allocate_job j s = (r, s') -> same_logs s s'.
Proof. unfold allocate_job. same_logs_frame. Qed.

#[local] Hint Resolve deepcopy_same_logs allocate_job_same_logs : same_logs.

Section Silence.
Context `{PyBuiltins} `{FileSystem} `{Collaborators}.

Lemma setitem_same_logs (p : loc) (key val : string) (s s' : state)
      (r : result unit) :
  setitem p key val s = (r, s') -> same_logs s s'.
Proof. unfold setitem. same_logs_frame. Qed.

#[local] Hint Resolve setitem_same_logs : same_logs.

Lemma fill_private_args_same_logs (p : loc) (args : fm_item) (s s' : state)
      (r : result (option string)) :
  fill_private_args p args s = (r, s') -> same_logs s s'.
Proof. unfold fill_private_args. same_logs_frame. Qed.

#[local] Hint Resolve fill_private_args_same_logs : same_logs.

Lemma resolve_forward_model_same_logs (installed_jobs : Dict.t string loc)
      (sl : SubstitutionList) (config_file : string) (st : fm_state)
      (job : list fm_item) (s s' : state) (r : result fm_state) :
  resolve_forward_model installed_jobs sl config_file st job s = (r, s') ->
  same_logs s s'.
Proof. unfold resolve_forward_model. same_logs_frame. Qed.

Lemma resolve_simulation_job_same_logs (installed_jobs : Dict.t string loc)
      (config_file : string) (st : fm_state) (job_description : list string)
      (s s' : state) (r : result fm_state) :
  resolve_simulation_job installed_jobs config_file st job_description s = (r, s') ->
  same_logs s s'.
Proof. unfold resolve_simulation_job. same_logs_frame. Qed.

#[local] Hint Resolve resolve_forward_model_same_logs
  resolve_simulation_job_same_logs : same_logs.

Lemma read_forward_model_same_logs (installed_jobs : Dict.t string loc)
      (sl : SubstitutionList) (config_dict : ConfigDict) (config_file : string)
      (s s' : state) (r : result (list loc)) :
  read_forward_model installed_jobs sl config_dict config_file s = (r, s') ->
  same_logs s s'.
Proof. unfold read_forward_model, resolve_all. same_logs_frame. Qed.

Lemma register_job_same_logs (job_name source : string)
      (new_job : ExtJob SubstitutionList) (jobs : Dict.t string loc)
      (s s' : state) (r : result (Dict.t string loc)) :
  register_job job_name source new_job jobs s = (r, s') -> same_logs s s'.
Proof. unfold register_job. same_logs_frame. Qed.

#[local] Hint Resolve register_job_same_logs : same_logs.

Lemma installed_jobs_same_logs (config_dict : ConfigDict) (s s' : state)
      (r : result (Dict.t string loc)) :
  _installed_jobs_from_dict config_dict s = (r, s') -> same_logs s s'.
Proof.
  unfold _installed_jobs_from_dict, install_job_directory, install_job,
    install_job_file.
  same_logs_frame.
Qed.

Lemma workflows_same_logs (content_dict : ConfigDict) (sl : SubstitutionList)
      (s s' : state)
      (r : result (Dict.t string WorkflowJob * Dict.t string Workflow * hooks_t)) :
  _workflows_from_dict content_dict sl s = (r, s') -> same_logs s s'.
Proof. intros Hrun. by destruct (workflows_from_dict_frame _ _ _ _ _ Hrun) as (_ & ? & _). Qed.

#[local] Hint Resolve read_forward_model_same_logs installed_jobs_same_logs
  workflows_same_logs : same_logs.

Lemma from_dict_same_logs (config_dict : ConfigDict) (s s' : state)
      (r : result ErtConfig) :
  from_dict config_dict s = (r, s') -> same_logs s s'.
Proof. unfold from_dict, load_phases. same_logs_frame. Qed.

(** [from_dict] never logs: however it ends, the log is what it was. *)
Theorem from_dict_never_logs (config_dict : ConfigDict) (s s' : state)
        (r : result ErtConfig) :
  from_dict config_dict s = (r, s') -> logs s' = logs s.
Proof. apply from_dict_same_logs. Qed.

End Silence.

Section FileLog.
Context `{PyBuiltins} `{FileSystem} `{Collaborators} `{ConfigSource}.

(** All that [from_file] logs is logged before the dictionary is loaded,
    and in a fixed order.  When the parser raises, nothing is logged.
    Otherwise, when the path is a regular file that cannot be read, the
    exception of the read leaves [from_file] and nothing is logged.
    Otherwise the record of the file (only when the path is a regular file)
    and then the record of the dictionary are appended to the log, both at
    level INFO and with nothing else changed, and only then are the defaults
    injected and the dictionary loaded: [from_dict] runs in the state that
    holds both records, its outcome is the outcome of [from_file], and it
    leaves the log as it found it. *)
Theorem from_file_logs_before_loading (user_config_file : string)
        (s s' : state) (r : result ErtConfig) :
  from_file user_config_file s = (r, s') ->
  match read_user_config user_config_file with
  | Raise e => r = Raise e /\ s' = s
  | Ok user_config_dict =>
      (isfile user_config_file = true
       /\ exists e, open_lines user_config_file = Raise e
                    /\ r = Raise e /\ s' = s)
      \/ exists file_records,
          (if isfile user_config_file
           then exists lines,
                  open_lines user_config_file = Ok lines
                  /\ file_records = [file_record user_config_file lines]
           else file_records = [])
          /\ Forall (fun record => fst record = "INFO")
                    (file_records ++ [dict_record user_config_dict])
          /\ let logged :=
                mkState (store s) (warnings s)
                        (logs s ++ file_records ++ [dict_record user_config_dict]) in
             match apply_config_content_defaults
                     user_config_dict (abspath (Path.dirname user_config_file)) with
             | Raise e => r = Raise e /\ s' = logged
             | Ok content_dict =>
                 from_dict content_dict logged = (r, s')
                 /\ logs s' = logs logged
             end
  end.
Proof.
  unfold from_file. unfold bind at 1. unfold lift at 1.
  destruct (read_user_config user_config_file) as [user_config_dict|e];
    [|by intros [= <- <-]].
  unfold bind at 1. unfold _log_config_file.
  destruct (isfile user_config_file) eqn:Hfile.
  - unfold bind at 1. unfold lift at 1.
    destruct (open_lines user_config_file) as [lines|e] eqn:Hlines.
    2:{ intros [= <- <-]. left. split; [done|]. by exists e. }
    unfold log at 1. unfold bind at 1. unfold _log_config_dict at 1.
    unfold log at 1. cbn [store warnings logs].
    intros Hrun. right. exists [file_record user_config_file lines].
    split; [by exists lines|]. split; [by repeat constructor|]. cbv zeta.
    rewrite <- app_assoc in Hrun. fold (file_record user_config_file lines) in Hrun.
    fold (dict_record user_config_dict) in Hrun.
    unfold bind at 1 in Hrun. unfold lift at 1 in Hrun.
    destruct (apply_config_content_defaults user_config_dict
                (abspath (Path.dirname user_config_file))) as [content_dict|e].
    + split; [exact Hrun|]. by apply from_dict_same_logs in Hrun.
    + by injection Hrun as <- <-.
  - unfold ret at 1. unfold bind at 1. unfold _log_config_dict at 1.
    unfold log at 1.
    intros Hrun. right. exists []. split; [done|].
    split; [by repeat constructor|]. cbv zeta.
    fold (dict_record user_config_dict) in Hrun.
    unfold bind at 1 in Hrun. unfold lift at 1 in Hrun.
    destruct (apply_config_content_defaults user_config_dict
                (abspath (Path.dirname user_config_file))) as [content_dict|e].
    + split; [exact Hrun|]. by apply from_dict_same_logs in Hrun.
    + by injection Hrun as <- <-.
Qed.

End FileLog.

Section FileLogWitness.
Import Demo.

Lemma from_dict_never_logs_witness :
  let outcome := from_dict Scenario3.dangling_hooks initial in
  logs (snd outcome) = logs initial.
Proof.
  intros outcome.
  apply (from_dict_never_logs (H1 := collaborators) Scenario3.dangling_hooks
                              initial (snd outcome) (fst outcome)).
  apply surjective_pairing.
Defined.

Lemma from_file_logs_before_loading_witness :
  exists cfg s',
    from_file (H0 := Scenario10.project_files) (H2 := Scenario10.source)
              "cases/demo.ert" initial = (Ok cfg, s')
    /\ logs s'
       = [file_record "cases/demo.ert" Scenario10.demo_lines;
          dict_record (H := Scenario10.source) Scenario6.with_parser_warnings].
Proof.
  assert (Hrun : exists cfg s',
             from_file (H0 := Scenario10.project_files) (H2 := Scenario10.source)
                       "cases/demo.ert" initial
             = (Ok cfg, s')).
  { let outcome := eval vm_compute in
        (from_file (H0 := Scenario10.project_files) (H2 := Scenario10.source)
                   "cases/demo.ert" initial) in
    match outcome with
    | (Ok ?cfg, ?s') => exists cfg, s'
    end.
    reflexivity. }
  destruct Hrun as (cfg & s' & Hrun). exists cfg, s'. split; [exact Hrun|].
  pose proof (from_file_logs_before_loading
                (H0 := Scenario10.project_files) (H1 := collaborators)
                (H2 := Scenario10.source) "cases/demo.ert" initial s' (Ok cfg) Hrun)
    as Hlog.
  change (read_user_config "cases/demo.ert")
    with (Ok Scenario6.with_parser_warnings) in Hlog.
  cbv iota in Hlog.
  destruct Hlog as [(_ & e & Hread & _)|(file_records & Hfile & _ & Hrest)];
    [discriminate Hread|].
  change (isfile "cases/demo.ert") with true in Hfile. cbv iota in Hfile.
  destruct Hfile as (lines & [= <-] & ->). cbv zeta in Hrest.
  destruct (apply_config_content_defaults
              Scenario6.with_parser_warnings (abspath (Path.dirname "cases/demo.ert")))
    as [content_dict|e].
  - destruct Hrest as [_ ->]. reflexivity.
  - by destruct Hrest as [? _].
Defined.

End FileLogWitness.

(** ** GEN_KW declarations *)

Lemma first_columns_from (rows : list (list string)) (acc : list string) :
  Forall (fun row => row <> []) rows ->
  fold_result (fun acc row => match row with
                              | first :: _ => Ok (acc ++ [first])
                              | [] => Raise (IndexError "list index out of range")
                              end) rows acc
  = Ok (acc ++ map (hd "") rows).
Proof.
  intros Hrows. revert acc. induction Hrows as [|row rows Hrow _ IH]; intros acc.
  - simpl. by rewrite app_nil_r.
  - destruct row as [|first rest]; [done|]. simpl. rewrite IH.
    by rewrite <- app_assoc.
Qed.

Lemma declarations_of_declared (kw_id : string) (gen_kw : list (list string)) :
  In kw_id (map (hd "") gen_kw) ->
  Forall (fun row => row <> []) gen_kw ->
  declarations_of kw_id gen_kw <> [].
Proof.
  intros Hin Hrows. induction Hrows as [|row rows Hrow _ IH]; [done|].
  destruct row as [|first rest]; [done|]. unfold declarations_of. simpl.
  destruct (String.eqb_spec first kw_id) as [->|Hne]; [done|].
  apply IH. destruct Hin as [Hin|Hin]; [done|exact Hin].
Qed.

Section GenKw.
Context `{PyBuiltins} `{FileSystem} `{Collaborators}.

Lemma gen_kw_errors_duplicate (config_file kw_id : string)
      (gen_kw : list (list string)) :
  2 <= length (declarations_of kw_id gen_kw) ->
  gen_kw_errors config_file gen_kw kw_id
  = Raise (ConfigValidationError_of
             ("Found two GEN_KW " +:+ kw_id +:+ " declarations") None).
Proof.
  intros Htwo. unfold gen_kw_errors, find_first_gen_kw_arg.
  fold (declarations_of kw_id gen_kw).
  destruct (declarations_of kw_id gen_kw) as [|a [|b rest]]; simpl in Htwo; try lia.
  reflexivity.
Qed.

Lemma gen_kw_errors_single (config_file kw_id : string)
      (gen_kw : list (list string)) :
  length (declarations_of kw_id gen_kw) = 1 ->
  exists errors, gen_kw_errors config_file gen_kw kw_id = Ok errors.
Proof.
  intros Hone. unfold gen_kw_errors, find_first_gen_kw_arg.
  fold (declarations_of kw_id gen_kw).
  destruct (declarations_of kw_id gen_kw) as [|a [|b rest]]; simpl in Hone; try lia.
  simpl. by eexists.
Qed.

Lemma gen_kw_loop_duplicate (config_file : string) (gen_kw : list (list string))
      (ids : list string) :
  Forall (fun row => row <> []) gen_kw ->
  (forall x, In x ids -> In x (map (hd "") gen_kw)) ->
  (exists kw_id, In kw_id ids /\ 2 <= length (declarations_of kw_id gen_kw)) ->
  forall errors,
  exists duplicate,
    2 <= length (declarations_of duplicate gen_kw)
    /\ fold_result
         (fun errors kw_id =>
            and_then (gen_kw_errors config_file gen_kw kw_id)
                     (fun new => Ok (errors ++ new)))
         ids errors
       = Raise (ConfigValidationError_of
                  ("Found two GEN_KW " +:+ duplicate +:+ " declarations") None).
Proof.
  intros Hrows. induction ids as [|kw_id ids IH]; intros Hdeclared Hdup errors.
  - by destruct Hdup as (? & [] & _).
  - destruct (le_lt_dec 2 (length (declarations_of kw_id gen_kw))) as [Htwo|Hone].
    + exists kw_id. split; [exact Htwo|]. simpl.
      by rewrite gen_kw_errors_duplicate.
    + assert (Hsingle : length (declarations_of kw_id gen_kw) = 1).
      { pose proof (declarations_of_declared kw_id gen_kw
                      (Hdeclared kw_id (or_introl eq_refl)) Hrows) as Hnil.
        destruct (declarations_of kw_id gen_kw); [done|]. simpl in *. lia. }
      destruct (gen_kw_errors_single config_file kw_id gen_kw Hsingle)
        as [new Hnew].
      simpl. rewrite Hnew. simpl. apply IH.
      * intros x Hx. apply Hdeclared. by right.
      * destruct Hdup as (dup & [->|Hin] & Htwo); [lia|]. by exists dup.
Qed.

(** An identifier declared by two GEN_KW entries is not collected with the
    other errors: provided the set of identifiers is iterated over its
    elements, whatever their order, [_validate_ensemble_config] raises a
    [ConfigValidationError] for one identifier that is declared twice,
    dropping what it has collected for the identifiers before it, and
    [from_dict] returns no configuration. *)
Theorem duplicate_gen_kw_is_raised_not_collected (config_file : string)
        (config_dict : ConfigDict) (gen_kw : list (list string)) (kw_id : string) :
  get_rows "GEN_KW" config_dict = Ok gen_kw ->
  Forall (fun row => row <> []) gen_kw ->
  (forall x, In x (py_set_order (map (hd "") gen_kw))
             <-> In x (map (hd "") gen_kw)) ->
  2 <= length (declarations_of kw_id gen_kw) ->
  exists duplicate,
    2 <= length (declarations_of duplicate gen_kw)
    /\ _validate_ensemble_config config_file config_dict
       = Raise (ConfigValidationError
                  [ {| message := "Found two GEN_KW " +:+ duplicate
                                  +:+ " declarations";
                       filename := None; context := None |} ])
    /\ forall s cfg s', from_dict config_dict s <> (Ok cfg, s').
Proof.
  intros Hget Hrows Hset Htwo.
  assert (Hin : In kw_id (map (hd "") gen_kw)).
  { clear -Htwo. induction gen_kw as [|row rows IH]; [simpl in Htwo; lia|].
    unfold declarations_of in Htwo. simpl in Htwo.
    destruct row as [|first rest]; [right; by apply IH|].
    destruct (String.eqb_spec first kw_id) as [->|Hne]; [by left|].
    right. by apply IH. }
  assert (Hraise : forall file,
             exists duplicate,
               2 <= length (declarations_of duplicate gen_kw)
               /\ _validate_ensemble_config file config_dict
                  = Raise (ConfigValidationError_of
                             ("Found two GEN_KW " +:+ duplicate +:+ " declarations")
                             None)).
  { intros file. unfold _validate_ensemble_config, first_columns.
    rewrite Hget. simpl and_then at 1.
    rewrite (first_columns_from gen_kw [] Hrows). simpl and_then at 1.
    apply gen_kw_loop_duplicate; [exact Hrows| |].
    - intros x. apply Hset.
    - exists kw_id. split; [by apply Hset|exact Htwo]. }
  destruct (Hraise config_file) as (duplicate & Hdup & Hrun).
  exists duplicate. split; [exact Hdup|]. split; [exact Hrun|].
  intros s cfg s' Hok. apply from_dict_ok_inv in Hok. cbv zeta in Hok.
  destruct Hok as (_ & _ & _ & Hvalid & _).
  destruct (Hraise (default "no_config"
              (Dict.get "<CONFIG_FILE>"
                 (Dict.set "<RUNPATH_FILE>" (runpath_file cfg)
                           (SubstitutionList_from_dict config_dict)))))
    as (? & _ & Hbad).
  by rewrite Hbad in Hvalid.
Qed.

End GenKw.

Section GenKwWitness.
Import Demo.

Lemma duplicate_gen_kw_is_raised_not_collected_witness :
  exists duplicate,
    2 <= length (declarations_of duplicate
                   [["PORO"; "poro.tmpl"; "poro.txt"; "poro.dist"];
                    ["SIGMA"; "sigma.tmpl"; "coarse.sigma"; "sigma.dist"];
                    ["SIGMA"; "sigma.tmpl"; "fine.sigma"; "sigma.dist";
                     "INIT_FILES:sigma_%d"]])
    /\ _validate_ensemble_config "demo.ert" Scenario11.sigma_twice
       = Raise (ConfigValidationError
                  [ {| message := "Found two GEN_KW " +:+ duplicate
                                  +:+ " declarations";
                       filename := None; context := None |} ]).
Proof.
  destruct (duplicate_gen_kw_is_raised_not_collected
              (H1 := collaborators) "demo.ert" Scenario11.sigma_twice
              [["PORO"; "poro.tmpl"; "poro.txt"; "poro.dist"];
               ["SIGMA"; "sigma.tmpl"; "coarse.sigma"; "sigma.dist"];
               ["SIGMA"; "sigma.tmpl"; "fine.sigma"; "sigma.dist";
                "INIT_FILES:sigma_%d"]]
              "SIGMA")
    as (duplicate & Hdup & Hrun & _).
  - reflexivity.
  - repeat constructor; discriminate.
  - intros x. simpl. tauto.
  - simpl. lia.
  - exists duplicate. split; [exact Hdup|exact Hrun].
Defined.

End GenKwWitness.

(** ** The jobs of a loaded configuration *)

Lemma same_kinds_refl (s : state) : same_kinds s s.
Proof. intros l. split; eauto. Qed.

Lemma same_kinds_trans (s1 s2 s3 : state) :
  same_kinds s1 s2 -> same_kinds s2 s3 -> same_kinds s1 s3.
Proof.
  intros H12 H23 l. split.
  - intros j Hj. destruct (proj1 (H12 l) j Hj) as [j' Hj'].
    exact (proj1 (H23 l) j' Hj').
  - intros d Hd. destruct (proj2 (H12 l) d Hd) as [d' Hd'].
    exact (proj2 (H23 l) d' Hd').
Qed.

Lemma live_job_kept (s s' : state) (l : loc) :
  same_kinds s s' -> live_job s l -> live_job s' l.
Proof. intros Hkinds [j Hj]. exact (proj1 (Hkinds l) j Hj). Qed.

Lemma alloc_ok_inv (o : obj) (s s' : state) (l : loc) :
  alloc o s = (Ok l, s') ->
  l = length (store s)
  /\ store s' = store s ++ [o]
  /\ same_kinds s s'.
Proof.
  unfold alloc. intros [= <- <-]. simpl. split; [done|]. split; [done|].
  intros l. split; intros x Hx; eexists; simpl; by apply lookup_app_l_Some.
Qed.

Lemma read_job_ok_inv (l : loc) (s s' : state) (j : ExtJob loc) :
  read_job l s = (Ok j, s') -> s' = s /\ store s !! l = Some (OJob j).
Proof.
  unfold read_job, dangling, raise.
  destruct (store s !! l) as [[cell|]|]; try discriminate. by intros [= <- <-].
Qed.

Lemma read_subst_ok_inv (l : loc) (s s' : state) (d : SubstitutionList) :
  read_subst l s = (Ok d, s') -> s' = s /\ store s !! l = Some (OSubst d).
Proof.
  unfold read_subst, dangling, raise.
  destruct (store s !! l) as [[|cell]|]; try discriminate. by intros [= <- <-].
Qed.

Lemma write_job_same_kinds (l : loc) (j j' : ExtJob loc) (s s' : state) (u : unit) :
  store s !! l = Some (OJob j) ->
  write l (OJob j') s = (Ok u, s') ->
  same_kinds s s' /\ live_job s' l.
Proof.
  intros Hl [= <- <-]. apply lookup_lt_Some in Hl as Hlt. split.
  - intros x. cbn [store]. destruct (decide (x = l)) as [->|Hne].
    + rewrite list_lookup_insert_eq by done. split; [eauto|]. intros d Hd. congruence.
    + rewrite list_lookup_insert_ne by done. split; eauto.
  - exists j'. cbn [store]. by rewrite list_lookup_insert_eq.
Qed.

Lemma write_subst_same_kinds (l : loc) (d d' : SubstitutionList) (s s' : state)
      (u : unit) :
  store s !! l = Some (OSubst d) ->
  write l (OSubst d') s = (Ok u, s') ->
  same_kinds s s'.
Proof.
  intros Hl [= <- <-]. apply lookup_lt_Some in Hl as Hlt.
  intros x. cbn [store]. destruct (decide (x = l)) as [->|Hne].
  - rewrite list_lookup_insert_eq by done. split; [|eauto]. intros j Hj. congruence.
  - rewrite list_lookup_insert_ne by done. split; eauto.
Qed.

Lemma deepcopy_ok_inv (l l' : loc) (s s' : state) :
  deepcopy l s = (Ok l', s') -> same_kinds s s' /\ live_job s' l'.
Proof.
  unfold deepcopy. intros Hrun.
  apply bind_ok_inv in Hrun as (j & s1 & Hj & Hrun).
  apply read_job_ok_inv in Hj as [-> Hj].
  apply bind_ok_inv in Hrun as (d & s1 & Hd & Hrun).
  apply read_subst_ok_inv in Hd as [-> Hd].
  apply bind_ok_inv in Hrun as (p & s1 & Hp & Hrun).
  apply alloc_ok_inv in Hp as (-> & Hstore1 & Hkinds1).
  apply alloc_ok_inv in Hrun as (-> & Hstore2 & Hkinds2).
  split; [by eapply same_kinds_trans|].
  eexists. rewrite Hstore2. by apply list_lookup_middle.
Qed.

Section LiveJobs.
Context `{PyBuiltins} `{FileSystem} `{Collaborators}.

Lemma setitem_ok_inv (p : loc) (key val : string) (s s' : state) (u : unit) :
  setitem p key val s = (Ok u, s') -> same_kinds s s'.
Proof.
  unfold setitem. intros Hrun.
  apply bind_ok_inv in Hrun as (d & s1 & Hd & Hrun).
  apply read_subst_ok_inv in Hd as [-> Hd].
  by eapply write_subst_same_kinds.
Qed.

Lemma fill_private_args_ok_inv (p : loc) (args : fm_item) (s s' : state)
      (failed : option string) :
  fill_private_args p args s = (Ok failed, s') -> same_kinds s s'.
Proof.
  unfold fill_private_args. destruct args as [text|pairs].
  - intros Hrun. apply bind_ok_inv in Hrun as (d & s1 & Hd & Hrun).
    apply read_subst_ok_inv in Hd as [-> Hd].
    destruct (add_from_string d text) as [d'|[]]; try discriminate.
    + apply bind_ok_inv in Hrun as ([] & s1 & Hwrite & Hrun).
      apply ret_ok_inv in Hrun as [_ ->]. by eapply write_subst_same_kinds.
    + apply ret_ok_inv in Hrun as [_ ->]. apply same_kinds_refl.
  - apply (for_each_invariant (fun (_ : option string) t => same_kinds s t));
      [|apply same_kinds_refl].
    intros acc pair t acc' t' _ Hkinds Hstep.
    eapply same_kinds_trans; [exact Hkinds|].
    destruct acc as [err|].
    + apply ret_ok_inv in Hstep as [_ ->]. apply same_kinds_refl.
    + destruct (unpack2 pair) as [[key val]|[]]; try discriminate.
      * apply bind_ok_inv in Hstep as ([] & t1 & Hset & Hstep).
        apply ret_ok_inv in Hstep as [_ ->]. by eapply setitem_ok_inv.
      * apply ret_ok_inv in Hstep as [_ ->]. apply same_kinds_refl.
Qed.

Lemma resolve_forward_model_live (installed_jobs : Dict.t string loc)
      (sl : SubstitutionList) (config_file : string) (st st' : fm_state)
      (job : list fm_item) (s s' : state) :
  resolve_forward_model installed_jobs sl config_file st job s = (Ok st', s') ->
  Forall (live_job s) (snd st) ->
  Forall (live_job s') (snd st').
Proof.
  destruct st as [errors jobs]. unfold resolve_forward_model. intros Hrun Hlive.
  apply bind_ok_inv in Hrun as ([job_name args] & s0 & Hpair & Hrun).
  lift_inv Hpair. destruct job_name as [job_name|]; [|discriminate].
  destruct (Dict.get (substitute sl job_name) installed_jobs) as [registered|].
  2:{ apply ret_ok_inv in Hrun as [-> ->]. exact Hlive. }
  apply bind_ok_inv in Hrun as (copy & s1 & Hcopy & Hrun).
  apply deepcopy_ok_inv in Hcopy as [Hkinds1 Hcopy].
  assert (Hkept : forall t, same_kinds s1 t -> Forall (live_job t) (jobs ++ [copy])).
  { intros t Hkinds. apply Forall_app. split.
    - eapply Forall_impl; [exact Hlive|]. intros l Hl.
      eapply live_job_kept; [|exact Hl]. by eapply same_kinds_trans.
    - constructor; [|constructor]. by eapply live_job_kept. }
  destruct (truthy args).
  - apply bind_ok_inv in Hrun as (p & s2 & Hp & Hrun).
    apply alloc_ok_inv in Hp as (_ & _ & Hkinds2).
    apply bind_ok_inv in Hrun as (j & s3 & Hj & Hrun).
    apply read_job_ok_inv in Hj as [-> Hj].
    apply bind_ok_inv in Hrun as ([] & s3 & Hwrite & Hrun).
    apply (write_job_same_kinds _ _ _ _ _ _ Hj) in Hwrite as [Hkinds3 _].
    apply bind_ok_inv in Hrun as (failed & s4 & Hfill & Hrun).
    apply fill_private_args_ok_inv in Hfill.
    assert (Hall : same_kinds s1 s4).
    { eapply same_kinds_trans; [exact Hkinds2|].
      eapply same_kinds_trans; [exact Hkinds3|exact Hfill]. }
    destruct failed as [err|]; apply ret_ok_inv in Hrun as [-> ->]; simpl.
    + eapply Forall_impl; [exact Hlive|]. intros l Hl.
      eapply live_job_kept; [|exact Hl]. by eapply same_kinds_trans.
    + by apply Hkept.
  - apply ret_ok_inv in Hrun as [-> ->]. simpl. apply Hkept, same_kinds_refl.
Qed.

Lemma resolve_simulation_job_live (installed_jobs : Dict.t string loc)
      (config_file : string) (st st' : fm_state) (job_description : list string)
      (s s' : state) :
  resolve_simulation_job installed_jobs config_file st job_description s
  = (Ok st', s') ->
  Forall (live_job s) (snd st) ->
  Forall (live_job s') (snd st').
Proof.
  destruct st as [errors jobs]. unfold resolve_simulation_job. intros Hrun Hlive.
  destruct job_description as [|job_name arguments]; [discriminate|].
  destruct (Dict.get job_name installed_jobs) as [registered|].
  2:{ apply ret_ok_inv in Hrun as [-> ->]. exact Hlive. }
  apply bind_ok_inv in Hrun as (copy & s1 & Hcopy & Hrun).
  apply deepcopy_ok_inv in Hcopy as [Hkinds1 Hcopy].
  apply bind_ok_inv in Hrun as (j & s2 & Hj & Hrun).
  apply read_job_ok_inv in Hj as [-> Hj].
  apply bind_ok_inv in Hrun as ([] & s2 & Hwrite & Hrun).
  apply (write_job_same_kinds _ _ _ _ _ _ Hj) in Hwrite as [Hkinds2 Hnew].
  apply ret_ok_inv in Hrun as [-> ->]. simpl.
  apply Forall_app. split.
  - eapply Forall_impl; [exact Hlive|]. intros l Hl.
    eapply live_job_kept; [|exact Hl]. by eapply same_kinds_trans.
  - by repeat constructor.
Qed.

Lemma read_forward_model_live (installed_jobs : Dict.t string loc)
      (sl : SubstitutionList) (config_dict : ConfigDict) (config_file : string)
      (s s' : state) (jobs : list loc) :
  read_forward_model installed_jobs sl config_dict config_file s = (Ok jobs, s') ->
  Forall (live_job s') jobs.
Proof.
  unfold read_forward_model, resolve_all. intros Hrun.
  apply bind_ok_inv in Hrun as ([errors resolved] & s1 & Hall & Hrun).
  destruct errors; [|discriminate]. apply ret_ok_inv in Hrun as [-> ->].
  apply bind_ok_inv in Hall as (entries & s2 & Hentries & Hall). lift_inv Hentries.
  apply bind_ok_inv in Hall as (st & s3 & Hfirst & Hall).
  apply bind_ok_inv in Hall as (rows & s4 & Hrows & Hall). lift_inv Hrows.
  change resolved with (snd (@nil collected, resolved)).
  revert Hall.
  apply (for_each_invariant (fun (st : fm_state) t => Forall (live_job t) (snd st))).
  { intros acc x t acc' t' _ Hlive Hstep. by eapply resolve_simulation_job_live. }
  revert Hfirst.
  apply (for_each_invariant (fun (st : fm_state) t => Forall (live_job t) (snd st))).
  { intros acc x t acc' t' _ Hlive Hstep. by eapply resolve_forward_model_live. }
  constructor.
Qed.

Lemma job_names_of_live_jobs (s : state) (jobs : list loc) :
  Forall (live_job s) jobs ->
  forall acc,
  exists names,
    for_each (fun names l => let* j := read_job l in ret (names ++ [name j]))
             jobs acc s
    = (Ok (acc ++ names), s)
    /\ Forall2 (fun l job_name =>
                  exists j, store s !! l = Some (OJob j) /\ name j = job_name)
               jobs names.
Proof.
  induction 1 as [|l jobs [j Hj] _ IH]; intros acc.
  - exists []. rewrite app_nil_r. by split; [|constructor].
  - destruct (IH (acc ++ [name j])) as (names & Hrun & Hnames).
    exists (name j :: names). split.
    + simpl. unfold bind at 1. unfold bind at 1. rewrite (read_job_at _ _ _ Hj).
      unfold ret at 1. rewrite Hrun. by rewrite <- app_assoc.
    + constructor; [eauto|exact Hnames].
Qed.

(** In the state [from_dict] leaves, every entry of the forward model of the
    configuration it returns is a reference to a job object; so
    [forward_model_job_name_list] succeeds there, changes nothing, and
    returns the names of these job objects, one per entry and in order. *)
Theorem loaded_forward_model_has_names (config_dict : ConfigDict)
        (s s' : state) (cfg : ErtConfig) :
  from_dict config_dict s = (Ok cfg, s') ->
  exists names,
    forward_model_job_name_list cfg s' = (Ok names, s')
    /\ Forall2 (fun l job_name =>
                  exists j, store s' !! l = Some (OJob j) /\ name j = job_name)
               (forward_model_list cfg) names.
Proof.
  intros Hrun. apply from_dict_ok_inv in Hrun. cbv zeta in Hrun.
  destruct Hrun as (_ & _ & _ & _ & model & s1 & s2 & _ & _ & _ & _ & _ & Hfm).
  apply read_forward_model_live in Hfm.
  destruct (job_names_of_live_jobs s' (forward_model_list cfg) Hfm [])
    as (names & Hnames & Hall).
  exists names. split; [exact Hnames|exact Hall].
Qed.

End LiveJobs.

Section LiveJobsWitness.
Import Demo.

Lemma loaded_forward_model_has_names_witness :
  exists cfg s' names,
    from_dict Scenario2.echo_config initial = (Ok cfg, s')
    /\ forward_model_job_name_list cfg s' = (Ok names, s')
    /\ length names = length (forward_model_list cfg).
Proof.
  assert (Hrun : exists cfg s', from_dict Scenario2.echo_config initial = (Ok cfg, s')).
  { let outcome := eval vm_compute in (from_dict Scenario2.echo_config initial) in
    match outcome with
    | (Ok ?cfg, ?s') => exists cfg, s'
    end.
    reflexivity. }
  destruct Hrun as (cfg & s' & Hrun).
  destruct (loaded_forward_model_has_names (H1 := collaborators) _ _ _ _ Hrun)
    as (names & Hnames & Hall).
  exists cfg, s', names. split; [exact Hrun|]. split; [exact Hnames|].
  symmetry. by eapply Forall2_length.
Defined.

End LiveJobsWitness.

(** ** All or nothing, phase by phase *)

Lemma from_collected_info (errors : list ErrorInfo) :
  from_collected (map Info errors) = ConfigValidationError errors.
Proof.
  unfold from_collected. f_equal. induction errors as [|e errors IH]; [done|].
  simpl. by rewrite IH.
Qed.

Lemma try_config_outcome {A} (m : M A) (s s' : state) (r : A + list ErrorInfo) :
  outcome (m s) r s' -> try_config m s = (Ok r, s').
Proof. unfold outcome, try_config. destruct r; intros ->; reflexivity. Qed.

Section Gates.
Context `{PyBuiltins} `{FileSystem} `{Collaborators}.

(** The phases of [from_dict] between its two [raise] statements, each
    ending with a value or a [ConfigValidationError]: the errors they leave
    are those of the ensemble validation followed by the caught ones, in
    phase order. *)
Lemma load_phases_collects (config_dict : ConfigDict) (config_file : string)
      (sl0 : SubstitutionList) (s s1 s2 : state)
      (ensemble : EnsembleConfig) (ensemble_errors : list collected)
      (model : ModelConfig + list ErrorInfo)
      (workflow_result :
         Dict.t string WorkflowJob * Dict.t string Workflow * hooks_t
         + list ErrorInfo)
      (installed : Dict.t string loc + list ErrorInfo) :
  EnsembleConfig_from_dict config_dict = Ok ensemble ->
  _validate_ensemble_config config_file config_dict = Ok ensemble_errors ->
  outcome (lift (ModelConfig_from_dict (refcase ensemble) config_dict) s) model s ->
  outcome (_workflows_from_dict config_dict
             (match model with
              | inl model_config =>
                  Dict.set "<ECLBASE>" (eclbase_format_string model_config)
                    (Dict.set "<ECL_BASE>" (eclbase_format_string model_config)
                       (Dict.set "<RUNPATH>" (runpath_format_string model_config)
                                 sl0))
              | inr _ => sl0
              end) s)
          workflow_result s1 ->
  outcome (_installed_jobs_from_dict config_dict s1) installed s2 ->
  exists l,
    load_phases config_dict config_file sl0 [] s = (Ok (ensemble, l), s2)
    /\ loaded_errors l
       = ensemble_errors ++ caught_errors model ++ caught_errors workflow_result
         ++ caught_errors installed.
Proof.
  intros Hens Hvalid Hmodel Hwf Hjobs. unfold load_phases.
  rewrite Hens, bind_lift_ok, Hvalid, bind_lift_ok.
  rewrite (bind_step _ _ _ _ _ (try_config_outcome _ _ _ _ Hmodel)).
  destruct model as [model_config|model_errors]; cbv beta iota zeta;
    rewrite (bind_step _ _ _ _ _ (try_config_outcome _ _ _ _ Hwf));
    destruct workflow_result as [[[wj wf] hk]|workflow_errors]; cbv beta iota zeta;
    rewrite (bind_step _ _ _ _ _ (try_config_outcome _ _ _ _ Hjobs));
    destruct installed as [jobs|job_errors]; cbv beta iota zeta;
    eexists; (split; [reflexivity|]); simpl;
    rewrite ?app_nil_r, <- ?app_assoc; reflexivity.
Qed.

(** C3, as the code has it.  For a dictionary whose RUNPATH_FILE entry, if
    any, is a single path:
    - when the dictionary validation and the queue-option validation return
      errors, [from_dict] raises at once a [ConfigValidationError] that
      carries exactly these errors, in this order, and leaves the state as it
      was;
    - when these return no error, the ensemble configuration is built, its
      validation returns its errors, and each of the model configuration,
      the workflows and the job installation ends with a value or with a
      [ConfigValidationError], then, as soon as one error has been collected,
      [from_dict] raises one [ConfigValidationError] that carries all of them
      in phase order;
    - a configuration is returned only if every phase ran clean: both
      validations and the ensemble validation returned no error, the ensemble
      and model configurations, the workflows and the installed jobs were
      built, and the forward model was resolved, each phase run on what the
      phases before it produced. *)
Theorem from_dict_all_or_nothing (config_dict : ConfigDict) (s : state)
        (runpath : option string) :
  get_single ConfigKeys.RUNPATH_FILE config_dict = Ok runpath ->
  let sl0 := Dict.set "<RUNPATH_FILE>" (default DEFAULT_RUNPATH_FILE runpath)
                      (SubstitutionList_from_dict config_dict) in
  let config_file := default "no_config" (Dict.get "<CONFIG_FILE>" sl0) in
  (forall dict_errors queue_errors,
      _validate_dict config_dict config_file = Ok dict_errors ->
      _validate_queue_option_max_running config_file config_dict = Ok queue_errors ->
      dict_errors ++ queue_errors <> [] ->
      from_dict config_dict s
      = (Raise (ConfigValidationError (dict_errors ++ queue_errors)), s))
  /\ (forall ensemble ensemble_errors model workflow_result installed s1 s2,
        _validate_dict config_dict config_file = Ok [] ->
        _validate_queue_option_max_running config_file config_dict = Ok [] ->
        EnsembleConfig_from_dict config_dict = Ok ensemble ->
        _validate_ensemble_config config_file config_dict = Ok ensemble_errors ->
        outcome (lift (ModelConfig_from_dict (refcase ensemble) config_dict) s)
                model s ->
        outcome (_workflows_from_dict config_dict
                   (match model with
                    | inl model_config =>
                        Dict.set "<ECLBASE>" (eclbase_format_string model_config)
                          (Dict.set "<ECL_BASE>" (eclbase_format_string model_config)
                             (Dict.set "<RUNPATH>"
                                       (runpath_format_string model_config) sl0))
                    | inr _ => sl0
                    end) s)
                workflow_result s1 ->
        outcome (_installed_jobs_from_dict config_dict s1) installed s2 ->
        let errors := ensemble_errors ++ caught_errors model
                      ++ caught_errors workflow_result ++ caught_errors installed in
        errors <> [] ->
        from_dict config_dict s = (Raise (from_collected errors), s2))
  /\ (forall cfg s',
        from_dict config_dict s = (Ok cfg, s') ->
        _validate_dict config_dict config_file = Ok []
        /\ _validate_queue_option_max_running config_file config_dict = Ok []
        /\ EnsembleConfig_from_dict config_dict = Ok (ensemble_config cfg)
        /\ _validate_ensemble_config config_file config_dict = Ok []
        /\ exists model s1 s2,
            ModelConfig_from_dict (refcase (ensemble_config cfg)) config_dict
            = Ok model
            /\ model_config cfg = Some model
            /\ substitution_list cfg
               = Dict.set "<ECLBASE>" (eclbase_format_string model)
                   (Dict.set "<ECL_BASE>" (eclbase_format_string model)
                      (Dict.set "<RUNPATH>" (runpath_format_string model) sl0))
            /\ _workflows_from_dict config_dict (substitution_list cfg) s
               = (Ok (workflow_jobs cfg, workflows cfg, hooked_workflows cfg), s1)
            /\ _installed_jobs_from_dict config_dict s1
               = (Ok (installed_jobs cfg), s2)
            /\ read_forward_model (installed_jobs cfg) (substitution_list cfg)
                                  config_dict config_file s2
               = (Ok (forward_model_list cfg), s')).
Proof.
  intros Hrunpath sl0 config_file. split; [|split].
  - intros dict_errors queue_errors Hdict Hqueue Hsome.
    unfold from_dict. rewrite Hrunpath, bind_lift_ok. cbv zeta.
    fold sl0. fold config_file. rewrite Hdict, bind_lift_ok, Hqueue, bind_lift_ok.
    rewrite <- from_collected_info.
    destruct (dict_errors ++ queue_errors); [done|reflexivity].
  - intros ensemble ensemble_errors model workflow_result installed s1 s2
           Hdict Hqueue Hens Hvalid Hmodel Hwf Hjobs errors Hsome.
    destruct (load_phases_collects config_dict config_file sl0 s s1 s2
                ensemble ensemble_errors model workflow_result installed
                Hens Hvalid Hmodel Hwf Hjobs) as (l & Hphases & Herrors).
    unfold from_dict. rewrite Hrunpath, bind_lift_ok. cbv zeta.
    fold sl0. fold config_file. rewrite Hdict, bind_lift_ok, Hqueue, bind_lift_ok.
    change (map Info ([] ++ [])) with (@nil collected). cbv iota.
    rewrite (bind_step _ _ _ _ _ Hphases). cbv beta iota.
    rewrite Herrors. fold errors.
    destruct errors; [done|reflexivity].
  - intros cfg s' Hrun.
    pose proof (from_dict_fields _ _ _ _ Hrun)
      as (declared & _ & _ & Hdeclared & Hfile & _).
    rewrite Hrunpath in Hdeclared. injection Hdeclared as <-.
    apply from_dict_ok_inv in Hrun. cbv zeta in Hrun. rewrite Hfile in Hrun.
    exact Hrun.
Qed.

End Gates.

Section GatesWitness.
Import Demo.

Lemma from_dict_all_or_nothing_witness :
  from_dict Scenario12.three_phases_in_error initial
  = (Raise
       (ConfigValidationError
          [ {| message := "Loading GEN_KW from files created by the forward model is not supported.";
               filename := Some "demo.ert"; context := None |};
            {| message := "Cannot setup hook for non-existing job name 'no_such_workflow'";
               filename := None;
               context := Some (ContextToken "no_such_workflow") |};
            {| message := "Could not open job config file '/jobs/missing.job'";
               filename := Some "/jobs/missing.job"; context := None |} ]),
     initial).
Proof.
  destruct (from_dict_all_or_nothing
              (H1 := collaborators) Scenario12.three_phases_in_error initial None
              eq_refl) as (_ & Hgate & _).
  cbv zeta in Hgate.
  apply (Hgate
           tt
           [ Caught [ {| message := "Loading GEN_KW from files created by the forward model is not supported.";
                         filename := Some "demo.ert"; context := None |} ] ]
           (inl tt)
           (inr [ {| message := "Cannot setup hook for non-existing job name 'no_such_workflow'";
                     filename := None;
                     context := Some (ContextToken "no_such_workflow") |} ])
           (inr [ {| message := "Could not open job config file '/jobs/missing.job'";
                     filename := Some "/jobs/missing.job"; context := None |} ])
           initial initial);
    try reflexivity.
  discriminate.
Defined.

(** C3, as the claim states it, fails on two counts.  A workflow file that
    fails validation is an error of workflow loading, yet [from_dict]
    returns a configuration: the error is turned into a warning and the
    workflow is left out.  And an error that has been collected does not
    make [from_dict] raise a [ConfigValidationError] when a later phase ends
    with another exception: here the GEN_KW error is collected, the hook
    declaration cannot be unpacked, and a [ValueError] leaves [from_dict]. *)
Lemma broken_workflow_still_loads :
  (exists cfg s',
      from_dict Scenario12.broken_workflow initial = (Ok cfg, s')
      /\ Workflow_from_file "/broken/plot" (substitution_list cfg) (workflow_jobs cfg)
         = Raise (ConfigValidationError
                    [ {| message := "Could not open workflow '/broken/plot'";
                         filename := Some "/broken/plot"; context := None |} ])
      /\ workflows cfg = []
      /\ warnings s'
         = ["Encountered the following error(s) while reading workflow 'plot'. It will not be loaded: Could not open workflow '/broken/plot'"])
  /\ _validate_ensemble_config "demo.ert" Scenario12.collected_then_malformed
     = Ok [ Caught [ {| message := "Loading GEN_KW from files created by the forward model is not supported.";
                        filename := Some "demo.ert"; context := None |} ] ]
  /\ from_dict Scenario12.collected_then_malformed initial
     = (Raise (ValueError "too many values to unpack (expected 2)"), initial).
Proof.
  split; [|split; reflexivity].
  let outcome := eval vm_compute in (from_dict Scenario12.broken_workflow initial) in
  match outcome with
  | (Ok ?cfg, ?s') => exists cfg, s'
  end.
  repeat split; reflexivity.
Qed.

End GatesWitness.

(** ** When a configuration is returned *)

Section CleanLoad.
Context `{PyBuiltins} `{FileSystem} `{Collaborators}.

Lemma try_config_ok {A} (m : M A) (s s' : state) (a : A) :
  m s = (Ok a, s') -> try_config m s = (Ok (inl a), s').
Proof. intros Hm. unfold try_config. by rewrite Hm. Qed.

Lemma load_phases_clean (config_dict : ConfigDict) (config_file : string)
      (sl0 : SubstitutionList) (s s1 s2 : state)
      (ensemble : EnsembleConfig) (model : ModelConfig)
      (wj : Dict.t string WorkflowJob) (wf : Dict.t string Workflow)
      (hk : hooks_t) (jobs : Dict.t string loc) :
  let sl := Dict.set "<ECLBASE>" (eclbase_format_string model)
              (Dict.set "<ECL_BASE>" (eclbase_format_string model)
                 (Dict.set "<RUNPATH>" (runpath_format_string model) sl0)) in
  EnsembleConfig_from_dict config_dict = Ok ensemble ->
  _validate_ensemble_config config_file config_dict = Ok [] ->
  ModelConfig_from_dict (refcase ensemble) config_dict = Ok model ->
  _workflows_from_dict config_dict sl s = (Ok (wj, wf, hk), s1) ->
  _installed_jobs_from_dict config_dict s1 = (Ok jobs, s2) ->
  load_phases config_dict config_file sl0 [] s
  = (Ok (ensemble, mkLoaded [] sl (Some model) wj wf hk jobs), s2).
Proof.
  intros sl Hens Hvalid Hmodel Hwf Hjobs. unfold load_phases.
  rewrite Hens, bind_lift_ok, Hvalid, bind_lift_ok, Hmodel.
  rewrite (bind_step _ _ _ _ _ (try_config_ok (lift (Ok model)) s s model eq_refl)).
  cbv beta iota zeta. fold sl.
  rewrite (bind_step _ _ _ _ _ (try_config_ok _ _ _ _ Hwf)). cbv beta iota zeta.
  rewrite (bind_step _ _ _ _ _ (try_config_ok _ _ _ _ Hjobs)). reflexivity.
Qed.

(** [from_dict] returns a configuration exactly when every phase, run on
    what the phases before it produced (the substitution list completed by
    the model configuration, the state the workflows and the job
    installation leave, the registry of installed jobs), completes without
    an error and without an exception; the configuration then holds what the
    phases produced.  When no such run exists, whichever phase is at fault,
    forward-model resolution included, [from_dict] raises. *)
Theorem from_dict_returns_iff_clean (config_dict : ConfigDict) (s : state) :
  (forall cfg s', from_dict config_dict s = (Ok cfg, s')
                  <-> clean_load config_dict s cfg s')
  /\ ((forall cfg s', ~ clean_load config_dict s cfg s') ->
      exists e s', from_dict config_dict s = (Raise e, s')).
Proof.
  assert (Hiff : forall cfg s', from_dict config_dict s = (Ok cfg, s')
                                <-> clean_load config_dict s cfg s').
  { intros cfg s'. split.
    - intros Hrun. unfold from_dict in Hrun.
      apply bind_ok_inv in Hrun as (runpath & t & Hrunpath & Hrun). lift_inv Hrunpath.
      cbv zeta in Hrun.
      apply bind_ok_inv in Hrun as (e1 & t & Hdict & Hrun). lift_inv Hdict.
      apply bind_ok_inv in Hrun as (e2 & t & Hqueue & Hrun). lift_inv Hqueue.
      destruct (map Info (e1 ++ e2)) as [|e errors] eqn:Hgate; [|discriminate].
      apply map_eq_nil, app_eq_nil in Hgate as [-> ->].
      apply bind_ok_inv in Hrun as ([ensemble l] & s2 & Hphases & Hrun).
      destruct (loaded_errors l) as [|e errors] eqn:Hclean; [|discriminate].
      apply load_phases_ok_inv in Hphases; [|exact Hclean].
      destruct Hphases
        as (Hens & Hval & model & s1 & Hmodel & Hmc & Hsl & Hwf & Hjobs).
      apply bind_ok_inv in Hrun as (setenv & t & Hsetenv & Hrun). lift_inv Hsetenv.
      apply bind_ok_inv in Hrun as (env & t & Henv & Hrun). lift_inv Henv.
      apply bind_ok_inv in Hrun as (ens & t & Henspath & Hrun). lift_inv Henspath.
      apply bind_ok_inv in Hrun as (seed & t & Hseed & Hrun). lift_inv Hseed.
      apply bind_ok_inv in Hrun as (analysis & t & Hanalysis & Hrun).
      lift_inv Hanalysis.
      apply bind_ok_inv in Hrun as (queue & t & Hq & Hrun). lift_inv Hq.
      apply bind_ok_inv in Hrun as (templates & t & Htemplates & Hrun).
      lift_inv Htemplates.
      apply bind_ok_inv in Hrun as (fm & t & Hfm & Hrun).
      apply ret_ok_inv in Hrun as [-> ->].
      exists runpath, ensemble, model, s1, s2, setenv, ens.
      split; [exact Hrunpath|]. cbv zeta. simpl.
      rewrite Hsl in Hwf, Hfm.
      repeat split; assumption.
    - intros (runpath & ensemble & model & s1 & s2 & setenv & ens & Hrunpath & Hrest).
      cbv zeta in Hrest.
      destruct Hrest as (Hdict & Hqueue & Hens & Hval & Hmodel & Hwf & Hjobs
                         & Hsetenv & Henv & Henspath & Hseed & Hanalysis & Hq
                         & Htemplates & Hfm & Hsl & Hec & Hmc & Hrf & Hep & Hucf
                         & Hcp & Hwi).
      unfold from_dict. rewrite Hrunpath, bind_lift_ok. cbv zeta.
      rewrite Hdict, bind_lift_ok, Hqueue, bind_lift_ok.
      change (map Info ([] ++ [])) with (@nil collected). cbv iota.
      rewrite (bind_step _ _ _ _ _
                 (load_phases_clean _ _ _ _ _ _ _ _ _ _ _ _
                                    Hens Hval Hmodel Hwf Hjobs)).
      cbv beta iota
          delta [loaded_errors loaded_installed_jobs loaded_substitution_list
                 loaded_workflow_jobs loaded_workflows loaded_hooked_workflows
                 loaded_model_config].
      rewrite Hsetenv, bind_lift_ok, Henv, bind_lift_ok, Henspath, bind_lift_ok,
        Hseed, bind_lift_ok, Hanalysis, bind_lift_ok, Hq, bind_lift_ok,
        Htemplates, bind_lift_ok.
      rewrite (bind_step _ _ _ _ _ Hfm). unfold ret. f_equal. f_equal.
      destruct cfg. simpl in *. by subst. }
  split; [exact Hiff|].
  intros Hnone. destruct (from_dict config_dict s) as [[cfg|e] s'] eqn:Hrun; [|eauto].
  exfalso. apply (Hnone cfg s'). by apply Hiff.
Qed.

End CleanLoad.

(** Replacing the left-hand side of an equation between closed terms by
    its value. *)
Ltac evaluate_in H :=
  match type of H with
  | ?run = _ =>
      let value := eval vm_compute in run in
      let Hvalue := fresh "Hvalue" in
      assert (Hvalue : run = value) by reflexivity;
      rewrite Hvalue in H; clear Hvalue
  end.

Section CleanLoadWitness.
Import Demo.

Lemma from_dict_returns_iff_clean_witness :
  (forall cfg s', ~ clean_load Scenario12.typo initial cfg s')
  /\ exists e s', from_dict Scenario12.typo initial = (Raise e, s').
Proof.
  assert (Hnone : forall cfg s', ~ clean_load Scenario12.typo initial cfg s').
  { intros cfg s' (runpath & ensemble & model & s1 & s2 & setenv & ens
                   & Hrunpath & Hrest).
    cbv zeta in Hrest.
    destruct Hrest as (_ & _ & _ & _ & _ & Hwf & Hjobs & _ & _ & _ & _ & _ & _
                       & _ & Hfm & _).
    evaluate_in Hrunpath. injection Hrunpath as <-.
    destruct model.
    evaluate_in Hwf. injection Hwf as _ _ _ <-.
    evaluate_in Hjobs. injection Hjobs as Hregistry <-.
    rewrite <- Hregistry in Hfm. evaluate_in Hfm. discriminate. }
  split; [exact Hnone|].
  exact (proj2 (from_dict_returns_iff_clean (H1 := collaborators)
                  Scenario12.typo initial) Hnone).
Defined.

End CleanLoadWitness.

(** ** Hooks behind a workflow job in error *)

Section HiddenHooks.
Import Demo.


End HiddenHooks.
